(** * Verification of [scripts/build.py]: the mod build and release script

    The development embeds the script shallowly:
    - text is [string], read as a sequence of code points 0..255;
    - the two regular expressions of the script are values of a small
      regular-expression type, run by a backtracking matcher that follows
      the behaviour of Python's [re] (greedy repetition, [^], [$], one
      capture group, [re.match] and [re.findall]);
    - paths are lists of components under the root [/]; the file system is
      a tree of files, directories and symbolic links, and
      [pathlib.Path.resolve] walks it;
    - the methods of [SafeFileOps], [RemoteCommandWrapper] and [ModBuilder]
      are functions in a state-and-exception monad; everything the script
      obtains from outside (the JSON decoder, external programs, the user)
      comes from an explicit environment record.

    What the model leaves out:
    - every path is absolute: a relative path stands for the path it is
      joined to from the working directory;
    - a link loop makes [resolve] raise [RuntimeError], as Python does up
      to 3.12; the walk follows at most [fuel] links, and every statement
      holds for every [fuel];
    - permissions, devices and the other kinds of entries of a file system
      are not there, nor is anything that runs at the same time as the
      script;
    - characters beyond the code point 255 are not there, so the
      digits [\d] matches are [0] to [9] only;
    - an entry of an archive is its name, as [zipfile] makes it from the
      [arcname], and its data; time stamps and compression are not
      there;
    - the lines written by [log] are not kept; the texts written by
      [print_all_commands] are. *)

From Stdlib Require Import String Ascii List Bool Arith ZArith Lia.
Import ListNotations.
Open Scope string_scope.
Open Scope list_scope.
Open Scope nat_scope.

Set Implicit Arguments.
Set Warnings "-register-all".

(* ================================================================== *)
(** * Text *)
(* ================================================================== *)

Module Text.

(** [c.isdigit()] / the class [\d] on code points below 256. *)
Definition is_digit (c : ascii) : bool :=
  let n := nat_of_ascii c in (48 <=? n) && (n <=? 57).

(** [c.isspace()] / the class [\s] on code points below 256:
    TAB, LF, VT, FF, CR, the separators 28..31, space, NEL and NBSP. *)
Definition is_space (c : ascii) : bool :=
  let n := nat_of_ascii c in
  ((9 <=? n) && (n <=? 13)) || ((28 <=? n) && (n <=? 32))
  || (n =? 133) || (n =? 160).

Definition newline : ascii := ascii_of_nat 10.
Definition carriage_return : ascii := ascii_of_nat 13.
Definition nl : string := String newline EmptyString.

Fixpoint drop (n : nat) (s : string) : string :=
  match n, s with
  | S n', String _ s' => drop n' s'
  | _, _ => s
  end.

Fixpoint take (n : nat) (s : string) : string :=
  match n, s with
  | S n', String c s' => String c (take n' s')
  | _, _ => EmptyString
  end.

(** [s.startswith(p)] *)
Fixpoint startswith (p s : string) : bool :=
  match p, s with
  | EmptyString, _ => true
  | String a p', String b s' => Ascii.eqb a b && startswith p' s'
  | String _ _, EmptyString => false
  end.

(** [s.endswith(p)] *)
Definition endswith (p s : string) : bool :=
  (String.length p <=? String.length s)
  && String.eqb (drop (String.length s - String.length p) s) p.

(** [s.lstrip()], [s.rstrip()] and [s.strip()] *)
Fixpoint lstrip (s : string) : string :=
  match s with
  | String c s' => if is_space c then lstrip s' else s
  | EmptyString => EmptyString
  end.

Fixpoint rstrip (s : string) : string :=
  match s with
  | EmptyString => EmptyString
  | String c s' =>
      match rstrip s' with
      | EmptyString => if is_space c then EmptyString else String c EmptyString
      | r => String c r
      end
  end.

Definition strip (s : string) : string := rstrip (lstrip s).

(** [s.lower()] on the letters A..Z and the Latin-1 capitals. *)
Definition lower_char (c : ascii) : ascii :=
  let n := nat_of_ascii c in
  if ((65 <=? n) && (n <=? 90))
     || ((192 <=? n) && (n <=? 222) && negb (n =? 215))
  then ascii_of_nat (n + 32) else c.

Fixpoint lower (s : string) : string :=
  match s with
  | EmptyString => EmptyString
  | String c s' => String (lower_char c) (lower s')
  end.

(** [sep.join(l)] *)
Fixpoint join (sep : string) (l : list string) : string :=
  match l with
  | [] => EmptyString
  | [x] => x
  | x :: l' => (x ++ sep ++ join sep l')%string
  end.

(** The length of the longest prefix of [s] whose characters satisfy [p]. *)
Fixpoint run_length (p : ascii -> bool) (s : string) : nat :=
  match s with
  | String c s' => if p c then S (run_length p s') else 0
  | EmptyString => 0
  end.

Fixpoint all_chars (p : ascii -> bool) (s : string) : bool :=
  match s with
  | EmptyString => true
  | String c s' => p c && all_chars p s'
  end.

End Text.

(* ================================================================== *)
(** * Regular expressions, as the script uses them *)
(* ================================================================== *)

Module Re.
Import Text.

(** Character classes of the script's patterns. *)
Inductive cls : Type :=
| Lit (c : ascii)     (* a literal character, also an escaped one: [\.] *)
| Digit               (* [\d] *)
| Space.              (* [\s] *)

Definition in_cls (a : cls) (c : ascii) : bool :=
  match a with
  | Lit d => Ascii.eqb d c
  | Digit => is_digit c
  | Space => is_space c
  end.

(** Patterns: sequences of single characters, greedy repetitions of a
    class ([a*] is [Rep a 0], [a+] is [Rep a 1]), the anchors and one
    kind of capture group. *)
Inductive regex : Type :=
| Eps
| Chr (a : cls)
| Rep (a : cls) (min : nat)
| Seq (r1 r2 : regex)
| Bol                 (* [^] *)
| Eol                 (* [$]: at the end, or before a final line feed *)
| Grp (r : regex).    (* [( ... )] *)

(** A literal word. *)
Fixpoint word (s : string) : regex :=
  match s with
  | EmptyString => Eps
  | String c s' => Seq (Chr (Lit c)) (word s')
  end.

Section Matcher.
Variable R : Type.

(** The continuation receives the position reached, the text left and
    the text captured by the group so far. *)
Definition cont : Type := nat -> string -> option string -> option R.

(** Greedy repetition: the longest run first, then one character less
    at a time, never fewer than [min]. *)
Fixpoint rep_try (n min pos : nat) (s : string) (cap : option string)
         (k : cont) : option R :=
  match (if min <=? n then k (pos + n) (drop n s) cap else None) with
  | Some r => Some r
  | None =>
      match n with
      | 0 => None
      | S n' => rep_try n' min pos s cap k
      end
  end.

Fixpoint exec (r : regex) (pos : nat) (s : string) (cap : option string)
         (k : cont) : option R :=
  match r with
  | Eps => k pos s cap
  | Chr a =>
      match s with
      | String c s' => if in_cls a c then k (S pos) s' cap else None
      | EmptyString => None
      end
  | Rep a min => rep_try (run_length (in_cls a) s) min pos s cap k
  | Seq r1 r2 =>
      exec r1 pos s cap (fun pos' s' cap' => exec r2 pos' s' cap' k)
  | Bol => if pos =? 0 then k pos s cap else None
  | Eol =>
      if String.eqb s EmptyString || String.eqb s nl then k pos s cap else None
  | Grp r1 =>
      exec r1 pos s cap
           (fun pos' s' _ => k pos' s' (Some (take (pos' - pos) s)))
  end.
End Matcher.

(** [bool(re.match(r, s))] *)
Definition matches (r : regex) (s : string) : bool :=
  match exec r 0 s None (fun _ _ _ => Some tt) with
  | Some _ => true
  | None => false
  end.

(** One attempt of [re.findall] at position [pos]: the text of the group
    and the number of characters the match consumed. *)
Definition match_here (r : regex) (pos : nat) (s : string)
  : option (string * nat) :=
  exec r pos s None
       (fun pos' _ cap =>
          Some (match cap with Some c => c | None => EmptyString end, pos' - pos)).

(** [re.findall(r, s)] for a pattern with one group: the matches are
    found left to right and do not overlap; [skip] counts the characters
    of the previous match still to pass. *)
Fixpoint findall_from (r : regex) (pos skip : nat) (s : string)
  : list string :=
  match s with
  | EmptyString =>
      match skip with
      | 0 => match match_here r pos EmptyString with
             | Some (c, _) => [c]
             | None => []
             end
      | S _ => []
      end
  | String _ s' =>
      match skip with
      | S n => findall_from r (S pos) n s'
      | 0 =>
          match match_here r pos s with
          | Some (c, used) => c :: findall_from r (S pos) (used - 1) s'
          | None => findall_from r (S pos) 0 s'
          end
      end
  end.

Definition findall (r : regex) (s : string) : list string :=
  findall_from r 0 0 s.

(** The texts a pattern can consume. *)
Fixpoint lang (r : regex) (w : string) : Prop :=
  match r with
  | Eps | Bol | Eol => w = EmptyString
  | Chr a => exists c, w = String c EmptyString /\ in_cls a c = true
  | Rep a min => all_chars (in_cls a) w = true /\ min <= String.length w
  | Seq r1 r2 =>
      exists w1 w2, w = (w1 ++ w2)%string /\ lang r1 w1 /\ lang r2 w2
  | Grp r1 => lang r1 w
  end.

End Re.

(* ================================================================== *)
(** * Paths and the file system *)
(* ================================================================== *)

Module Fs.
Import Text.

(** An absolute path: its components below the root [/].  The root is
    the empty list. *)
Definition path : Type := list string.

Definition path_eqb (p q : path) : bool :=
  if list_eq_dec string_dec p q then true else false.

(** [q.relative_to(p)] succeeds exactly when the parts of [p] begin the
    parts of [q]. *)
Fixpoint is_prefix (p q : path) : bool :=
  match p, q with
  | [], _ => true
  | a :: p', b :: q' => String.eqb a b && is_prefix p' q'
  | _ :: _, [] => false
  end.

(** [p.parent]: the root is its own parent. *)
Definition parent (p : path) : path := removelast p.

(** Splitting a path text at [/]. *)
Fixpoint split_slash (acc s : string) : list string :=
  match s with
  | EmptyString => [acc]
  | String c s' =>
      if Ascii.eqb c "/" then acc :: split_slash EmptyString s'
      else split_slash (acc ++ String c EmptyString)%string s'
  end.

Definition raw_parts (s : string) : list string := split_slash EmptyString s.

Definition is_absolute (s : string) : bool := startswith "/" s.

(** A component that names an entry: not empty, not [.], not [..]. *)
Definition plain_name (c : string) : bool :=
  negb (String.eqb c EmptyString) && negb (String.eqb c ".")
  && negb (String.eqb c "..").

(** The parts [pathlib] keeps of a path text: empty components and [.]
    are dropped, [..] stays. *)
Definition parts (s : string) : list string :=
  filter (fun c => negb (String.eqb c EmptyString) && negb (String.eqb c "."))
         (raw_parts s).

(** [p / s]: an absolute [s] replaces [p]. *)
Definition joinpath (p : path) (s : string) : path :=
  if is_absolute s then parts s else p ++ parts s.

(** [str(p)] *)
Definition path_str (p : path) : string := "/" ++ join "/" p.

(** [p.is_absolute()].  A path of the model is the list of the
    components below the root: it stands for an absolute path. *)
Definition path_is_absolute (p : path) : bool := true.

(** The slashes [pathlib] and [os.path.normpath] keep at the start of a
    path text: two when there are exactly two, else one. *)
Definition root_of (s : string) : string :=
  if startswith "//" s && negb (startswith "///" s) then "//"
  else if is_absolute s then "/"
  else EmptyString.

(** The loop of [os.path.normpath] over the components: [new_comps] is
    [acc]. *)
Fixpoint norm_comps (rooted : bool) (acc comps : list string)
  : list string :=
  match comps with
  | [] => acc
  | c :: comps' =>
      if String.eqb c EmptyString || String.eqb c "." then norm_comps rooted acc comps'
      else if negb (String.eqb c "..")
              || (negb rooted && match acc with [] => true | _ => false end)
              || (match acc with [] => false | _ => true end
                  && String.eqb (last acc EmptyString) "..")
      then norm_comps rooted (acc ++ [c]) comps'
      else norm_comps rooted (removelast acc) comps'
  end.

(** [os.path.normpath] of [posixpath] *)
Definition normpath (s : string) : string :=
  if String.eqb s EmptyString then "."
  else
    let root := root_of s in
    let comps :=
      norm_comps (negb (String.eqb root EmptyString)) [] (raw_parts s) in
    let p := (root ++ join "/" comps)%string in
    if String.eqb p EmptyString then "." else p.

(** A text without the slashes at its start, and a text up to its first
    null character. *)
Fixpoint drop_slashes (s : string) : string :=
  match s with
  | EmptyString => EmptyString
  | String c s' => if Ascii.eqb c "/" then drop_slashes s' else s
  end.

Fixpoint until_nul (s : string) : string :=
  match s with
  | EmptyString => EmptyString
  | String c s' =>
      if Ascii.eqb c Ascii.zero then EmptyString else String c (until_nul s')
  end.

(** What a file holds: text, or an archive with its entries (the name
    given to each entry and what was stored under it). *)
Inductive fdata : Type :=
| Text (s : string)
| Archive (entries : list (string * fdata)).

Inductive node : Type :=
| File (data : fdata)
| Dir (entries : list (string * node))
| Symlink (target : string).

Fixpoint assoc (A : Type) (k : string) (l : list (string * A)) : option A :=
  match l with
  | [] => None
  | (k', v) :: l' => if String.eqb k k' then Some v else assoc k l'
  end.

(** The entry at a path, symbolic links not followed ([os.lstat] of a
    path whose directories are real). *)
Fixpoint lookup (n : node) (p : path) : option node :=
  match p with
  | [] => Some n
  | c :: p' =>
      match n with
      | Dir es =>
          match assoc c es with
          | Some n' => lookup n' p'
          | None => None
          end
      | _ => None
      end
  end.

Definition is_dir_node (o : option node) : bool :=
  match o with Some (Dir _) => true | _ => false end.

Definition is_file_node (o : option node) : bool :=
  match o with Some (File _) => true | _ => false end.

Definition not_link (o : option node) : bool :=
  match o with Some (Symlink _) => false | _ => true end.

(** Walking a path from the directory [cur], following symbolic links.
    With [strict = false] this is [os.path.realpath]: components that do
    not exist are kept.  With [strict = true] it is the walk the kernel
    does for [stat]: every directory on the way must exist.  [fuel]
    bounds the number of links followed; running out is a link loop. *)
Fixpoint walk (strict : bool) (fuel : nat) (fs : node)
  : path -> list string -> option path :=
  fix go (cur : path) (rest : list string) {struct rest} : option path :=
    match rest with
    | [] => Some cur
    | c :: rest' =>
        if strict && negb (is_dir_node (lookup fs cur)) then None
        else if String.eqb c EmptyString || String.eqb c "." then go cur rest'
        else if String.eqb c ".." then go (removelast cur) rest'
        else
          match lookup fs (cur ++ [c]) with
          | Some (Symlink t) =>
              match fuel with
              | 0 => None
              | S fuel' =>
                  walk strict fuel' fs
                       (if is_absolute t then [] else cur)
                       (raw_parts t ++ rest')
              end
          | Some _ => go (cur ++ [c]) rest'
          | None => if strict then None else go (cur ++ [c]) rest'
          end
    end.

(** [p.resolve()]; [None] is the [RuntimeError] of a link loop. *)
Definition resolve (fuel : nat) (fs : node) (p : path) : option path :=
  walk false fuel fs [] p.

(** [os.stat(p)]: the entry [p] leads to, links followed. *)
Definition stat (fuel : nat) (fs : node) (p : path) : option node :=
  match walk true fuel fs [] p with
  | Some q => lookup fs q
  | None => None
  end.

Definition is_file (fuel : nat) (fs : node) (p : path) : bool :=
  is_file_node (stat fuel fs p).

Definition is_dir (fuel : nat) (fs : node) (p : path) : bool :=
  is_dir_node (stat fuel fs p).

Definition exists_ (fuel : nat) (fs : node) (p : path) : bool :=
  match stat fuel fs p with Some _ => true | None => false end.

(** A path is canonical when each component names an entry and no
    component is a symbolic link. *)
Fixpoint canonical_from (fs : node) (cur rest : path) : bool :=
  match rest with
  | [] => true
  | c :: rest' =>
      plain_name c && not_link (lookup fs (cur ++ [c]))
      && canonical_from fs (cur ++ [c]) rest'
  end.

Definition canonical (fs : node) (p : path) : bool := canonical_from fs [] p.

(** ** Changing the tree *)

(** Entries of a directory with the entry [c] set to [v], or removed.
    The names of a directory are distinct, so the first entry of that
    name is the only one. *)
Fixpoint set_entry (c : string) (v : option node) (es : list (string * node))
  : list (string * node) :=
  match es with
  | [] => match v with Some n => [(c, n)] | None => [] end
  | (k, n) :: es' =>
      if String.eqb c k
      then match v with
           | Some n' => (k, n') :: es'
           | None => es'
           end
      else (k, n) :: set_entry c v es'
  end.

(** The tree with the entry at [p] replaced by [f] of what is there.
    [None] when [p] is the root or its parent is not a directory of the
    tree. *)
Fixpoint alter (f : option node -> option node) (p : path) (n : node)
  : option node :=
  match p, n with
  | [], _ => None
  | [c], Dir es => Some (Dir (set_entry c (f (assoc c es)) es))
  | c :: p', Dir es =>
      match assoc c es with
      | Some ch =>
          match alter f p' ch with
          | Some ch' => Some (Dir (set_entry c (Some ch') es))
          | None => None
          end
      | None => None
      end
  | _ :: _, _ => None
  end.

(** Removing the entry at [p], with everything below it. *)
Definition remove (p : path) (fs : node) : option node :=
  alter (fun _ => None) p fs.

(** Creating or replacing the entry at [p]. *)
Definition put (p : path) (v : node) (fs : node) : option node :=
  alter (fun _ => Some v) p fs.

(** The tree with the node at [p] replaced by [v]; [None] when there is
    no node at [p]. *)
Fixpoint replace (p : path) (v : node) (n : node) : option node :=
  match p with
  | [] => Some v
  | c :: p' =>
      match n with
      | Dir es =>
          match assoc c es with
          | Some ch =>
              match replace p' v ch with
              | Some ch' => Some (Dir (set_entry c (Some ch') es))
              | None => None
              end
          | None => None
          end
      | _ => None
      end
  end.

Definition is_link (n : node) : bool :=
  match n with Symlink _ => true | _ => false end.

(** A tree whose directories list each name once. *)
Fixpoint distinct (l : list string) : bool :=
  match l with
  | [] => true
  | x :: l' => negb (existsb (String.eqb x) l') && distinct l'
  end.


End Fs.

(* ================================================================== *)
(** * Exceptions and the state-and-exception monad *)
(* ================================================================== *)

Module Exn.
Import Fs.

(** One constructor for each [raise BuildError(...)] of the script, with
    the values its message shows. *)
Inductive build_error : Type :=
| PathOutsideProject (resolved project : path)
| CannotModifyGit (resolved : path)
| PathOutsideOutput (resolved output : path)
| NotDirectChild (resolved : path)
| NotAFile (validated : path)
| NotADirectory (validated : path)
| NotInAllowedLocations (resolved : path)
| ProjectNotAbsolute
| OutputDirMismatch
| ProjectIsRoot
| InfoJsonNotFound
| VersionFieldMissing
| NameFieldMissing
| ChangelogNotFound
| NoVersionInChangelog
| InfoVersionFormat (version : string)
| ChangelogVersionFormat (version : string)
| VersionMismatch (info_version changelog_version : string)
| PreviousVersionFormat (version : string)
| ArchiverMissing
| BackupFailed (stderr : string)
| FactorioNotFound
| FactorioFailed
| TagExists (version : string)
| PreviousTagMissing (version : string)
| GhMissing
| PackageNotFound (zip_path : path).

Inductive exn : Type :=
| BuildError (e : build_error)
| KeyboardInterrupt
| Unexpected.                    (* any other exception *)

Inductive result (A : Type) : Type :=
| Ok (a : A)
| Raise (e : exn).

Arguments Raise {A} e.

(** A computation on a state [S]: the state it leaves is kept when it
    raises, as the effects of a Python method are. *)
Definition M (S A : Type) : Type := S -> result A * S.

Definition ret {S A : Type} (a : A) : M S A := fun s => (Ok a, s).

Definition bind {S A B : Type} (m : M S A) (f : A -> M S B) : M S B :=
  fun s =>
    match m s with
    | (Ok a, s') => f a s'
    | (Raise e, s') => (Raise e, s')
    end.

Definition raise {S A : Type} (e : exn) : M S A := fun s => (Raise e, s).

Definition get {S : Type} : M S S := fun s => (Ok s, s).

Definition modify {S : Type} (f : S -> S) : M S unit :=
  fun s => (Ok tt, f s).

(** A pure result, placed in the monad. *)
Definition lift {S A : Type} (r : result A) : M S A := fun s => (r, s).

Declare Scope monad_scope.
Delimit Scope monad_scope with monad.

Notation "x <- m ;; k" := (bind m (fun x => k))
  (at level 100, m at next level, right associativity) : monad_scope.
Notation "m ;;; k" := (bind m (fun _ => k))
  (at level 100, right associativity) : monad_scope.

(** [for x in l: body(x)], stopping at the first exception. *)
Fixpoint for_each {S A : Type} (l : list A) (body : A -> M S unit)
  : M S unit :=
  match l with
  | [] => ret tt
  | x :: l' => bind (body x) (fun _ => for_each l' body)
  end.

End Exn.

(* ================================================================== *)
(** * [class SafeFileOps] *)
(* ================================================================== *)

Module SafeFileOps.
Import Text Fs Exn.
Open Scope monad_scope.

Record t : Type := mk {
  project_dir : path;
  output_dir : path
}.

Section WithFuel.
Variable fuel : nat.

(** [p.resolve()] inside a method: a link loop raises [RuntimeError]. *)
Definition resolve_or_raise (fs : node) (p : path) : result path :=
  match resolve fuel fs p with
  | Some q => Ok q
  | None => Raise Unexpected
  end.

(** [SafeFileOps.__init__] *)
Definition init (fs : node) (project output : path) : result t :=
  match resolve_or_raise fs project with
  | Raise e => Raise e
  | Ok p =>
      match resolve_or_raise fs output with
      | Raise e => Raise e
      | Ok o => Ok (mk p o)
      end
  end.

(** [_is_git_path]: the bare [except] turns every failure into
    [False]. *)
Definition _is_git_path (self : t) (fs : node) (p : path) : bool :=
  match resolve fuel fs p with
  | None => false
  | Some resolved =>
      match resolve fuel fs (project_dir self ++ [".git"]) with
      | None => false
      | Some git_dir =>
          if path_eqb resolved git_dir then true
          else is_prefix git_dir resolved
      end
  end.

(** [_validate_path_in_project] *)
Definition _validate_path_in_project (self : t) (fs : node) (p : path)
           (allow_git : bool) : result path :=
  match resolve_or_raise fs p with
  | Raise e => Raise e
  | Ok resolved =>
      if negb (is_prefix (project_dir self) resolved)
      then Raise (BuildError
                    (PathOutsideProject resolved (project_dir self)))
      else if negb allow_git && _is_git_path self fs resolved
      then Raise (BuildError (CannotModifyGit resolved))
      else Ok resolved
  end.

(** [_validate_path_in_output] *)
Definition _validate_path_in_output (self : t) (fs : node) (p : path)
  : result path :=
  match resolve_or_raise fs p with
  | Raise e => Raise e
  | Ok resolved =>
      if negb (is_prefix (output_dir self) resolved)
      then Raise (BuildError
                    (PathOutsideOutput resolved (output_dir self)))
      else if negb (path_eqb (parent resolved) (output_dir self))
      then Raise (BuildError (NotDirectChild resolved))
      else Ok resolved
  end.

(** A change of the tree that the system may refuse. *)
Definition commit (change : node -> option node) : M node unit :=
  fun fs =>
    match change fs with
    | Some fs' => (Ok tt, fs')
    | None => (Raise Unexpected, fs)
    end.

(** [safe_unlink] *)
Definition safe_unlink (self : t) (p : path) : M node unit :=
  fs <- get ;;
  validated <- lift (_validate_path_in_project self fs p false) ;;
  if negb (is_file fuel fs validated)
  then raise (BuildError (NotAFile validated))
  else commit (remove validated).

(** [shutil.rmtree(p)] on a directory: everything below goes first;
    the root itself cannot be removed. *)
Definition rmtree (p : path) : M node unit :=
  match p with
  | [] => fun _ => (Raise Unexpected, Dir [])
  | _ => commit (remove p)
  end.

(** [safe_rmtree] *)
Definition safe_rmtree (self : t) (p : path) : M node unit :=
  fs <- get ;;
  validated <- lift (_validate_path_in_project self fs p false) ;;
  if negb (is_dir fuel fs validated)
  then raise (BuildError (NotADirectory validated))
  else rmtree validated.

(** [open(p, 'w')] and [write(content)]: the file is created or
    emptied first; a directory cannot be opened. *)
Definition write_file (p : path) (content : fdata) (fs : node)
  : option node :=
  match lookup fs p with
  | Some (Dir _) => None
  | _ => Fs.put p (File content) fs
  end.

(** [safe_write], with the mode ['w']. *)
Definition safe_write (self : t) (p : path) (content : string)
  : M node unit :=
  fs <- get ;;
  resolved <- lift (resolve_or_raise fs p) ;;
  validated <-
    (if is_prefix (project_dir self) resolved
     then lift (_validate_path_in_project self fs p false)
     else if is_prefix (output_dir self) resolved
          then lift (_validate_path_in_output self fs p)
          else raise (BuildError (NotInAllowedLocations resolved))) ;;
  commit (write_file validated (Text content)).

(** [os.mkdir(p)] *)
Inductive mkdir_result : Type :=
| Made (fs : node)
| Missing         (* [FileNotFoundError] *)
| Refused.        (* any other [OSError], as [FileExistsError] *)

Definition os_mkdir (fs : node) (p : path) : mkdir_result :=
  match lookup fs p with
  | Some _ => Refused
  | None =>
      match lookup fs (parent p) with
      | Some (Dir _) =>
          match Fs.put p (Dir []) fs with
          | Some fs' => Made fs'
          | None => Refused
          end
      | Some _ => Refused
      | None => Missing
      end
  end.

(** [Path.mkdir(parents, exist_ok)]; [depth] bounds the recursion over
    the parents and is the number of components of the path. *)
Fixpoint path_mkdir (depth : nat) (p : path) (parents exist_ok : bool)
  : M node unit :=
  fun fs =>
    match os_mkdir fs p with
    | Made fs' => (Ok tt, fs')
    | Missing =>
        match depth with
        | 0 => (Raise Unexpected, fs)
        | S depth' =>
            if negb parents || path_eqb (parent p) p
            then (Raise Unexpected, fs)
            else
              match path_mkdir depth' (parent p) true true fs with
              | (Ok _, fs1) => path_mkdir depth' p false exist_ok fs1
              | (Raise e, fs1) => (Raise e, fs1)
              end
        end
    | Refused =>
        if negb exist_ok || negb (is_dir fuel fs p)
        then (Raise Unexpected, fs)
        else (Ok tt, fs)
    end.

(** [safe_mkdir] *)
Definition safe_mkdir (self : t) (p : path) (parents exist_ok : bool)
  : M node unit :=
  fs <- get ;;
  validated <- lift (_validate_path_in_project self fs p false) ;;
  path_mkdir (S (length validated)) validated parents exist_ok.

End WithFuel.
End SafeFileOps.

(* ================================================================== *)
(** * [class RemoteCommandWrapper] *)
(* ================================================================== *)

Module Remote.
Import Text Fs.

Inductive kind : Type := Git | Gh.

Definition kind_str (k : kind) : string :=
  match k with Git => "git" | Gh => "gh" end.

Record command : Type := mk_command {
  type : kind;
  args : list string;
  description : string
}.

Record t : Type := mk {
  project_dir : path;
  commands : list command
}.

(** [RemoteCommandWrapper.__init__] *)
Definition init (project : path) : t := mk project [].

(** [git_command] *)
Definition git_command (self : t) (a : list string) (d : string) : t :=
  mk (project_dir self) (commands self ++ [mk_command Git a d]).

(** [gh_command] *)
Definition gh_command (self : t) (a : list string) (d : string) : t :=
  mk (project_dir self) (commands self ++ [mk_command Gh a d]).

Definition banner : string :=
  "======================================================================".

(** What [print_all_commands] prints for one command, one text for each
    call of [print]. *)
Definition render_command (c : command) : list string :=
  (if String.eqb (description c) EmptyString then []
   else [("# " ++ description c)%string])
  ++ [join " " (kind_str (type c) :: args c); EmptyString].

(** [print_all_commands]: the texts printed, none for an empty queue. *)
Definition print_all_commands (self : t) : list string :=
  match commands self with
  | [] => []
  | cs =>
      [(nl ++ banner)%string; "REMOTE COMMANDS TO RUN MANUALLY:"; banner;
       (nl ++ "cd " ++ path_str (project_dir self) ++ nl)%string]
      ++ flat_map render_command cs
      ++ [banner]
  end.

End Remote.

(* ================================================================== *)
(** * Python values and the outside world *)
(* ================================================================== *)

Module Py.
Import Text.

(** The values [json.load] produces.  [PAtom] stands for [None], the
    booleans and the numbers, and carries the text [str()] gives. *)
Inductive pyval : Type :=
| PStr (s : string)
| PAtom (shown : string)
| PList (items : list pyval)
| PDict (items : list (string * pyval)).

Definition none : pyval := PAtom "None".

Fixpoint is_substring (p s : string) : bool :=
  startswith p s
  || match s with
     | EmptyString => false
     | String _ s' => is_substring p s'
     end.

Definition is_str (k : string) (v : pyval) : bool :=
  match v with PStr s => String.eqb s k | _ => false end.

(** [key in v] for a text [key]; [None] is the [TypeError] of a value
    that is no container. *)
Definition contains (key : string) (v : pyval) : option bool :=
  match v with
  | PDict items =>
      Some (match Fs.assoc key items with Some _ => true | None => false end)
  | PList items => Some (existsb (is_str key) items)
  | PStr s => Some (is_substring key s)
  | PAtom _ => None
  end.

(** [v[key]] for a text [key]: defined on dictionaries that have it. *)
Definition getitem (key : string) (v : pyval) : option pyval :=
  match v with
  | PDict items => Fs.assoc key items
  | _ => None
  end.

End Py.

Module World.
Import Fs Py.

(** How a call of [subprocess.run] ends. *)
Inductive proc_outcome : Type :=
| Exited (returncode : Z) (stdout stderr : string)
| ProcNotFound        (* [FileNotFoundError]: no such program *)
| ProcInterrupted     (* [KeyboardInterrupt] while waiting *)
| ProcError.          (* any other exception *)

(** How a call of [input] ends. *)
Inductive input_result : Type :=
| Line (s : string)
| Eof
| Interrupted.

(** What the script takes from outside. *)
Record Env : Type := mk {
  (** [json.load] on the text of a file; [None] when it is no JSON *)
  json_load : string -> option pyval;
  (** [str(v)] for the values that are no text *)
  py_str : pyval -> string;
  (** an external program, run with its arguments in a working
      directory: how it ends and the file system it leaves *)
  subprocess_run : list string -> option path -> node -> proc_outcome * node;
  (** the answer at the prompt *)
  input : input_result
}.

End World.

(* ================================================================== *)
(** * [class ModBuilder] *)
(* ================================================================== *)

Module ModBuilder.
Import Text Re Fs Exn Py World.
Open Scope monad_scope.

(** The attributes [__init__] fixes. *)
Record t : Type := mk {
  script_dir : path;
  project_dir : path;
  tmp_dir : path;
  output_dir : path;
  factorio_path : path;
  file_ops : SafeFileOps.t
}.

(** The attributes the stages change, with the file system and with
    what [print_all_commands] has printed.  The lines of [log] are not
    part of the state. *)
Record state : Type := mk_state {
  fs : node;
  version : option string;
  previous_version : option string;
  mod_name : pyval;
  zip_name : option string;
  backup_name : option string;
  remote_cmds : Remote.t;
  transcript : list string
}.

Definition set_fs (x : node) (s : state) : state :=
  mk_state x (version s) (previous_version s) (mod_name s) (zip_name s)
           (backup_name s) (remote_cmds s) (transcript s).
Definition set_version (x : option string) (s : state) : state :=
  mk_state (fs s) x (previous_version s) (mod_name s) (zip_name s)
           (backup_name s) (remote_cmds s) (transcript s).
Definition set_previous_version (x : option string) (s : state) : state :=
  mk_state (fs s) (version s) x (mod_name s) (zip_name s)
           (backup_name s) (remote_cmds s) (transcript s).
Definition set_mod_name (x : pyval) (s : state) : state :=
  mk_state (fs s) (version s) (previous_version s) x (zip_name s)
           (backup_name s) (remote_cmds s) (transcript s).
Definition set_zip_name (x : option string) (s : state) : state :=
  mk_state (fs s) (version s) (previous_version s) (mod_name s) x
           (backup_name s) (remote_cmds s) (transcript s).
Definition set_backup_name (x : option string) (s : state) : state :=
  mk_state (fs s) (version s) (previous_version s) (mod_name s) (zip_name s)
           x (remote_cmds s) (transcript s).
Definition set_remote_cmds (x : Remote.t) (s : state) : state :=
  mk_state (fs s) (version s) (previous_version s) (mod_name s) (zip_name s)
           (backup_name s) x (transcript s).
Definition set_transcript (x : list string) (s : state) : state :=
  mk_state (fs s) (version s) (previous_version s) (mod_name s) (zip_name s)
           (backup_name s) (remote_cmds s) x.

(** A method of [SafeFileOps], run on the file system of the state. *)
Definition on_fs {A : Type} (m : M node A) : M state A :=
  fun s => let (r, fs') := m (fs s) in (r, set_fs fs' s).

(** A value an attribute must hold; using [None] there is a
    [TypeError] or an [AttributeError]. *)
Definition required {A : Type} (o : option A) : M state A :=
  match o with
  | Some a => ret a
  | None => raise Unexpected
  end.

(** ** The patterns *)

Fixpoint seq (rs : list regex) : regex :=
  match rs with
  | [] => Eps
  | [r] => r
  | r :: rs' => Seq r (seq rs')
  end.

(** [\d+\.\d+\.\d+] *)
Definition three_numbers : regex :=
  seq [Rep Digit 1; Chr (Lit "."); Rep Digit 1; Chr (Lit "."); Rep Digit 1].

(** [r'^v\d+\.\d+\.\d+$'] *)
Definition version_format : regex :=
  seq [Bol; Chr (Lit "v"); three_numbers; Eol].

(** [r'Version:\s*(\d+\.\d+\.\d+)'] *)
Definition version_pattern : regex :=
  seq [word "Version:"; Rep Space 0; Grp three_numbers].

(** [validate_version_format] *)
Definition validate_version_format (version : string) : bool :=
  matches version_format version.

(** The step of [extract_version_from_info_json] that adds the prefix. *)
Definition add_v_prefix (version : string) : string :=
  if startswith "v" version then version else ("v" ++ version)%string.

(** ** Reading text *)

(** Text mode turns the line ends CR LF and CR into LF. *)
Fixpoint universal_newlines (s : string) : string :=
  match s with
  | EmptyString => EmptyString
  | String c s' =>
      if Ascii.eqb c carriage_return
      then match s' with
           | String d _ =>
               if Ascii.eqb d newline then universal_newlines s'
               else String newline (universal_newlines s')
           | EmptyString => nl
           end
      else String c (universal_newlines s')
  end.

(** [f.readlines()]: the lines with their line feeds. *)
Fixpoint readlines_from (cur s : string) : list string :=
  match s with
  | EmptyString => if String.eqb cur EmptyString then [] else [cur]
  | String c s' =>
      if Ascii.eqb c newline
      then (cur ++ nl)%string :: readlines_from EmptyString s'
      else readlines_from (cur ++ String c EmptyString)%string s'
  end.

Definition readlines (s : string) : list string := readlines_from EmptyString s.

Section WithWorld.
Variable fuel : nat.
Variable env : Env.

(** [open(p, 'r')] and [read()]: only a file of text can be read. *)
Definition read_text (p : path) : M state string :=
  s <- get ;;
  match stat fuel (fs s) p with
  | Some (File (Text txt)) => ret (universal_newlines txt)
  | _ => raise Unexpected
  end.

(** [subprocess.run(argv, cwd=cwd)] *)
Definition call (argv : list string) (cwd : option path)
  : M state proc_outcome :=
  fun s =>
    let (o, fs') := subprocess_run env argv cwd (fs s) in
    (Ok o, set_fs fs' s).

(** [subprocess.run(argv, capture_output=True, check=True)] inside
    [try ... except (CalledProcessError, FileNotFoundError)]: whether
    the program is there and works. *)
Definition probe (argv : list string) : M state bool :=
  o <- call argv None ;;
  match o with
  | Exited 0%Z _ _ => ret true
  | Exited _ _ _ => ret false
  | ProcNotFound => ret false
  | ProcInterrupted => raise KeyboardInterrupt
  | ProcError => raise Unexpected
  end.

(** The text an f-string shows for a value. *)
Definition format_value (v : pyval) : string :=
  match v with
  | PStr s => s
  | PAtom shown => shown
  | _ => py_str env v
  end.

(** ** [__init__] and [_validate_paths] *)

Definition initial_state (fs0 : node) (project : path) : state :=
  mk_state fs0 None None none None None (Remote.init project) [].

(** [_validate_paths] *)
Definition _validate_paths (self : t) (fs0 : node) : result unit :=
  if negb (path_is_absolute (project_dir self))
  then Raise (BuildError ProjectNotAbsolute)
  else
    match SafeFileOps.resolve_or_raise fuel fs0 (output_dir self) with
    | Raise e => Raise e
    | Ok got =>
        match SafeFileOps.resolve_or_raise fuel fs0
                (parent (project_dir self)) with
        | Raise e => Raise e
        | Ok expected =>
            if negb (path_eqb got expected)
            then Raise (BuildError OutputDirMismatch)
            else if path_eqb (project_dir self) (parent (project_dir self))
            then Raise (BuildError ProjectIsRoot)
            else Ok tt
        end
    end.

(** [ModBuilder.__init__]: [script_file] is [__file__]. *)
Definition init (script_file factorio : path) (fs0 : node)
  : result (t * state) :=
  match SafeFileOps.resolve_or_raise fuel fs0 (parent script_file) with
  | Raise e => Raise e
  | Ok sd =>
      let pd := parent sd in
      let od := parent pd in
      match SafeFileOps.init fuel fs0 pd od with
      | Raise e => Raise e
      | Ok ops =>
          let self := mk sd pd (pd ++ ["tmp"]) od factorio ops in
          match _validate_paths self fs0 with
          | Raise e => Raise e
          | Ok _ => Ok (self, initial_state fs0 pd)
          end
      end
  end.

(** ** Stage 1: the versions *)

(** [extract_version_from_info_json] *)
Definition extract_version_from_info_json (self : t) : M state string :=
  let info_path := project_dir self ++ ["info.json"] in
  s <- get ;;
  if negb (exists_ fuel (fs s) info_path)
  then raise (BuildError InfoJsonNotFound)
  else
    txt <- read_text info_path ;;
    info <- required (json_load env txt) ;;
    has_version <- required (contains "version" info) ;;
    if negb has_version then raise (BuildError VersionFieldMissing)
    else
      has_name <- required (contains "name" info) ;;
      if negb has_name then raise (BuildError NameFieldMissing)
      else
        n <- required (getitem "name" info) ;;
        modify (set_mod_name n) ;;;
        v <- required (getitem "version" info) ;;
        match v with
        | PStr version => ret (add_v_prefix version)
        | _ => raise Unexpected
        end.

(** The part of [extract_versions_from_changelog] after the file is
    read. *)
Definition versions_of_changelog (content : string)
  : result (string * option string) :=
  match findall version_pattern content with
  | [] => Raise (BuildError NoVersionInChangelog)
  | m0 :: rest =>
      Ok (("v" ++ m0)%string,
          match rest with
          | m1 :: _ => Some ("v" ++ m1)%string
          | [] => None
          end)
  end.

(** [extract_versions_from_changelog] *)
Definition extract_versions_from_changelog (self : t)
  : M state (string * option string) :=
  let changelog_path := project_dir self ++ ["changelog.txt"] in
  s <- get ;;
  if negb (exists_ fuel (fs s) changelog_path)
  then raise (BuildError ChangelogNotFound)
  else
    content <- read_text changelog_path ;;
    lift (versions_of_changelog content).

(** A text is true when it is not empty. *)
Definition truthy (o : option string) : bool :=
  match o with
  | Some s => negb (String.eqb s EmptyString)
  | None => false
  end.

(** [validate_versions] *)
Definition validate_versions (self : t) : M state unit :=
  info_version <- extract_version_from_info_json self ;;
  cp <- extract_versions_from_changelog self ;;
  let changelog_version := fst cp in
  modify (set_previous_version (snd cp)) ;;;
  if negb (validate_version_format info_version)
  then raise (BuildError (InfoVersionFormat info_version))
  else if negb (validate_version_format changelog_version)
  then raise (BuildError (ChangelogVersionFormat changelog_version))
  else if negb (String.eqb info_version changelog_version)
  then raise (BuildError (VersionMismatch info_version changelog_version))
  else
    match snd cp with
    | Some previous =>
        if truthy (Some previous)
           && negb (validate_version_format previous)
        then raise (BuildError (PreviousVersionFormat previous))
        else modify (set_version (Some info_version))
    | None => modify (set_version (Some info_version))
    end.

(** ** Stage 2: the package *)

(** [entry.is_dir()] of [os.scandir]: a link counts as what it leads
    to. *)
Definition entry_is_dir (fs0 : node) (top : path) (e : string * node)
  : bool :=
  match snd e with
  | Dir _ => true
  | File _ => false
  | Symlink _ => is_dir fuel fs0 (top ++ [fst e])
  end.

(** The directories the loop takes out of [dirs].  The names of one
    listing are distinct, so [dirs.remove(x)] leaves no [x]. *)
Definition pruned (d : string) : bool :=
  String.eqb d ".git" || String.eqb d "scripts" || String.eqb d "tmp".

(** [os.walk(top)] as the loop of [build_zip_package] drives it: for
    each directory visited, its path and the names of its entries
    that are no directories.  Directories behind links are listed but
    not entered. *)
Fixpoint os_walk (fs0 : node) (top : path) (n : node)
  : list (path * list string) :=
  match n with
  | Dir es =>
      (top, map fst (filter (fun e => negb (entry_is_dir fs0 top e)) es))
      :: (fix descend (l : list (string * node)) : list (path * list string) :=
            match l with
            | [] => []
            | (d, child) :: l' =>
                match child with
                | Dir _ =>
                    if pruned d then []
                    else os_walk fs0 (top ++ [d]) child
                | _ => []
                end ++ descend l'
            end) es
  | _ => []
  end.

(** The files the loop does not skip. *)
Definition skipped (file : string) : bool :=
  endswith ".zip" file || endswith ".7z" file || endswith "~" file.

(** [str(Path(version_name) / rel_path)] *)
Definition archive_path (version_name : string) (rel : path) : string :=
  let root := root_of version_name in
  match (parts version_name ++ rel)%list with
  | [] => if String.eqb root EmptyString then "." else root
  | comps => (root ++ join "/" comps)%string
  end.

(** The name [ZipInfo.from_file] gives the entry written for
    [arcname]: the text normalised by [os.path.normpath], without the
    slashes at its start (an empty text there is an [IndexError]), and
    up to its first null character. *)
Definition zip_entry_name (arcname : string) : option string :=
  match drop_slashes (normpath arcname) with
  | EmptyString => None
  | name => Some (until_nul name)
  end.

(** The body of the inner loop: the entries added for the files of one
    directory, and whether [zout.write] raised. *)
Fixpoint add_files (self : t) (fs0 : node) (version_name : string)
         (root : path) (files : list string)
  : list (string * fdata) * bool :=
  match files with
  | [] => ([], true)
  | file :: files' =>
      if skipped file then add_files self fs0 version_name root files'
      else
        let full_path := root ++ [file] in
        let rel_path := List.skipn (length (project_dir self)) full_path in
        match stat fuel fs0 full_path with
        | Some (File d) =>
            match zip_entry_name (archive_path version_name rel_path) with
            | Some name =>
                let (es, ok) :=
                  add_files self fs0 version_name root files' in
                ((name, d) :: es, ok)
            | None => ([], false)
            end
        | _ => ([], false)
        end
  end.

(** The outer loop. *)
Fixpoint add_dirs (self : t) (fs0 : node) (version_name : string)
         (visits : list (path * list string))
  : list (string * fdata) * bool :=
  match visits with
  | [] => ([], true)
  | (root, files) :: visits' =>
      match add_files self fs0 version_name root files with
      | (es, true) =>
          let (es', ok) := add_dirs self fs0 version_name visits' in
          (es ++ es', ok)
      | (es, false) => (es, false)
      end
  end.

(** [os.walk(self.project_dir)]: nothing when it is no directory. *)
Definition walk_project (self : t) (fs0 : node)
  : list (path * list string) :=
  match stat fuel fs0 (project_dir self) with
  | Some n => os_walk fs0 (project_dir self) n
  | None => []
  end.

(** The text after the prefix [v]. *)
Definition version_number (version : string) : string :=
  if startswith "v" version then Text.drop 1 version else version.

(** The loops of [build_zip_package] on the file system [fs0]: the
    entries written and whether the loops ran to their end. *)
Definition zip_entries (self : t) (fs0 : node) (version_name : string)
  : list (string * fdata) * bool :=
  add_dirs self fs0 version_name (walk_project self fs0).



(** [build_zip_package].  Opening the archive creates it, empty; the
    loops see the file system with it; closing leaves the entries
    written so far, also when a loop raised. *)
Definition build_zip_package (self : t) : M state unit :=
  s <- get ;;
  v <- required (version s) ;;
  let version_name :=
    (format_value (mod_name s) ++ "_" ++ version_number v)%string in
  let zname := (version_name ++ ".zip")%string in
  modify (set_zip_name (Some zname)) ;;;
  zip_path <-
    lift (SafeFileOps._validate_path_in_output fuel (file_ops self) (fs s)
            (joinpath (output_dir self) zname)) ;;
  on_fs (SafeFileOps.commit
           (SafeFileOps.write_file zip_path (Archive []))) ;;;
  s1 <- get ;;
  match zip_entries self (fs s1) version_name with
  | (entries, ok) =>
      on_fs (SafeFileOps.commit
               (SafeFileOps.write_file zip_path (Archive entries))) ;;;
      if ok then ret tt else raise Unexpected
  end.

(** ** Stage 3: the backup *)

(** [create_backup] *)
Definition create_backup (self : t) : M state unit :=
  s <- get ;;
  let bname :=
    (format_value (mod_name s) ++ "_"
       ++ match version s with Some v => v | None => "None" end
       ++ "_backup.7z")%string in
  modify (set_backup_name (Some bname)) ;;;
  backup_path <-
    lift (SafeFileOps._validate_path_in_output fuel (file_ops self) (fs s)
            (joinpath (output_dir self) bname)) ;;
  have_7z <- probe ["7z"; "--help"] ;;
  seven_z_cmd <-
    (if have_7z then ret "7z"
     else
       have_7za <- probe ["7za"; "--help"] ;;
       if have_7za then ret "7za"
       else raise (BuildError ArchiverMissing)) ;;
  o <- call [seven_z_cmd; "a"; path_str backup_path; "."; "-xr!.git";
             "-xr!*.zip"; "-xr!*.7z"]
            (Some (project_dir self)) ;;
  match o with
  | Exited 0%Z _ _ => ret tt
  | Exited _ _ stderr => raise (BuildError (BackupFailed stderr))
  | ProcInterrupted => raise KeyboardInterrupt
  | _ => raise Unexpected
  end.

(** ** Stage 4: the cleanup *)

(** [self.project_dir.iterdir()]: the names are listed when the loop
    starts. *)
Definition iterdir (p : path) : M state (list string) :=
  s <- get ;;
  match stat fuel (fs s) p with
  | Some (Dir es) => ret (map fst es)
  | _ => raise Unexpected
  end.

(** The body of the loop of [clean_project_directory]. *)
Definition clean_item (self : t) (name : string) : M state unit :=
  if String.eqb name ".git" then ret tt
  else
    let item := project_dir self ++ [name] in
    s <- get ;;
    if is_file fuel (fs s) item
    then on_fs (SafeFileOps.safe_unlink fuel (file_ops self) item)
    else if is_dir fuel (fs s) item
    then on_fs (SafeFileOps.safe_rmtree fuel (file_ops self) item)
    else ret tt.

(** [clean_project_directory] *)
Definition clean_project_directory (self : t) : M state unit :=
  names <- iterdir (project_dir self) ;;
  for_each names (clean_item self).

(** ** Stage 5: the test run *)

(** [run_factorio] *)
Definition run_factorio (self : t) : M state unit :=
  s <- get ;;
  if negb (exists_ fuel (fs s) (factorio_path self))
  then raise (BuildError FactorioNotFound)
  else
    o <- call [path_str (factorio_path self)] None ;;
    match o with
    | Exited 0%Z _ _ => ret tt
    | Exited _ _ _ => raise (BuildError FactorioFailed)
    | ProcInterrupted => raise KeyboardInterrupt
    | _ => raise Unexpected
    end.

(** ** Stage 6: the confirmation *)

(** [confirm_proceed] *)
Definition confirm_proceed (self : t) : M state bool :=
  match input env with
  | Line answer =>
      let response := lower (strip answer) in
      ret (String.eqb response "y" || String.eqb response "yes")
  | Eof => raise Unexpected
  | Interrupted => raise KeyboardInterrupt
  end.

(** ** Stages 7 to 9: the tags and the release *)

(** [subprocess.run(['git', 'tag', '-l', tag], ...).stdout] *)
Definition git_tag_list (self : t) (tag : string) : M state string :=
  o <- call ["git"; "tag"; "-l"; tag] (Some (project_dir self)) ;;
  match o with
  | Exited _ stdout _ => ret stdout
  | ProcInterrupted => raise KeyboardInterrupt
  | _ => raise Unexpected
  end.

(** [verify_previous_tag] *)
Definition verify_previous_tag (self : t) : M state unit :=
  s <- get ;;
  match previous_version s with
  | Some previous =>
      if negb (truthy (Some previous)) then ret tt
      else
        stdout <- git_tag_list self previous ;;
        if String.eqb (strip stdout) EmptyString
        then raise (BuildError (PreviousTagMissing previous))
        else ret tt
  | None => ret tt
  end.

(** [create_git_tag] *)
Definition create_git_tag (self : t) : M state unit :=
  s <- get ;;
  v <- required (version s) ;;
  stdout <- git_tag_list self v ;;
  if negb (String.eqb (strip stdout) EmptyString)
  then raise (BuildError (TagExists v))
  else
    modify (fun s =>
      set_remote_cmds
        (Remote.git_command (remote_cmds s)
           ["tag"; "-a"; v; "-m"; ("Release " ++ v)%string]
           ("Create tag " ++ v)%string) s) ;;;
    modify (fun s =>
      set_remote_cmds
        (Remote.git_command (remote_cmds s)
           ["push"; "origin"; v] "Push tag to remote") s).

(** The lines of the first entry: after three lines of heading, up to
    the first line that begins with [----]. *)
Fixpoint take_entry (lines : list string) : list string :=
  match lines with
  | [] => []
  | line :: lines' =>
      if startswith "----" (strip line) then []
      else line :: take_entry lines'
  end.

Definition unindent (line : string) : string :=
  if startswith "  " line then Text.drop 2 line else line.

Definition begins_unindented (line : string) : bool :=
  match line with
  | EmptyString => false
  | String c _ => negb (is_space c)
  end.

(** The last loop of [extract_changelog_for_release], from the second
    line on. *)
Fixpoint space_out (changes : list string) : list string :=
  match changes with
  | [] => []
  | line :: changes' =>
      (if begins_unindented line then [nl; line] else [line])
      ++ space_out changes'
  end.

Definition release_notes (content : string) : string :=
  let changes := map unindent (take_entry (List.skipn 3 (readlines content))) in
  strip (String.concat EmptyString
           match changes with
           | [] => []
           | first :: changes' => first :: space_out changes'
           end).

(** [extract_changelog_for_release] *)
Definition extract_changelog_for_release (self : t) : M state string :=
  on_fs (SafeFileOps.safe_mkdir fuel (file_ops self) (tmp_dir self)
           false true) ;;;
  let changelog_path := project_dir self ++ ["changelog.txt"] in
  let changes_path := tmp_dir self ++ ["changes.txt"] in
  content <- read_text changelog_path ;;
  let changelog_text := release_notes content in
  on_fs (SafeFileOps.safe_write fuel (file_ops self) changes_path
           changelog_text) ;;;
  ret changelog_text.

(** [create_github_release].  The version is set whenever [run] gets
    here; the model raises when it is not. *)
Definition create_github_release (self : t) : M state unit :=
  have_gh <- probe ["gh"; "--version"] ;;
  if negb have_gh then raise (BuildError GhMissing)
  else
    _ <- extract_changelog_for_release self ;;
    let changes_path := tmp_dir self ++ ["changes.txt"] in
    s <- get ;;
    zname <- required (zip_name s) ;;
    let zip_path := joinpath (output_dir self) zname in
    if negb (exists_ fuel (fs s) zip_path)
    then raise (BuildError (PackageNotFound zip_path))
    else
      v <- required (version s) ;;
      modify (fun s =>
        set_remote_cmds
          (Remote.gh_command (remote_cmds s)
             ["release"; "create"; v; path_str zip_path;
              "-t"; ("Version " ++ v)%string;
              "-F"; path_str changes_path]
             ("Create GitHub release for " ++ v)%string) s).

(** Stage 10: [self.remote_cmds.print_all_commands()] *)
Definition print_all_commands : M state unit :=
  modify (fun s =>
    set_transcript
      (transcript s ++ Remote.print_all_commands (remote_cmds s)) s).

(** ** [run] *)

(** The steps 1 to 5 of the [try] block of [run]. *)
Definition before_confirmation (self : t) (skip_factorio skip_clean : bool)
  : M state unit :=
  validate_versions self ;;;
  build_zip_package self ;;;
  create_backup self ;;;
  (if negb skip_clean then clean_project_directory self else ret tt) ;;;
  (if negb skip_factorio then run_factorio self else ret tt).

(** The steps 7 to 10. *)
Definition after_confirmation (self : t) : M state unit :=
  verify_previous_tag self ;;;
  create_git_tag self ;;;
  create_github_release self ;;;
  print_all_commands.

(** The [try] block of [run]: [true] when it runs to its end,
    [false] when it returns at the confirmation. *)
Definition run_body (self : t) (skip_factorio skip_clean : bool)
  : M state bool :=
  before_confirmation self skip_factorio skip_clean ;;;
  proceed <- confirm_proceed self ;;
  if negb proceed then ret false
  else after_confirmation self ;;; ret true.

(** How a call ends for the interpreter. *)
Inductive termination : Type :=
| Returned
| SystemExit (code : Z)
| Uncaught (e : exn).

(** [run]: each of the three handlers ends in [sys.exit(1)]. *)
Definition run (self : t) (skip_factorio skip_clean : bool) (s : state)
  : termination * state :=
  match run_body self skip_factorio skip_clean s with
  | (Ok _, s') => (Returned, s')
  | (Raise (BuildError _), s') => (SystemExit 1, s')
  | (Raise KeyboardInterrupt, s') => (SystemExit 1, s')
  | (Raise Unexpected, s') => (SystemExit 1, s')
  end.

(** The arguments [main] parses. *)
Record arguments : Type := mk_arguments {
  arg_factorio_path : path;
  arg_skip_factorio : bool;
  arg_skip_clean : bool
}.

(** [main]: an exception of [ModBuilder(...)] is caught by nobody. *)
Definition main (script_file : path) (a : arguments) (fs0 : node)
  : termination * option state :=
  match init script_file (arg_factorio_path a) fs0 with
  | Raise e => (Uncaught e, None)
  | Ok (builder, s) =>
      let (r, s') := run builder (arg_skip_factorio a) (arg_skip_clean a) s in
      (r, Some s')
  end.

(** The exit status of the process. *)
Definition exit_status (r : termination) : Z :=
  match r with
  | Returned => 0
  | SystemExit code => code
  | Uncaught _ => 1
  end.

End WithWorld.
End ModBuilder.

(* ================================================================== *)
(** * Notions the statements use *)
(* ================================================================== *)

Module Spec.
Import Fs Exn ModBuilder.

(** A computation that leaves a part of the state as it was. *)
Definition preserves {A B : Type} (f : state -> B) (m : M state A) : Prop :=
  forall s, f (snd (m s)) = f s.

(** A computation that never raises an exception of a kind. *)
Definition never {A : Type} (bad : exn -> Prop) (m : M state A) : Prop :=
  forall s e, fst (m s) = Raise e -> ~ bad e.

(** The queue of commands and what has been printed of it. *)
Definition queue (s : state) : Remote.t * list string :=
  (remote_cmds s, transcript s).

(** The two errors about tags. *)
Definition tag_error (e : exn) : Prop :=
  match e with
  | BuildError (TagExists _) | BuildError (PreviousTagMissing _) => True
  | _ => False
  end.

(** The two errors about the format of a version of the change-log. *)
Definition changelog_format_error (e : exn) : Prop :=
  match e with
  | BuildError (ChangelogVersionFormat _)
  | BuildError (PreviousVersionFormat _) => True
  | _ => False
  end.

(** The names a release is made of: the version, the name of the mod
    and the name of the archive. *)
Definition settled (s : state) : option string * Py.pyval * option string :=
  (version s, mod_name s, zip_name s).

(** The two errors of [_validate_path_in_output]. *)
Definition output_safety_error (e : exn) : Prop :=
  match e with
  | BuildError (PathOutsideOutput _ _) | BuildError (NotDirectChild _) => True
  | _ => False
  end.

(** A text without a line feed, and the text of a file made of such
    lines, each with its line feed. *)
Definition one_line (s : string) : bool :=
  Text.all_chars (fun c => negb (Ascii.eqb c Text.newline)) s.

Definition unlines (l : list string) : string :=
  String.concat EmptyString (map (fun x => (x ++ Text.nl)%string) l).


(** A number in decimal digits: at least one digit, digits only. *)
Definition is_number (s : string) : bool :=
  negb (String.eqb s EmptyString) && Text.all_chars Text.is_digit s.

(** The file system [fs0] with the entries [es] in the directory [pd]. *)
Definition holds (pd : path) (fs0 : node) (es : list (string * node))
           (fs1 : node) : Prop :=
  replace pd (Dir es) fs0 = Some fs1.

(** What is left of the entries of the project directory when the names
    [l] are still to be visited by the cleanup. *)
Definition left_over (l : list string) (e : string * node) : bool :=
  String.eqb (fst e) ".git" || negb (existsb (String.eqb (fst e)) l).

End Spec.

(* ================================================================== *)
(** * A sample project *)
(* ================================================================== *)

Module Sample.
Import Text Fs Exn Py World.

Definition dq : string := String (ascii_of_nat 34) EmptyString.

Definition quoted (s : string) : string := (dq ++ s ++ dq)%string.

(** The text of an [info.json] with a name and a version. *)
Definition info_text (name version : string) : string :=
  ("{" ++ quoted "name" ++ ": " ++ quoted name ++ ", "
       ++ quoted "version" ++ ": " ++ quoted version ++ "}")%string.

Definition info_value (name version : string) : pyval :=
  PDict [("name", PStr name); ("version", PStr version)].

(** A decoder that knows the documents of the samples. *)
Definition json_load (txt : string) : option pyval :=
  assoc txt
    [(info_text "looting" "2.0.0", info_value "looting" "2.0.0");
     (info_text "looting" "2.0", info_value "looting" "2.0");
     (info_text "looting" "v2.0.0", info_value "looting" "v2.0.0");
     (info_text "looting" "1.1.0", info_value "looting" "1.1.0")].

(** A change-log with the given versions, newest first. *)
Definition changelog_entry (version : string) : string :=
  ("---------------------------------------------------" ++ nl
   ++ "Version: " ++ version ++ nl
   ++ "Date: 2025-01-01" ++ nl
   ++ "  Changes:" ++ nl
   ++ "    - Something changed." ++ nl)%string.

Definition changelog_text (versions : list string) : string :=
  String.concat EmptyString (map changelog_entry versions).

Definition git_dir : node :=
  Dir [("HEAD", File (Text "ref: refs/heads/main"));
       ("config", File (Text "[core]"))].

(** A project directory with the given further entries. *)
Definition project (info changelog : string) (more : list (string * node))
  : node :=
  Dir ([(".git", git_dir);
        ("info.json", File (Text info));
        ("changelog.txt", File (Text changelog));
        ("control.lua", File (Text "-- control"));
        ("scripts", Dir [("build.py", File (Text "#!/usr/bin/env python3"))])]
       ++ more).

(** The tree [/home/dev/looting], with a sibling [looting-2]. *)
Definition tree (p : node) : node :=
  Dir [("home",
        Dir [("dev", Dir [("looting", p);
                          ("looting-2", Dir [("x", File (Text "x"))])])]);
       ("usr", Dir [("bin", Dir [("factorio", File (Text "ELF"))])])].

Definition script_file : path := ["home"; "dev"; "looting"; "scripts"; "build.py"].
Definition project_path : path := ["home"; "dev"; "looting"].
Definition output_path : path := ["home"; "dev"].

(** External programs: the archiver writes its archive, [git tag -l]
    answers from a list of tags, everything else ends well and changes
    nothing. *)
Definition subprocess_run (tags : list string) (argv : list string)
           (cwd : option path) (fs0 : node) : proc_outcome * node :=
  match argv with
  | ["git"; "tag"; "-l"; v] =>
      (Exited 0 (if existsb (String.eqb v) tags then (v ++ nl)%string else EmptyString) EmptyString,
       fs0)
  | [_; "a"; target; "."; _; _; _] =>
      match SafeFileOps.write_file (parts target) (Archive []) fs0 with
      | Some fs1 => (Exited 0 EmptyString EmptyString, fs1)
      | None => (Exited 2 EmptyString "cannot open", fs0)
      end
  | _ => (Exited 0 EmptyString EmptyString, fs0)
  end.

Definition env (tags : list string) (answer : input_result) : Env :=
  World.mk json_load (fun _ => "?") (subprocess_run tags) answer.

Definition args (skip_factorio skip_clean : bool) : ModBuilder.arguments :=
  ModBuilder.mk_arguments ["usr"; "bin"; "factorio"] skip_factorio skip_clean.

Definition ops : SafeFileOps.t := SafeFileOps.mk project_path output_path.

(** The builder [ModBuilder.__init__] makes for [script_file]. *)
Definition builder : ModBuilder.t :=
  ModBuilder.mk (project_path ++ ["scripts"]) project_path
                (project_path ++ ["tmp"]) output_path
                ["usr"; "bin"; "factorio"] ops.

(** The state of the builder at the start, on a tree with the sample
    project holding the given version in [info.json] and the given
    versions in [changelog.txt]. *)
Definition start (info_version : string) (changelog_versions : list string)
           (more : list (string * node)) : ModBuilder.state :=
  ModBuilder.initial_state
    (tree (project (info_text "looting" info_version)
                   (changelog_text changelog_versions) more))
    project_path.

(** A tree with links into [.git]: [lib/objs] leads to [.git] by way of
    [..], and [ln] leads through it to [.git/HEAD]. *)
Definition linked_tree : node :=
  tree (project EmptyString EmptyString
          [("lib", Dir [("objs", Symlink "../.git/./refs/..")]);
           ("ln", Symlink "/home/dev/looting/lib/objs/HEAD")]).

(** A project directory that holds [.git] and one file. *)
Definition small_tree : node :=
  tree (Dir [(".git", git_dir); ("notes.txt", File (Text "notes"))]).

(** The same with a link that leads nowhere. *)
Definition stale_tree : node :=
  tree (Dir [(".git", git_dir); ("notes.txt", File (Text "notes"));
             ("stale", Symlink "/nowhere")]).

(** A project directory that holds, with them, a link to itself. *)
Definition self_tree : node :=
  tree (Dir [(".git", git_dir); ("notes.txt", File (Text "notes"));
             ("self", Symlink ".")]).

(** The state of the builder on a tree. *)
Definition on_tree (fs0 : node) : ModBuilder.state :=
  ModBuilder.initial_state fs0 project_path.

(** Further entries of the project: a directory [lib] with a file and a
    directory [tmp] of its own, an old archive and a backup file. *)
Definition more_entries : list (string * node) :=
  [("lib", Dir [("util.lua", File (Text "-- util"));
                ("tmp", Dir [("cache.lua", File (Text "-- cache"))])]);
   ("old.zip", File (Text "PK"));
   ("notes.txt~", File (Text "notes"))].

(** The state after the first stage, for the version 2.0.0. *)
Definition validated : ModBuilder.state :=
  ModBuilder.set_version (Some "v2.0.0")
    (ModBuilder.set_mod_name (PStr "looting")
       (start "2.0.0" ["2.0.0"] more_entries)).

End Sample.

Unset Implicit Arguments.

Module FsFacts.
Import Text Fs.

Lemma path_eqb_eq (p q : path) : path_eqb p q = true <-> p = q.
Proof.
  unfold path_eqb. destruct (list_eq_dec string_dec p q); split; congruence.
Qed.

Lemma path_eqb_refl (p : path) : path_eqb p p = true.
Proof. now apply path_eqb_eq. Qed.

Lemma is_prefix_app (p r : path) : is_prefix p (p ++ r) = true.
Proof.
  induction p as [|a p IH]; simpl; [reflexivity|].
  now rewrite String.eqb_refl, IH.
Qed.

Lemma is_prefix_refl (p : path) : is_prefix p p = true.
Proof. rewrite <- (app_nil_r p) at 2. apply is_prefix_app. Qed.



(** The equations of [walk]. *)
Lemma walk_nil strict fuel fs cur : walk strict fuel fs cur [] = Some cur.
Proof. destruct fuel; reflexivity. Qed.

Lemma walk_cons strict fuel fs cur c rest :
  walk strict fuel fs cur (c :: rest) =
  if strict && negb (is_dir_node (lookup fs cur)) then None
  else if String.eqb c EmptyString || String.eqb c "." then walk strict fuel fs cur rest
  else if String.eqb c ".." then walk strict fuel fs (removelast cur) rest
  else
    match lookup fs (cur ++ [c]) with
    | Some (Symlink t) =>
        match fuel with
        | 0 => None
        | S fuel' =>
            walk strict fuel' fs (if is_absolute t then [] else cur)
                 (raw_parts t ++ rest)
        end
    | Some _ => walk strict fuel fs (cur ++ [c]) rest
    | None => if strict then None else walk strict fuel fs (cur ++ [c]) rest
    end.
Proof. destruct fuel; reflexivity. Qed.

Lemma canonical_from_app fs cur a b :
  canonical_from fs cur (a ++ b) =
  canonical_from fs cur a && canonical_from fs (cur ++ a) b.
Proof.
  revert cur. induction a as [|c a IH]; intros cur; simpl.
  - now rewrite app_nil_r.
  - rewrite IH, <- app_assoc. simpl. now rewrite andb_assoc.
Qed.

Lemma canonical_prefix fs p r :
  canonical fs (p ++ r) = true -> canonical fs p = true.
Proof.
  unfold canonical. rewrite canonical_from_app.
  intros H. now apply andb_true_iff in H.
Qed.

Lemma canonical_removelast fs p :
  canonical fs p = true -> canonical fs (removelast p) = true.
Proof.
  destruct p as [|c p] using rev_ind; [easy|].
  rewrite removelast_last. apply canonical_prefix.
Qed.

Lemma canonical_snoc fs p c :
  canonical fs p = true -> plain_name c = true ->
  not_link (lookup fs (p ++ [c])) = true ->
  canonical fs (p ++ [c]) = true.
Proof.
  unfold canonical. intros Hp Hc Hl.
  rewrite canonical_from_app, Hp. simpl. now rewrite Hc, Hl.
Qed.

Lemma plain_name_false_iff c :
  plain_name c = true <->
  (String.eqb c EmptyString || String.eqb c ".") = false /\ String.eqb c ".." = false.
Proof.
  unfold plain_name.
  destruct (String.eqb c EmptyString), (String.eqb c "."), (String.eqb c "..");
    simpl; intuition congruence.
Qed.

(** What [realpath] returns is canonical. *)
Lemma walk_canonical fuel fs :
  forall rest cur q,
    canonical fs cur = true ->
    walk false fuel fs cur rest = Some q ->
    canonical fs q = true.
Proof.
  induction fuel as [|fuel IHf];
    (induction rest as [|c rest IH]; intros cur q Hcur H;
     [rewrite walk_nil in H; congruence|]);
    rewrite walk_cons in H; simpl in H;
    (destruct (String.eqb c EmptyString || String.eqb c ".") eqn:E1; [now eauto|]);
    (destruct (String.eqb c "..") eqn:E2;
     [now eauto using canonical_removelast|]);
    assert (Hc : plain_name c = true)
      by (now apply plain_name_false_iff);
    destruct (lookup fs (cur ++ [c])) as [[d|es|t]|] eqn:El;
    try (apply IH in H; [exact H|];
         apply canonical_snoc; [assumption..|now rewrite El]).
  - discriminate.
  - apply IHf in H; [exact H|]. now destruct (is_absolute t).
Qed.

(** A canonical path is its own [realpath], however few links may be
    followed. *)
Lemma walk_of_canonical fuel fs :
  forall rest cur,
    canonical_from fs cur rest = true ->
    walk false fuel fs cur rest = Some (cur ++ rest).
Proof.
  induction rest as [|c rest IH]; intros cur H.
  - now rewrite walk_nil, app_nil_r.
  - simpl in H. apply andb_true_iff in H as [H Hrest].
    apply andb_true_iff in H as [Hc Hl].
    apply plain_name_false_iff in Hc as [E1 E2].
    rewrite walk_cons. simpl. rewrite E1, E2.
    destruct (lookup fs (cur ++ [c])) as [[d|es|t]|];
      try discriminate; rewrite IH by assumption;
      now rewrite <- app_assoc.
Qed.

Lemma resolve_canonical fuel fs p q :
  resolve fuel fs p = Some q -> canonical fs q = true.
Proof. apply walk_canonical. reflexivity. Qed.

Lemma resolve_of_canonical fuel fs p :
  canonical fs p = true -> resolve fuel fs p = Some p.
Proof. intros H. unfold resolve. now rewrite walk_of_canonical. Qed.

(** Resolving twice changes nothing more. *)
Lemma resolve_idempotent fuel fuel' fs p q :
  resolve fuel fs p = Some q -> resolve fuel' fs q = Some q.
Proof.
  intros H. apply resolve_of_canonical. eapply resolve_canonical; eauto.
Qed.

End FsFacts.

Module SafeFileOpsFacts.
Import Text Fs Exn SafeFileOps FsFacts.

Lemma resolve_or_raise_some fuel fs p q :
  resolve fuel fs p = Some q -> resolve_or_raise fuel fs p = Ok q.
Proof. unfold resolve_or_raise. now intros ->. Qed.

(** [_is_git_path] on a resolved path: it is the resolved [.git] of the
    project, or below it. *)
Lemma _is_git_path_resolved fuel self fs q :
  canonical fs q = true ->
  _is_git_path fuel self fs q =
  match resolve fuel fs (project_dir self ++ [".git"]) with
  | Some git_dir => is_prefix git_dir q
  | None => false
  end.
Proof.
  intros Hq. unfold _is_git_path.
  rewrite (resolve_of_canonical fuel _ _ Hq).
  destruct (resolve fuel fs (project_dir self ++ [".git"])) as [g|];
    [|reflexivity].
  destruct (path_eqb q g) eqn:E; [|reflexivity].
  apply path_eqb_eq in E. subst. now rewrite is_prefix_refl.
Qed.


End SafeFileOpsFacts.


(* ================================================================== *)
(** * Facts about the matcher *)
(* ================================================================== *)

Module ReFacts.
Import Text Re.

Lemma append_assoc (a b c : string) :
  ((a ++ b) ++ c = a ++ (b ++ c))%string.
Proof. induction a as [|x a IH]; simpl; [reflexivity|now rewrite IH]. Qed.

Lemma length_append (a b : string) :
  String.length (a ++ b) = String.length a + String.length b.
Proof. induction a as [|x a IH]; simpl; [reflexivity|now rewrite IH]. Qed.

Lemma take_drop (n : nat) (s : string) : (take n s ++ drop n s)%string = s.
Proof.
  revert s. induction n as [|n IH]; intros [|c s]; simpl; try reflexivity.
  now rewrite IH.
Qed.

Lemma take_append (a b : string) : take (String.length a) (a ++ b) = a.
Proof. induction a as [|x a IH]; simpl; [now destruct b|now rewrite IH]. Qed.

Lemma drop_append (a b : string) : drop (String.length a) (a ++ b) = b.
Proof. induction a as [|x a IH]; simpl; [reflexivity|exact IH]. Qed.

Lemma length_take (n : nat) (s : string) :
  n <= String.length s -> String.length (take n s) = n.
Proof.
  revert s. induction n as [|n IH]; intros [|c s] H; simpl in *;
    try reflexivity; try lia.
  rewrite IH; lia.
Qed.

Lemma run_length_le (p : ascii -> bool) (s : string) :
  run_length p s <= String.length s.
Proof. induction s as [|c s IH]; simpl; [lia|destruct (p c); lia]. Qed.

Lemma take_run (p : ascii -> bool) (s : string) (m : nat) :
  m <= run_length p s -> all_chars p (take m s) = true.
Proof.
  revert s. induction m as [|m IH]; intros [|c s] H; simpl in *;
    try reflexivity; try lia.
  destruct (p c); simpl; [apply IH; lia|lia].
Qed.

(** A run of [p] followed by a character outside [p], or by the end. *)
Lemma run_length_stop (p : ascii -> bool) (w rest : string) :
  all_chars p w = true ->
  match rest with String c _ => p c = false | EmptyString => True end ->
  run_length p (w ++ rest) = String.length w.
Proof.
  intros Hw Hrest. induction w as [|c w IH]; simpl in *.
  - destruct rest as [|c rest]; simpl; [reflexivity|now rewrite Hrest].
  - apply andb_true_iff in Hw as [-> Hw]. now rewrite IH.
Qed.

Section Soundness.
Variable R : Type.

Lemma rep_try_eq (n min pos : nat) (s : string) (cap : option string)
      (k : cont R) :
  rep_try n min pos s cap k =
  match (if min <=? n then k (pos + n) (drop n s) cap else None) with
  | Some r => Some r
  | None =>
      match n with
      | 0 => None
      | S n' => rep_try n' min pos s cap k
      end
  end.
Proof. destruct n; reflexivity. Qed.

Lemma rep_try_inv (n min pos : nat) (s : string) (cap : option string)
      (k : cont R) (x : R) :
  rep_try n min pos s cap k = Some x ->
  exists m, min <= m /\ m <= n /\ k (pos + m) (drop m s) cap = Some x.
Proof.
  induction n as [|n IH]; rewrite rep_try_eq;
    (destruct (min <=? _) eqn:E;
     [apply Nat.leb_le in E;
      destruct (k _ _ cap) eqn:K;
      [intros [= <-]; eexists; repeat split; [exact E| |exact K]; lia|]
     |]);
    try discriminate;
    intros H; destruct (IH H) as (m & ? & ? & ?); exists m; auto.
Qed.

(** The longest run is tried first. *)
Lemma rep_try_first (n min pos : nat) (s : string) (cap : option string)
      (k : cont R) (x : R) :
  min <= n -> k (pos + n) (drop n s) cap = Some x ->
  rep_try n min pos s cap k = Some x.
Proof.
  intros Hmin Hk. apply Nat.leb_le in Hmin.
  now rewrite rep_try_eq, Hmin, Hk.
Qed.
End Soundness.

(** When [exec] succeeds, the pattern consumed a text of its language
    and the continuation succeeded on the rest; a group hands the text
    it consumed to its continuation. *)
Lemma exec_sound (R : Type) (r : regex) :
  forall (pos : nat) (s : string) (cap : option string) (k : cont R) (x : R),
    exec r pos s cap k = Some x ->
    exists w rest cap',
      s = (w ++ rest)%string /\ lang r w
      /\ k (pos + String.length w) rest cap' = Some x
      /\ match r with Grp _ => cap' = Some w | _ => True end.
Proof.
  induction r as [|a|a min|r1 IH1 r2 IH2| | |r1 IH1];
    intros pos s cap k x H; simpl in H.
  - exists EmptyString, s, cap. simpl. rewrite Nat.add_0_r. auto.
  - destruct s as [|c s]; [discriminate|].
    destruct (in_cls a c) eqn:E; [|discriminate].
    exists (String c EmptyString), s, cap. simpl.
    rewrite Nat.add_1_r. repeat split; eauto.
  - apply rep_try_inv in H as (m & Hmin & Hmax & Hk).
    pose proof (run_length_le (in_cls a) s) as Hlen.
    exists (take m s), (drop m s), cap.
    rewrite take_drop, length_take by lia.
    repeat split; auto using take_run.
    rewrite length_take; lia.
  - apply IH1 in H as (w1 & rest1 & cap1 & -> & L1 & H & _).
    apply IH2 in H as (w2 & rest2 & cap2 & -> & L2 & H & _).
    exists (w1 ++ w2)%string, rest2, cap2.
    rewrite append_assoc, length_append, Nat.add_assoc.
    repeat split; auto. simpl. eauto.
  - destruct (pos =? 0); [|discriminate].
    exists EmptyString, s, cap. simpl. rewrite Nat.add_0_r. auto.
  - destruct (_ || _); [|discriminate].
    exists EmptyString, s, cap. simpl. rewrite Nat.add_0_r. auto.
  - apply IH1 in H as (w & rest & cap' & -> & L & H & _).
    exists w, rest, (Some w). repeat split; auto.
    replace (pos + String.length w - pos) with (String.length w) in H by lia.
    now rewrite take_append in H.
Qed.

(** Every text [findall] returns is the group of a match. *)
Lemma findall_from_match (r : regex) (c : string) :
  forall (s : string) (pos skip : nat),
    In c (findall_from r pos skip s) ->
    exists pos' s' used, match_here r pos' s' = Some (c, used).
Proof.
  induction s as [|a s IH]; intros pos skip H; simpl in H.
  - destruct skip; [|contradiction].
    destruct (match_here r pos EmptyString) as [[c' used]|] eqn:E; [|contradiction].
    destruct H as [<-|[]]. eauto.
  - destruct skip as [|skip]; [|eauto].
    destruct (match_here r pos (String a s)) as [[c' used]|] eqn:E; [|eauto].
    destruct H as [<-|H]; eauto.
Qed.

End ReFacts.

(* ================================================================== *)
(** * Facts about the versions *)
(* ================================================================== *)

Module VersionFacts.
Import Text Re ReFacts Exn ModBuilder.

Lemma exec_rep_stop (R : Type) (a : cls) (min pos : nat) (w rest : string)
      (cap : option string) (k : cont R) (x : R) :
  all_chars (in_cls a) w = true -> min <= String.length w ->
  match rest with String c _ => in_cls a c = false | EmptyString => True end ->
  k (pos + String.length w) rest cap = Some x ->
  exec (Rep a min) pos (w ++ rest) cap k = Some x.
Proof.
  intros Hw Hmin Hstop Hk. simpl.
  rewrite run_length_stop by assumption.
  apply rep_try_first; [assumption|]. now rewrite drop_append.
Qed.

Lemma exec_point (R : Type) (pos : nat) (s : string) (cap : option string)
      (k : cont R) :
  exec (Chr (Lit ".")) pos (String "." s) cap k = k (S pos) s cap.
Proof. reflexivity. Qed.

Lemma append_nil_r (s : string) : (s ++ EmptyString)%string = s.
Proof. induction s as [|c s IH]; simpl; [reflexivity|now rewrite IH]. Qed.

(** A text of three numbers with points between, as the group of the
    change-log pattern captures it, is a version once [v] is put in
    front. *)
Lemma three_numbers_valid (w : string) :
  lang three_numbers w ->
  validate_version_format ("v" ++ w) = true.
Proof.
  intros (d1 & t1 & -> & [D1 N1] & p1 & t2 & -> & (c1 & -> & P1)
          & d2 & t3 & -> & [D2 N2] & p2 & d3 & -> & (c2 & -> & P2)
          & [D3 N3]).
  unfold in_cls in P1, P2. apply Ascii.eqb_eq in P1, P2. subst c1 c2.
  unfold validate_version_format, matches.
  enough (E : exec version_format 0
                   ("v" ++ d1 ++ String "." EmptyString ++ d2 ++ String "." EmptyString ++ d3)
                   None (fun _ _ _ => Some tt) = Some tt) by now rewrite E.
  change (exec (Rep Digit 1) 1
            (d1 ++ String "." (d2 ++ String "." d3)) None
            (fun pos s cap =>
               exec (Chr (Lit "."))  pos s cap
                 (fun pos s cap =>
                    exec (Rep Digit 1) pos s cap
                      (fun pos s cap =>
                         exec (Chr (Lit ".")) pos s cap
                           (fun pos s cap =>
                              exec (Rep Digit 1) pos s cap
                                (fun pos s cap =>
                                   exec Eol pos s cap
                                     (fun _ _ _ => Some tt))))))
          = Some tt).
  apply exec_rep_stop; [assumption..|reflexivity|].
  rewrite exec_point.
  apply exec_rep_stop; [assumption..|reflexivity|].
  rewrite exec_point.
  rewrite <- (append_nil_r d3).
  apply exec_rep_stop; [assumption..|exact I|].
  reflexivity.
Qed.

(** The group of a match of the change-log pattern is such a text. *)
Lemma version_pattern_group (pos : nat) (s c : string) (used : nat) :
  match_here version_pattern pos s = Some (c, used) ->
  lang three_numbers c.
Proof.
  unfold match_here. intros H.
  change (exec (word "Version:") pos s None
            (fun p1 s1 c1 =>
               exec (Rep Space 0) p1 s1 c1
                 (fun p2 s2 c2 =>
                    exec (Grp three_numbers) p2 s2 c2
                      (fun pos' _ cap =>
                         Some (match cap with Some c => c | None => EmptyString end,
                               pos' - pos)))) = Some (c, used)) in H.
  apply exec_sound in H as (w1 & s1 & cap1 & _ & _ & H & _).
  apply exec_sound in H as (w2 & s2 & cap2 & _ & _ & H & _).
  apply (exec_sound _ (Grp three_numbers)) in H
    as (w3 & s3 & cap3 & _ & L & H & ->).
  injection H as <- _. exact L.
Qed.

Lemma findall_versions_valid (content c : string) :
  In c (findall version_pattern content) ->
  validate_version_format ("v" ++ c) = true.
Proof.
  intros H. apply findall_from_match in H as (pos & s & used & H).
  apply three_numbers_valid. eapply version_pattern_group; eauto.
Qed.

(** What [extract_versions_from_changelog] returns has the format of a
    version. *)
Lemma changelog_versions_valid (content cur : string) (prev : option string) :
  versions_of_changelog content = Ok (cur, prev) ->
  validate_version_format cur = true
  /\ forall p, prev = Some p -> validate_version_format p = true.
Proof.
  unfold versions_of_changelog.
  destruct (findall version_pattern content) as [|m0 rest] eqn:E;
    [discriminate|].
  intros [= <- <-]. split.
  - apply (findall_versions_valid content). rewrite E. now left.
  - intros p Hp. destruct rest as [|m1 rest]; [discriminate|].
    injection Hp as <-.
    apply (findall_versions_valid content). rewrite E. right. now left.
Qed.

End VersionFacts.

(* ================================================================== *)
(** * Facts about the stages *)
(* ================================================================== *)

Module StageFacts.
Import Text Re Fs Exn Py World ModBuilder Spec VersionFacts.

(** A sequence ends well when both parts do. *)
Lemma bind_ok (S A B : Type) (m : M S A) (k : A -> M S B) (s s' : S) (b : B) :
  bind m k s = (Ok b, s') ->
  exists a s1, m s = (Ok a, s1) /\ k a s1 = (Ok b, s').
Proof.
  unfold bind. destruct (m s) as [[a|e] s1]; [eauto|discriminate].
Qed.

Section Preserves.
Context {B : Type} (f : state -> B).

Lemma preserves_ret A (a : A) : preserves f (ret a).
Proof. now intros s. Qed.

Lemma preserves_raise A e : preserves f (@raise state A e).
Proof. now intros s. Qed.

Lemma preserves_get : preserves f get.
Proof. now intros s. Qed.

Lemma preserves_lift A (r : result A) : preserves f (lift r).
Proof. now intros s. Qed.

Lemma preserves_required A (o : option A) : preserves f (required o).
Proof. now destruct o; intros s. Qed.

Lemma preserves_bind A C (m : M state A) (k : A -> M state C) :
  preserves f m -> (forall a, preserves f (k a)) -> preserves f (bind m k).
Proof.
  intros Hm Hk s. unfold bind. specialize (Hm s).
  destruct (m s) as [[a|e] s1]; simpl in *; [|assumption].
  now rewrite Hk.
Qed.

Lemma preserves_modify (g : state -> state) :
  (forall s, f (g s) = f s) -> preserves f (modify g).
Proof. intros H s. apply H. Qed.

Lemma preserves_for_each A (l : list A) (body : A -> M state unit) :
  (forall a, preserves f (body a)) -> preserves f (for_each l body).
Proof.
  intros H. induction l as [|a l IH]; simpl.
  - apply preserves_ret.
  - apply preserves_bind; auto.
Qed.

(** What does not read the file system is left alone by the file
    operations and by external programs. *)
Hypothesis f_fs : forall x s, f (set_fs x s) = f s.

Lemma preserves_on_fs A (m : M node A) : preserves f (on_fs m).
Proof. intros s. unfold on_fs. destruct (m (fs s)). apply f_fs. Qed.

Lemma preserves_call env argv cwd : preserves f (call env argv cwd).
Proof.
  intros s. unfold call. destruct (subprocess_run env argv cwd (fs s)).
  apply f_fs.
Qed.
End Preserves.

Section Never.
Context (bad : exn -> Prop).

Lemma never_ret A (a : A) : never bad (ret a).
Proof. intros s e. discriminate. Qed.

Lemma never_get : never bad get.
Proof. intros s e. discriminate. Qed.

Lemma never_modify g : never bad (modify g).
Proof. intros s e. discriminate. Qed.

Lemma never_raise A e : ~ bad e -> never bad (@raise state A e).
Proof. intros H s e' [= <-]. exact H. Qed.

Lemma never_required A (o : option A) :
  ~ bad Unexpected -> never bad (required o).
Proof. destruct o; intros H s e; [discriminate|]. now intros [= <-]. Qed.

Lemma never_bind A C (m : M state A) (k : A -> M state C) :
  never bad m -> (forall a, never bad (k a)) -> never bad (bind m k).
Proof.
  intros Hm Hk s e. unfold bind. specialize (Hm s).
  destruct (m s) as [[a|e'] s1]; simpl in *.
  - apply Hk.
  - intros [= <-]. now apply Hm.
Qed.

Lemma never_lift A (r : result A) :
  (forall e, r = Raise e -> ~ bad e) -> never bad (lift r).
Proof. intros H s e. apply H. Qed.

Lemma never_on_fs A (m : M node A) :
  (forall x e, fst (m x) = Raise e -> ~ bad e) -> never bad (on_fs m).
Proof.
  intros H s e. unfold on_fs. specialize (H (fs s)).
  destruct (m (fs s)). apply H.
Qed.

Lemma never_call env argv cwd : never bad (call env argv cwd).
Proof.
  intros s e. unfold call.
  destruct (subprocess_run env argv cwd (fs s)). discriminate.
Qed.
End Never.

Ltac preserves_tac :=
  repeat first
    [ apply preserves_ret | apply preserves_raise | apply preserves_get
    | apply preserves_lift | apply preserves_required
    | apply preserves_on_fs; first [assumption | intros; reflexivity]
    | apply preserves_call; first [assumption | intros; reflexivity]
    | apply preserves_modify; intros; reflexivity
    | apply preserves_for_each; intros
    | apply preserves_bind; [|intros]
    | match goal with
      | |- preserves _ (match ?x with _ => _ end) => destruct x
      end ].

Section Stages.
Variable fuel : nat.
Variable env : Env.
Variable self : t.

Lemma preserves_read_text B (f : state -> B) p :
  preserves f (read_text fuel p).
Proof. unfold read_text. preserves_tac. Qed.

Lemma preserves_probe B (f : state -> B) argv :
  (forall x s, f (set_fs x s) = f s) -> preserves f (probe env argv).
Proof. intros H. unfold probe. preserves_tac. Qed.

Lemma preserves_git_tag_list B (f : state -> B) tag :
  (forall x s, f (set_fs x s) = f s) ->
  preserves f (git_tag_list env self tag).
Proof. intros H. unfold git_tag_list. preserves_tac. Qed.

(** Reading the two files changes neither the file system nor the
    queue. *)
Lemma extract_info_preserves_fs :
  preserves fs (extract_version_from_info_json fuel env self).
Proof.
  unfold extract_version_from_info_json.
  preserves_tac; apply preserves_read_text.
Qed.

Lemma extract_changelog_preserves :
  preserves (fun s => s) (extract_versions_from_changelog fuel self).
Proof.
  unfold extract_versions_from_changelog, read_text. preserves_tac.
Qed.

Lemma validate_versions_preserves_queue :
  preserves queue (validate_versions fuel env self).
Proof.
  unfold validate_versions, extract_version_from_info_json,
    extract_versions_from_changelog.
  preserves_tac; apply preserves_read_text.
Qed.

Lemma build_zip_package_preserves_queue :
  preserves queue (build_zip_package fuel env self).
Proof. unfold build_zip_package. preserves_tac. Qed.

Lemma create_backup_preserves_queue :
  preserves queue (create_backup fuel env self).
Proof.
  unfold create_backup. preserves_tac; now apply preserves_probe.
Qed.

Lemma clean_preserves_queue :
  preserves queue (clean_project_directory fuel self).
Proof.
  unfold clean_project_directory, iterdir, clean_item. preserves_tac.
Qed.

Lemma run_factorio_preserves_queue :
  preserves queue (run_factorio fuel env self).
Proof. unfold run_factorio. preserves_tac. Qed.

Lemma confirm_proceed_preserves (s : state) :
  snd (confirm_proceed env self s) = s.
Proof. unfold confirm_proceed. now destruct (input env). Qed.

Lemma verify_previous_tag_preserves_queue :
  preserves queue (verify_previous_tag env self).
Proof.
  unfold verify_previous_tag. preserves_tac; now apply preserves_git_tag_list.
Qed.

Lemma before_confirmation_preserves_queue skip_factorio skip_clean :
  preserves queue (before_confirmation fuel env self skip_factorio skip_clean).
Proof.
  unfold before_confirmation.
  apply preserves_bind; [apply validate_versions_preserves_queue|intros _].
  apply preserves_bind; [apply build_zip_package_preserves_queue|intros _].
  apply preserves_bind; [apply create_backup_preserves_queue|intros _].
  apply preserves_bind; [|intros _].
  - destruct (negb skip_clean);
      [apply clean_preserves_queue|apply preserves_ret].
  - destruct (negb skip_factorio);
      [apply run_factorio_preserves_queue|apply preserves_ret].
Qed.
End Stages.

Ltac never_tac :=
  repeat first
    [ apply never_ret | apply never_get | apply never_modify
    | apply never_raise; simpl; tauto
    | apply never_required; simpl; tauto
    | apply never_call
    | apply never_bind; [|intros]
    | match goal with
      | |- never _ (match ?x with _ => _ end) => destruct x
      end ].

Section FileErrors.
Variable fuel : nat.
Variable ops : SafeFileOps.t.

Lemma validate_in_project_errors fs0 p allow_git e :
  SafeFileOps._validate_path_in_project fuel ops fs0 p allow_git = Raise e ->
  ~ tag_error e.
Proof.
  unfold SafeFileOps._validate_path_in_project, SafeFileOps.resolve_or_raise.
  destruct (resolve fuel fs0 p); [|now intros [= <-]].
  destruct (negb _); [now intros [= <-]|].
  destruct (_ && _); [now intros [= <-]|discriminate].
Qed.

Lemma validate_in_output_errors fs0 p e :
  SafeFileOps._validate_path_in_output fuel ops fs0 p = Raise e ->
  ~ tag_error e.
Proof.
  unfold SafeFileOps._validate_path_in_output, SafeFileOps.resolve_or_raise.
  destruct (resolve fuel fs0 p); [|now intros [= <-]].
  destruct (negb _); [now intros [= <-]|].
  destruct (negb _); [now intros [= <-]|discriminate].
Qed.

Lemma commit_errors change fs0 e :
  fst (SafeFileOps.commit change fs0) = Raise e -> e = Unexpected.
Proof.
  unfold SafeFileOps.commit. destruct (change fs0); [discriminate|].
  now intros [= <-].
Qed.

Lemma path_mkdir_errors depth :
  forall p parents exist_ok fs0 e,
    fst (SafeFileOps.path_mkdir fuel depth p parents exist_ok fs0) = Raise e ->
    e = Unexpected.
Proof.
  induction depth as [|depth IH]; intros p parents exist_ok fs0 e; simpl;
    destruct (SafeFileOps.os_mkdir fs0 p); try discriminate;
    try (destruct (_ || _); [now intros [= <-]|discriminate]);
    try (now intros [= <-]).
  destruct (_ || _); [now intros [= <-]|].
  destruct (SafeFileOps.path_mkdir fuel depth (parent p) true true fs0)
    as [[[]|e'] fs1] eqn:E.
  - apply IH.
  - intros [= <-]. eapply IH. now rewrite E.
Qed.

Lemma safe_mkdir_errors p parents exist_ok fs0 e :
  fst (SafeFileOps.safe_mkdir fuel ops p parents exist_ok fs0) = Raise e ->
  ~ tag_error e.
Proof.
  unfold SafeFileOps.safe_mkdir, bind, get, lift.
  destruct (SafeFileOps._validate_path_in_project fuel ops fs0 p false)
    as [q|e'] eqn:V.
  - intros H. apply path_mkdir_errors in H. now subst.
  - intros [= <-]. eapply validate_in_project_errors; eauto.
Qed.

Lemma safe_write_errors p content fs0 e :
  fst (SafeFileOps.safe_write fuel ops p content fs0) = Raise e ->
  ~ tag_error e.
Proof.
  unfold SafeFileOps.safe_write, bind, get, lift, raise,
    SafeFileOps.resolve_or_raise.
  destruct (resolve fuel fs0 p) as [q|]; [|now intros [= <-]].
  destruct (is_prefix (SafeFileOps.project_dir ops) q).
  - destruct (SafeFileOps._validate_path_in_project fuel ops fs0 p false)
      as [v|e'] eqn:V.
    + intros H. apply commit_errors in H. now subst.
    + intros [= <-]. eapply validate_in_project_errors; eauto.
  - destruct (is_prefix (SafeFileOps.output_dir ops) q);
      [|now intros [= <-]].
    destruct (SafeFileOps._validate_path_in_output fuel ops fs0 p)
      as [v|e'] eqn:V.
    + intros H. apply commit_errors in H. now subst.
    + intros [= <-]. eapply validate_in_output_errors; eauto.
Qed.
End FileErrors.

Section TagStages.
Variable fuel : nat.
Variable env : Env.
Variable self : t.

Lemma never_read_text p : never tag_error (read_text fuel p).
Proof. unfold read_text. never_tac. Qed.

Lemma never_probe argv : never tag_error (probe env argv).
Proof. unfold probe. never_tac. Qed.

(** Preparing the release raises neither of the errors about tags. *)
Lemma create_github_release_no_tag_error :
  never tag_error (create_github_release fuel env self).
Proof.
  unfold create_github_release, extract_changelog_for_release.
  never_tac;
    try (apply never_on_fs; intros;
         eauto using safe_mkdir_errors, safe_write_errors).
Qed.

(** [create_git_tag] queues nothing when it raises. *)
Lemma create_git_tag_raise s e :
  fst (create_git_tag env self s) = Raise e ->
  queue (snd (create_git_tag env self s)) = queue s.
Proof.
  unfold create_git_tag, bind, get, required, ret, raise.
  destruct (version s) as [v|]; [|reflexivity].
  pose proof (preserves_git_tag_list env self _ queue v
                (fun _ _ => eq_refl) s) as P.
  destruct (git_tag_list env self v s) as [[stdout|e'] s1];
    simpl in P |- *; [|now intros _].
  destruct (negb _); [now intros _|discriminate].
Qed.
End TagStages.

Section Versions.
Variable fuel : nat.
Variable env : Env.
Variable self : t.

(** What [extract_versions_from_changelog] returns comes from the
    pattern. *)
Lemma extract_changelog_ok s cp :
  fst (extract_versions_from_changelog fuel self s) = Ok cp ->
  exists content, versions_of_changelog content = Ok cp.
Proof.
  unfold extract_versions_from_changelog, read_text.
  unfold bind, get, raise, lift, ret.
  cbv zeta. destruct (negb _); [discriminate|].
  destruct (stat fuel (fs s) _) as [[[txt|]| |]|]; try discriminate.
  simpl. eauto.
Qed.

(** The change-log is read from the file system only. *)
Lemma extract_changelog_fs (s s' : state) :
  fs s = fs s' ->
  fst (extract_versions_from_changelog fuel self s)
  = fst (extract_versions_from_changelog fuel self s').
Proof.
  intros H. unfold extract_versions_from_changelog, read_text.
  unfold bind, get, raise, lift, ret. cbv beta zeta iota. rewrite H.
  destruct (negb _); [reflexivity|]. cbv beta. rewrite H.
  destruct (stat fuel (fs s') _) as [[[txt|]| |]|]; reflexivity.
Qed.

(** [validate_versions], once both files have been read. *)
Lemma validate_versions_read s iv s1 cv prev s2 :
  extract_version_from_info_json fuel env self s = (Ok iv, s1) ->
  extract_versions_from_changelog fuel self s1 = (Ok (cv, prev), s2) ->
  s2 = s1
  /\ validate_version_format cv = true
  /\ validate_versions fuel env self s =
     if negb (validate_version_format iv)
     then (Raise (BuildError (InfoVersionFormat iv)),
           set_previous_version prev s1)
     else if negb (String.eqb iv cv)
     then (Raise (BuildError (VersionMismatch iv cv)),
           set_previous_version prev s1)
     else (Ok tt, set_version (Some iv) (set_previous_version prev s1)).
Proof.
  intros E1 E2.
  pose proof (extract_changelog_preserves fuel self s1) as P.
  rewrite E2 in P. simpl in P. subst s2.
  destruct (extract_changelog_ok s1 (cv, prev)) as [content Hc];
    [now rewrite E2|].
  apply changelog_versions_valid in Hc as [Hcv Hprev].
  repeat split; [assumption|].
  unfold validate_versions, bind. rewrite E1, E2. simpl.
  destruct (validate_version_format iv); simpl; [|reflexivity].
  rewrite Hcv. simpl.
  destruct (String.eqb iv cv); simpl; [|reflexivity].
  destruct prev as [p|]; [|reflexivity].
  rewrite (Hprev p eq_refl). simpl. now rewrite andb_false_r.
Qed.
End Versions.

Section FormatErrors.
Variable fuel : nat.
Variable env : Env.
Variable self : t.

Lemma extract_info_no_format_error :
  never changelog_format_error
        (extract_version_from_info_json fuel env self).
Proof. unfold extract_version_from_info_json, read_text. never_tac. Qed.

Lemma extract_changelog_no_format_error :
  never changelog_format_error (extract_versions_from_changelog fuel self).
Proof.
  unfold extract_versions_from_changelog, read_text. never_tac.
  apply never_lift. unfold versions_of_changelog.
  intros e. destruct (findall _ _); [|discriminate]. now intros [= <-].
Qed.
End FormatErrors.

End StageFacts.

(* ================================================================== *)
(** * Facts about changes of the tree *)
(* ================================================================== *)

Module TreeFacts.
Import Text Fs FsFacts.

Lemma lookup_app (n : node) (a b : path) :
  lookup n (a ++ b) =
  match lookup n a with
  | Some m => lookup m b
  | None => None
  end.
Proof.
  revert n. induction a as [|c a IH]; intros n; simpl; [reflexivity|].
  destruct n as [d|es|t]; try reflexivity.
  destruct (assoc c es); [apply IH|reflexivity].
Qed.

Lemma lookup_snoc_dir (fs : node) (p : path) (es : list (string * node))
      (c : string) :
  lookup fs p = Some (Dir es) -> lookup fs (p ++ [c]) = assoc c es.
Proof.
  intros H. rewrite lookup_app, H. simpl. now destruct (assoc c es).
Qed.

(** ** [stat] of a canonical path *)

Lemma walk_strict_of_canonical fuel fs :
  forall rest cur nd,
    canonical_from fs cur rest = true ->
    lookup fs (cur ++ rest) = Some nd ->
    walk true fuel fs cur rest = Some (cur ++ rest).
Proof.
  induction rest as [|c rest IH]; intros cur nd Hcan Hl.
  - now rewrite walk_nil, app_nil_r.
  - simpl in Hcan. apply andb_true_iff in Hcan as [H Hrest].
    apply andb_true_iff in H as [Hc Hnl].
    apply plain_name_false_iff in Hc as [E1 E2].
    rewrite walk_cons, E1, E2.
    assert (Hcur : is_dir_node (lookup fs cur) = true).
    { rewrite lookup_app in Hl.
      destruct (lookup fs cur) as [[d|es|t]|]; try discriminate. reflexivity. }
    rewrite Hcur. simpl.
    replace (cur ++ c :: rest) with ((cur ++ [c]) ++ rest) in Hl |- *
      by now rewrite <- app_assoc.
    assert (Hsome : lookup fs (cur ++ [c]) <> None).
    { rewrite lookup_app in Hl. now destruct (lookup fs (cur ++ [c])). }
    destruct (lookup fs (cur ++ [c])) as [[d|es|t]|];
      try discriminate; try congruence; eauto.
Qed.

Lemma stat_canonical fuel fs p nd :
  canonical fs p = true -> lookup fs p = Some nd ->
  stat fuel fs p = Some nd.
Proof.
  intros Hc Hl. unfold stat.
  now rewrite (walk_strict_of_canonical fuel fs p [] nd Hc Hl).
Qed.

(** ** Entries *)

Lemma assoc_set_entry_same c v es :
  assoc c es <> None -> assoc c (set_entry c (Some v) es) = Some v.
Proof.
  induction es as [|[k n] es IH]; simpl; [congruence|].
  destruct (String.eqb c k) eqn:E; simpl; rewrite E; auto.
Qed.

Lemma set_entry_set_entry c v v' es :
  assoc c es <> None ->
  set_entry c (Some v') (set_entry c (Some v) es) = set_entry c (Some v') es.
Proof.
  induction es as [|[k n] es IH]; simpl; [congruence|].
  destruct (String.eqb c k) eqn:E; simpl; rewrite E; [reflexivity|].
  intros H. now rewrite IH.
Qed.

Lemma set_entry_same c v es :
  assoc c es = Some v -> set_entry c (Some v) es = es.
Proof.
  induction es as [|[k n] es IH]; simpl; [discriminate|].
  destruct (String.eqb c k) eqn:E.
  - now intros [= ->].
  - intros H. now rewrite IH.
Qed.

Lemma assoc_in (A : Type) c (v : A) es : assoc c es = Some v -> In (c, v) es.
Proof.
  induction es as [|[k n] es IH]; simpl; [discriminate|].
  destruct (String.eqb c k) eqn:E.
  - apply String.eqb_eq in E. subst. intros [= ->]. now left.
  - auto.
Qed.

Lemma in_assoc (A : Type) c (v : A) es :
  NoDup (map fst es) -> In (c, v) es -> assoc c es = Some v.
Proof.
  induction es as [|[k n] es IH]; simpl; [contradiction|].
  intros Hnd [[= -> ->]|Hin].
  - now rewrite String.eqb_refl.
  - inversion Hnd as [|? ? Hk Hnd']; subst.
    destruct (String.eqb c k) eqn:E; [|auto].
    apply String.eqb_eq in E. subst. exfalso. apply Hk.
    now apply (in_map fst) in Hin.
Qed.

(** Without the entry [c], when names are distinct. *)
Lemma set_entry_none_filter c es :
  NoDup (map fst es) ->
  set_entry c None es = filter (fun e => negb (String.eqb c (fst e))) es.
Proof.
  induction es as [|[k n] es IH]; simpl; [reflexivity|].
  intros Hnd. inversion Hnd as [|? ? Hk Hnd']; subst.
  destruct (String.eqb c k) eqn:E; simpl.
  - apply String.eqb_eq in E. subst.
    symmetry. clear IH Hnd Hnd'.
    induction es as [|[k' n'] es IH]; simpl in *; [reflexivity|].
    destruct (String.eqb k k') eqn:E'; simpl.
    + apply String.eqb_eq in E'. subst. tauto.
    + f_equal. apply IH. tauto.
  - now rewrite IH.
Qed.

Lemma assoc_filter (A : Type) c (keep : string -> bool) (es : list (string * A)) :
  keep c = true ->
  assoc c (filter (fun e => keep (fst e)) es) = assoc c es.
Proof.
  intros Hk. induction es as [|[k n] es IH]; simpl; [reflexivity|].
  destruct (String.eqb c k) eqn:E.
  - apply String.eqb_eq in E. subst. rewrite Hk. simpl.
    now rewrite String.eqb_refl.
  - destruct (keep k); simpl; [now rewrite E|exact IH].
Qed.

Lemma NoDup_map_filter (A : Type) (keep : string * A -> bool) es :
  NoDup (map fst es) -> NoDup (map fst (filter keep es)).
Proof.
  induction es as [|[k n] es IH]; simpl; [auto|].
  intros Hnd. inversion Hnd as [|? ? Hk Hnd']; subst.
  destruct (keep (k, n)); simpl; [|auto].
  constructor; [|auto]. intros Hin. apply Hk.
  apply in_map_iff in Hin as ([k' n'] & <- & Hin).
  apply filter_In in Hin as [Hin _]. now apply (in_map fst) in Hin.
Qed.

(** ** [replace] and [alter] *)

Lemma lookup_replace p v fs fs1 :
  replace p v fs = Some fs1 -> lookup fs1 p = Some v.
Proof.
  revert fs fs1. induction p as [|c p IH]; intros fs fs1; simpl.
  - now intros [= ->].
  - destruct fs as [d|es|t]; try discriminate.
    destruct (assoc c es) as [ch|] eqn:A; [|discriminate].
    destruct (replace p v ch) as [ch'|] eqn:R; [|discriminate].
    intros [= <-]. rewrite assoc_set_entry_same by congruence. eauto.
Qed.

Lemma replace_replace p v v' fs fs1 :
  replace p v fs = Some fs1 -> replace p v' fs1 = replace p v' fs.
Proof.
  revert fs fs1. induction p as [|c p IH]; intros fs fs1; simpl.
  - reflexivity.
  - destruct fs as [d|es|t]; try discriminate.
    destruct (assoc c es) as [ch|] eqn:A; [|discriminate].
    destruct (replace p v ch) as [ch'|] eqn:R; [|discriminate].
    intros [= <-]. rewrite assoc_set_entry_same by congruence.
    rewrite (IH _ _ R).
    destruct (replace p v' ch); [|reflexivity].
    rewrite set_entry_set_entry by congruence. reflexivity.
Qed.

Lemma replace_self p v fs :
  lookup fs p = Some v -> replace p v fs = Some fs.
Proof.
  revert fs. induction p as [|c p IH]; intros fs; simpl.
  - now intros [= ->].
  - destruct fs as [d|es|t]; try discriminate.
    destruct (assoc c es) as [ch|] eqn:A; [|discriminate].
    intros H. rewrite (IH _ H). now rewrite set_entry_same.
Qed.

Lemma replace_defined p v v' fs fs1 :
  replace p v fs = Some fs1 -> exists fs2, replace p v' fs = Some fs2.
Proof.
  revert fs fs1. induction p as [|c p IH]; intros fs fs1; simpl; [eauto|].
  destruct fs as [d|es|t]; try discriminate.
  destruct (assoc c es) as [ch|]; [|discriminate].
  destruct (replace p v ch) as [ch'|] eqn:R; [|discriminate].
  intros _. destruct (IH _ _ R) as [ch2 ->]. eauto.
Qed.



(** Changing an entry of a directory is replacing the directory. *)
Lemma alter_as_replace f p c fs es :
  lookup fs p = Some (Dir es) ->
  alter f (p ++ [c]) fs
  = replace p (Dir (set_entry c (f (assoc c es)) es)) fs.
Proof.
  revert fs. induction p as [|a p IH]; intros fs; simpl.
  - now intros [= ->].
  - destruct fs as [d|es0|t]; try discriminate;
      try (now destruct (p ++ [c])).
    destruct (assoc a es0) as [ch|] eqn:A; [|discriminate].
    intros H. rewrite <- (IH _ H).
    destruct (p ++ [c]) eqn:E; [now destruct p|reflexivity].
Qed.

(** Canonical paths depend on the entries along them only. *)
Lemma canonical_from_ext n m rest :
  forall cur cur',
    (forall a, lookup n (cur ++ a) = lookup m (cur' ++ a)) ->
    canonical_from n cur rest = canonical_from m cur' rest.
Proof.
  induction rest as [|c rest IH]; intros cur cur' H; simpl; [reflexivity|].
  rewrite H. f_equal. apply IH. intros a. now rewrite <- !app_assoc.
Qed.

Lemma canonical_from_child n cur m rest :
  lookup n cur = Some m ->
  canonical_from n cur rest = canonical_from m [] rest.
Proof.
  intros H. apply canonical_from_ext. intros a. now rewrite lookup_app, H.
Qed.

(** Replacing a directory by a directory keeps its path canonical. *)
Lemma canonical_replace p es' :
  forall fs fs1,
    canonical fs p = true ->
    replace p (Dir es') fs = Some fs1 ->
    canonical fs1 p = true.
Proof.
  unfold canonical. induction p as [|c p IH]; intros fs fs1 Hc; simpl;
    [reflexivity|].
  destruct fs as [d|es|t]; try discriminate.
  destruct (assoc c es) as [ch|] eqn:A; [|discriminate].
  destruct (replace p (Dir es') ch) as [ch'|] eqn:R; [|discriminate].
  intros [= <-]. simpl in Hc.
  rewrite A in Hc. rewrite assoc_set_entry_same by congruence.
  apply andb_true_iff in Hc as [Hc Hrest].
  apply andb_true_iff in Hc as [Hplain Hnl]. rewrite Hplain.
  rewrite (canonical_from_child _ [c] ch') .
  2:{ simpl. now rewrite assoc_set_entry_same by congruence. }
  rewrite (canonical_from_child _ [c] ch) in Hrest.
  2:{ simpl. now rewrite A. }
  rewrite (IH _ _ Hrest R), andb_true_r. simpl.
  destruct p; simpl in R.
  - now injection R as <-.
  - destruct ch as [d|es0|t]; try discriminate.
    destruct (assoc s es0); [|discriminate].
    destruct (replace p (Dir es') n); [|discriminate].
    now injection R as <-.
Qed.

End TreeFacts.

(* ================================================================== *)
(** * Facts about the cleanup *)
(* ================================================================== *)

Module CleanFacts.
Import Text Fs Exn FsFacts TreeFacts SafeFileOpsFacts ModBuilder Spec.

Lemma is_prefix_snoc_neq (p : path) (m n : string) :
  m <> n -> is_prefix (p ++ [m]) (p ++ [n]) = false.
Proof.
  intros H. induction p as [|a p IH]; simpl.
  - apply String.eqb_neq in H. now rewrite H.
  - now rewrite IH, andb_false_r.
Qed.

Lemma set_fs_fs (s : state) : set_fs (fs s) s = s.
Proof. now destruct s. Qed.

Section Cleanup.
Variable fuel : nat.
Variable self : ModBuilder.t.
Variable fs0 : node.

Hypothesis Hops : SafeFileOps.project_dir (file_ops self) = (project_dir self).
Hypothesis Hcan : canonical fs0 (project_dir self) = true.

Section Item.
Variable es : list (string * node).
Variable fs1 : node.
Hypothesis Hfs1 : holds (project_dir self) fs0 es fs1.
Hypothesis Hgit : not_link (assoc ".git" es) = true.

Variable n : string.
Variable ch : node.
Hypothesis Hplain : plain_name n = true.
Hypothesis Hn : n <> ".git".
Hypothesis Hch : assoc n es = Some ch.
Hypothesis Hnl : is_link ch = false.

Lemma project_listed : lookup fs1 (project_dir self) = Some (Dir es).
Proof. eapply lookup_replace; eauto. Qed.

Lemma project_canonical : canonical fs1 (project_dir self) = true.
Proof. eapply canonical_replace; eauto. Qed.

Lemma item_lookup : lookup fs1 ((project_dir self) ++ [n]) = Some ch.
Proof. now rewrite (lookup_snoc_dir _ _ _ _ project_listed). Qed.

Lemma item_canonical : canonical fs1 ((project_dir self) ++ [n]) = true.
Proof.
  apply canonical_snoc; auto using project_canonical.
  rewrite item_lookup. now destruct ch.
Qed.

Lemma item_stat : stat fuel fs1 ((project_dir self) ++ [n]) = Some ch.
Proof. apply stat_canonical; auto using item_canonical, item_lookup. Qed.

Lemma git_resolved :
  resolve fuel fs1 ((project_dir self) ++ [".git"]) = Some ((project_dir self) ++ [".git"]).
Proof.
  apply resolve_of_canonical, canonical_snoc;
    auto using project_canonical.
  now rewrite (lookup_snoc_dir _ _ _ _ project_listed).
Qed.

Lemma item_validated :
  SafeFileOps._validate_path_in_project fuel (file_ops self) fs1
    ((project_dir self) ++ [n]) false = Ok ((project_dir self) ++ [n]).
Proof.
  unfold SafeFileOps._validate_path_in_project.
  rewrite (resolve_or_raise_some _ _ _ _
             (resolve_of_canonical fuel _ _ item_canonical)).
  rewrite Hops, is_prefix_app. simpl.
  rewrite _is_git_path_resolved by apply item_canonical.
  rewrite Hops, git_resolved.
  now rewrite is_prefix_snoc_neq by congruence.
Qed.

Lemma item_removed :
  exists fs2, remove ((project_dir self) ++ [n]) fs1 = Some fs2
              /\ holds (project_dir self) fs0 (set_entry n None es) fs2.
Proof.
  unfold remove, holds.
  rewrite (alter_as_replace _ _ _ _ _ project_listed).
  rewrite (replace_replace _ _ _ _ _ Hfs1).
  destruct (replace_defined (project_dir self) _ (Dir (set_entry n None es)) _ _ Hfs1)
    as [fs2 H2].
  exists fs2. split; exact H2.
Qed.

(** One turn of the loop on a file or a directory. *)
Lemma clean_item_removes (s : state) :
  fs s = fs1 ->
  exists fs2,
    clean_item fuel self n s = (Ok tt, set_fs fs2 s)
    /\ holds (project_dir self) fs0 (set_entry n None es) fs2.
Proof.
  intros Hs. destruct item_removed as (fs2 & Hrm & Hholds).
  exists fs2. split; [|exact Hholds].
  pose proof item_validated as V. pose proof item_stat as St.
  pose proof Hnl as L. clear Hholds.
  unfold clean_item. apply String.eqb_neq in Hn. rewrite Hn.
  unfold bind at 1. unfold get at 1.
  unfold is_file, is_dir. rewrite Hs, St.
  destruct ch as [d|es'|t]; [| |discriminate]; simpl;
    unfold on_fs; rewrite Hs.
  - unfold SafeFileOps.safe_unlink, bind, get, lift. rewrite V.
    unfold is_file. rewrite St. simpl.
    unfold SafeFileOps.commit. now rewrite Hrm.
  - unfold SafeFileOps.safe_rmtree, bind, get, lift. rewrite V.
    unfold is_dir. rewrite St. simpl.
    unfold SafeFileOps.rmtree.
    destruct ((project_dir self) ++ [n]) eqn:E; [now destruct (project_dir self)|].
    unfold SafeFileOps.commit. now rewrite Hrm.
Qed.
End Item.

Lemma set_fs_set_fs x y (s : state) : set_fs x (set_fs y s) = set_fs x s.
Proof. reflexivity. Qed.

(** The loop of [clean_project_directory]. *)
Lemma clean_loop :
  forall (l : list string) (es : list (string * node)) (s : state),
    holds (project_dir self) fs0 es (fs s) ->
    NoDup (map fst es) -> NoDup l ->
    not_link (assoc ".git" es) = true ->
    (forall n, In n l -> n <> ".git" ->
               plain_name n = true
               /\ exists ch, assoc n es = Some ch /\ is_link ch = false) ->
    exists fs2,
      for_each l (clean_item fuel self) s = (Ok tt, set_fs fs2 s)
      /\ holds (project_dir self) fs0 (filter (left_over l) es) fs2.
Proof.
  induction l as [|n l IH]; intros es s Hh Hnd Hl Hgit Hall.
  - exists (fs s). simpl. unfold ret. rewrite set_fs_fs. split; [easy|].
    replace (filter (left_over []) es) with es; [exact Hh|].
    clear. induction es as [|e es IH]; simpl; [reflexivity|].
    unfold left_over at 1. simpl. rewrite orb_true_r. now f_equal.
  - inversion Hl as [|? ? Hnl Hl']; subst.
    destruct (String.eqb n ".git") eqn:E.
    + destruct (IH es s Hh Hnd Hl' Hgit) as (fs2 & Hrun & Hh2).
      { intros m Hm. apply Hall. now right. }
      exists fs2. simpl. unfold bind, clean_item. rewrite E. simpl.
      split; [exact Hrun|].
      erewrite filter_ext; [exact Hh2|].
      intros e. unfold left_over. simpl.
      apply String.eqb_eq in E. subst n.
      now destruct (String.eqb (fst e) ".git").
    + apply String.eqb_neq in E.
      destruct (Hall n (or_introl eq_refl) E) as (Hplain & ch & Hch & Hlk).
      destruct (clean_item_removes es (fs s) Hh Hgit n ch Hplain E Hch Hlk
                  s eq_refl) as (fs2 & Hstep & Hh2).
      rewrite set_entry_none_filter in Hh2 by assumption.
      set (keep := fun c => negb (String.eqb n c)).
      assert (Hkeep : forall m, m <> n -> keep m = true).
      { intros m Hm. unfold keep.
        destruct (String.eqb n m) eqn:Em; [|reflexivity].
        apply String.eqb_eq in Em. congruence. }
      destruct (IH (filter (fun e => keep (fst e)) es) (set_fs fs2 s))
        as (fs3 & Hrun & Hh3).
      * exact Hh2.
      * now apply NoDup_map_filter.
      * exact Hl'.
      * rewrite assoc_filter; [exact Hgit|]. apply Hkeep. congruence.
      * intros m Hm Hmg.
        destruct (Hall m (or_intror Hm) Hmg) as (Hp & c & Hc & Hk).
        split; [exact Hp|]. exists c. split; [|exact Hk].
        rewrite assoc_filter; [exact Hc|]. apply Hkeep.
        intros ->. contradiction.
      * exists fs3. simpl. unfold bind. rewrite Hstep.
        rewrite Hrun, set_fs_set_fs. split; [reflexivity|].
        replace (filter (left_over (n :: l)) es)
          with (filter (left_over l) (filter (fun e => keep (fst e)) es));
          [exact Hh3|].
        clear - E. induction es as [|e es IHes]; simpl; [reflexivity|].
        unfold keep at 1, left_over at 2. simpl.
        rewrite (String.eqb_sym (fst e) n).
        destruct (String.eqb n (fst e)) eqn:En; simpl.
        -- apply String.eqb_eq in En. subst n.
           apply String.eqb_neq in E. rewrite E. simpl. exact IHes.
        -- unfold left_over at 1.
           destruct (_ || _); [now f_equal|exact IHes].
Qed.

End Cleanup.

(** Cleaning a project directory that holds files and directories
    only. *)
Lemma clean_project_directory_plain fuel self (s : state)
      (es : list (string * node)) :
  SafeFileOps.project_dir (file_ops self) = project_dir self ->
  canonical (fs s) (project_dir self) = true ->
  lookup (fs s) (project_dir self) = Some (Dir es) ->
  NoDup (map fst es) ->
  (forall n ch, In (n, ch) es -> plain_name n = true /\ is_link ch = false) ->
  exists fs',
    clean_project_directory fuel self s = (Ok tt, set_fs fs' s)
    /\ replace (project_dir self)
               (Dir (filter (fun e => String.eqb (fst e) ".git") es)) (fs s)
       = Some fs'.
Proof.
  intros Hops Hcan Hl Hnd Hall.
  destruct (clean_loop fuel self (fs s) Hops Hcan (map fst es) es s)
    as (fs2 & Hrun & Hh).
  - apply replace_self, Hl.
  - exact Hnd.
  - exact Hnd.
  - destruct (assoc ".git" es) as [g|] eqn:G; [|reflexivity].
    apply assoc_in, Hall in G as [_ G]. now destruct g.
  - intros n Hn _. apply in_map_iff in Hn as ([n' ch] & <- & Hin).
    destruct (Hall _ _ Hin) as [Hp Hk]. split; [exact Hp|].
    exists ch. split; [|exact Hk]. now apply in_assoc.
  - exists fs2. split.
    + unfold clean_project_directory, iterdir, bind, get.
      rewrite (stat_canonical fuel _ _ _ Hcan Hl). exact Hrun.
    + unfold holds in Hh. rewrite <- Hh. f_equal. f_equal.
      apply filter_ext_in. intros e He. unfold left_over.
      replace (existsb (String.eqb (fst e)) (map fst es)) with true;
        [now rewrite orb_false_r|].
      symmetry. apply existsb_exists. exists (fst e).
      split; [now apply in_map|apply String.eqb_refl].
Qed.

End CleanFacts.

(* ================================================================== *)
(** * Facts about the package *)
(* ================================================================== *)

Module PackageFacts.
Import Text Fs Exn FsFacts TreeFacts ModBuilder Spec.


Lemma distinct_NoDup (l : list string) : distinct l = true -> NoDup l.
Proof.
  induction l as [|x l IH]; simpl; [constructor|].
  intros H. apply andb_true_iff in H as [Hx Hl].
  constructor; [|auto]. intros Hin.
  apply negb_true_iff in Hx.
  assert (E : existsb (String.eqb x) l = true)
    by (apply existsb_exists; exists x; split; [exact Hin|apply String.eqb_refl]).
  congruence.
Qed.


Section Walk.
Variable fuel : nat.
Variable fs0 : node.



Variable self : ModBuilder.t.
Variable vn : string.



End Walk.

(** ** The names of the entries *)





(** ** Names that stay as they are *)










End PackageFacts.

(* ================================================================== *)
(** * The properties of the specification *)
(* ================================================================== *)

Module Claims.
Import Text Re Fs Exn Py World SafeFileOps ModBuilder Spec.
Import FsFacts SafeFileOpsFacts ReFacts VersionFacts StageFacts TreeFacts.



(** C3.  A path that resolves to something whose parent is not the
    output directory is refused by [_validate_path_in_output], also when
    it lies deeper below the output directory; [safe_write], when the
    path is not inside the project directory and so falls under the rule
    for the output directory, raises a [BuildError] and writes
    nothing. *)
Theorem C3_output_write_needs_direct_child :
  forall (fuel : nat) (self : SafeFileOps.t) (fs : node) (p q : path)
         (content : string),
    resolve fuel fs p = Some q ->
    path_eqb (parent q) (SafeFileOps.output_dir self) = false ->
    _validate_path_in_output fuel self fs p
    = Raise (BuildError
               (if is_prefix (SafeFileOps.output_dir self) q then NotDirectChild q
                else PathOutsideOutput q (SafeFileOps.output_dir self)))
    /\ (is_prefix (SafeFileOps.project_dir self) q = false ->
        safe_write fuel self p content fs
        = (Raise (BuildError
                    (if is_prefix (SafeFileOps.output_dir self) q then NotDirectChild q
                     else NotInAllowedLocations q)), fs)).
Proof.
  intros fuel self fs p q content Hr E.
  assert (V : _validate_path_in_output fuel self fs p
              = Raise (BuildError
                         (if is_prefix (SafeFileOps.output_dir self) q
                          then NotDirectChild q
                          else PathOutsideOutput q (SafeFileOps.output_dir self)))).
  { unfold _validate_path_in_output.
    rewrite (resolve_or_raise_some _ _ _ _ Hr).
    destruct (is_prefix (SafeFileOps.output_dir self) q); simpl; [|reflexivity].
    now rewrite E. }
  split; [exact V|]. intros Hp.
  unfold safe_write, bind, get, lift, raise.
  rewrite (resolve_or_raise_some _ _ _ _ Hr), Hp.
  destruct (is_prefix (SafeFileOps.output_dir self) q) eqn:Ho; [|reflexivity].
  now rewrite V.
Qed.


(** C4, as the code has it.  When [info.json] and [changelog.txt] have
    been read and their versions, with the prefix [v], differ, the run
    ends in the first stage with a [BuildError] and the exit status 1,
    before anything is changed in the file system and with nothing
    queued.  The error is the version mismatch when the version of
    [info.json] has the format [vX.Y.Z]; when it has not, the error about
    its format comes first. *)
Theorem C4_differing_versions_abort_first :
  forall (fuel : nat) (env : Env) (self : ModBuilder.t)
         (skip_factorio skip_clean : bool) (s s1 s2 : state)
         (iv cv : string) (prev : option string),
    extract_version_from_info_json fuel env self s = (Ok iv, s1) ->
    extract_versions_from_changelog fuel self s1 = (Ok (cv, prev), s2) ->
    String.eqb iv cv = false ->
    exists s',
      run_body fuel env self skip_factorio skip_clean s
      = (Raise (BuildError (if validate_version_format iv
                            then VersionMismatch iv cv
                            else InfoVersionFormat iv)), s')
      /\ run fuel env self skip_factorio skip_clean s = (SystemExit 1, s')
      /\ fs s' = fs s
      /\ remote_cmds s' = remote_cmds s
      /\ transcript s' = transcript s.
Proof.
  intros fuel env self skf skc s s1 s2 iv cv prev E1 E2 Hneq.
  destruct (validate_versions_read fuel env self s iv s1 cv prev s2 E1 E2)
    as (-> & _ & V).
  rewrite Hneq in V. simpl in V.
  pose proof (extract_info_preserves_fs fuel env self s) as Pfs.
  pose proof (validate_versions_preserves_queue fuel env self s) as Pq.
  rewrite E1 in Pfs. simpl in Pfs.
  exists (set_previous_version prev s1).
  assert (B : run_body fuel env self skf skc s
              = (Raise (BuildError (if validate_version_format iv
                                    then VersionMismatch iv cv
                                    else InfoVersionFormat iv)),
                 set_previous_version prev s1)).
  { unfold run_body, before_confirmation, bind.
    destruct (validate_version_format iv); simpl in V; now rewrite V. }
  split; [exact B|]. split; [unfold run; now rewrite B|].
  split; [exact Pfs|].
  assert (Q : queue (set_previous_version prev s1) = queue s).
  { destruct (validate_version_format iv); simpl in V;
      rewrite V in Pq; exact Pq. }
  unfold queue in Q. simpl in Q. now injection Q.
Qed.

(** C6.  A run that starts with an empty queue and ends with the error
    of a missing previous tag, or of a tag that exists already, ends
    with an empty queue and has printed no command. *)
Theorem C6_tag_errors_leave_queue_empty :
  forall (fuel : nat) (env : Env) (self : ModBuilder.t)
         (skip_factorio skip_clean : bool) (s s' : state)
         (e : build_error) (v : string),
    Remote.commands (remote_cmds s) = [] ->
    transcript s = [] ->
    run_body fuel env self skip_factorio skip_clean s
    = (Raise (BuildError e), s') ->
    e = PreviousTagMissing v \/ e = TagExists v ->
    Remote.commands (remote_cmds s') = [] /\ transcript s' = [].
Proof.
  intros fuel env self skf skc s s' e v Hc Ht Hrun He.
  assert (Hbad : tag_error (BuildError e)) by (destruct He; subst; exact I).
  enough (Q : queue s' = queue s)
    by (unfold queue in Q; injection Q as -> ->; auto).
  revert Hrun. unfold run_body, bind.
  pose proof (before_confirmation_preserves_queue fuel env self skf skc s) as P0.
  destruct (before_confirmation fuel env self skf skc s) as [[[]|e0] s0];
    simpl in P0; [|now intros [= _ <-]].
  pose proof (confirm_proceed_preserves env self s0) as P1.
  destruct (confirm_proceed env self s0) as [[proceed|e1] s1];
    simpl in P1; subst s1; [|now intros [= _ <-]].
  destruct proceed; simpl; [|discriminate].
  unfold after_confirmation, bind.
  pose proof (verify_previous_tag_preserves_queue env self s0) as P2.
  destruct (verify_previous_tag env self s0) as [[[]|e2] s2];
    simpl in P2; [|intros [= _ <-]; congruence].
  pose proof (create_git_tag_raise env self s2) as P3.
  destruct (create_git_tag env self s2) as [[[]|e3] s3];
    simpl in P3; [|intros [= _ <-]; rewrite (P3 e3 eq_refl); congruence].
  pose proof (create_github_release_no_tag_error fuel env self s3) as P4.
  destruct (create_github_release fuel env self s3) as [[[]|e4] s4];
    simpl in P4; [discriminate|].
  intros [= -> _]. exfalso. exact (P4 _ eq_refl Hbad).
Qed.

(** C7.  A version with and without the prefix [v] is the same text once
    [extract_version_from_info_json] has added the prefix; ["1.2.3"] and
    ["v1.2.3"] both become [v1.2.3], which has the format [vX.Y.Z], as
    has what the change-log line [Version: 1.2.3] gives; ["1.2"],
    ["1.2.3a"] and ["v1.2.3 "] with the space at its end do not have the
    format. *)
Theorem C7_version_format_symmetric_and_strict :
  (forall s, startswith "v" s = false ->
             add_v_prefix ("v" ++ s) = add_v_prefix s)
  /\ add_v_prefix "1.2.3" = "v1.2.3"
  /\ add_v_prefix "v1.2.3" = "v1.2.3"
  /\ validate_version_format (add_v_prefix "1.2.3") = true
  /\ validate_version_format (add_v_prefix "v1.2.3") = true
  /\ versions_of_changelog "Version: 1.2.3" = Ok ("v1.2.3", None)
  /\ validate_version_format (add_v_prefix "1.2") = false
  /\ validate_version_format (add_v_prefix "1.2.3a") = false
  /\ validate_version_format (add_v_prefix "v1.2.3 ") = false.
Proof.
  split; [|repeat split; reflexivity].
  intros s H. unfold add_v_prefix. now rewrite H.
Qed.

(** C9.  The exit status of [main] is 1 when [ModBuilder(...)] raises
    and when the [try] block of [run] raises a [BuildError], a
    [KeyboardInterrupt] or any other exception; it is 0 when the block
    ends without one.  The block ends without one when the user does not
    answer [y] or [yes] at the prompt: [run] then returns with the state
    the first five steps left, nothing queued after them. *)
Theorem C9_exit_status :
  forall (fuel : nat) (env : Env) (script_file : path) (a : arguments)
         (fs0 : node),
    match init fuel script_file (arg_factorio_path a) fs0 with
    | Raise _ => exit_status (fst (main fuel env script_file a fs0)) = 1%Z
    | Ok (self, s) =>
        match run_body fuel env self (arg_skip_factorio a) (arg_skip_clean a) s
        with
        | (Ok _, _) =>
            exit_status (fst (main fuel env script_file a fs0)) = 0%Z
        | (Raise _, _) =>
            exit_status (fst (main fuel env script_file a fs0)) = 1%Z
        end
        /\ forall s1 answer,
             before_confirmation fuel env self (arg_skip_factorio a)
                                 (arg_skip_clean a) s = (Ok tt, s1) ->
             input env = Line answer ->
             lower (strip answer) <> "y" ->
             lower (strip answer) <> "yes" ->
             main fuel env script_file a fs0 = (Returned, Some s1)
    end.
Proof.
  intros fuel env script_file a fs0. unfold main.
  destruct (init fuel script_file (arg_factorio_path a) fs0)
    as [[self s]|e]; [|reflexivity].
  split.
  - unfold run.
    destruct (run_body fuel env self (arg_skip_factorio a) (arg_skip_clean a) s)
      as [[b|[be| |]] s']; reflexivity.
  - intros s1 answer Hb Hi Hy Hyes.
    unfold run, run_body, bind. rewrite Hb.
    unfold confirm_proceed. rewrite Hi.
    apply String.eqb_neq in Hy, Hyes. unfold ret. now rewrite Hy, Hyes.
Qed.

(** C10.  Whatever the change-log holds, the current and the previous
    version [extract_versions_from_changelog] returns have the format
    [vX.Y.Z], and [validate_versions] never raises the error about the
    format of the version of the change-log, nor the one about the format
    of the previous version. *)
Theorem C10_changelog_versions_always_well_formed :
  forall (fuel : nat) (env : Env) (self : ModBuilder.t) (s : state),
    (forall content,
        match versions_of_changelog content with
        | Ok (current, previous) =>
            validate_version_format current = true
            /\ match previous with
               | Some p => validate_version_format p = true
               | None => True
               end
        | Raise _ => True
        end)
    /\ (forall v, fst (validate_versions fuel env self s)
                  <> Raise (BuildError (ChangelogVersionFormat v)))
    /\ (forall v, fst (validate_versions fuel env self s)
                  <> Raise (BuildError (PreviousVersionFormat v))).
Proof.
  intros fuel env self s. split.
  - intros content.
    destruct (versions_of_changelog content) as [[cur prev]|] eqn:E; [|exact I].
    apply changelog_versions_valid in E as [Hc Hp]. split; [exact Hc|].
    destruct prev as [p|]; [now apply Hp|exact I].
  - enough (H : forall e, fst (validate_versions fuel env self s) = Raise e ->
                          ~ changelog_format_error e).
    { split; intros v Hv; exact (H _ Hv I). }
    intros e.
    destruct (extract_version_from_info_json fuel env self s)
      as [[iv|e1] s1] eqn:E1.
    + destruct (extract_versions_from_changelog fuel self s1)
        as [[[cv prev]|e2] s2] eqn:E2.
      * destruct (validate_versions_read fuel env self s iv s1 cv prev s2 E1 E2)
          as (_ & _ & ->).
        destruct (negb (validate_version_format iv)); [now intros [= <-]|].
        destruct (negb (String.eqb iv cv)); [now intros [= <-]|discriminate].
      * pose proof (extract_changelog_no_format_error fuel self s1) as N.
        unfold validate_versions, bind. rewrite E1, E2. simpl.
        intros [= <-]. apply N. now rewrite E2.
    + pose proof (extract_info_no_format_error fuel env self s) as N.
      unfold validate_versions, bind. rewrite E1. simpl.
      intros [= <-]. apply N. now rewrite E1.
Qed.

(** C5 fails on the code.  The docstring of [clean_project_directory]
    says "Remove everything from project directory except .git", as the
    claim does; the loop tests [is_file()] and [is_dir()], which follow
    links, and deletes the path the link resolves to.  On a project
    directory with a link that leads nowhere the cleanup raises nothing
    and the link is still there; on one with a link to the project
    directory itself the cleanup raises nothing and has removed the
    project directory, with its [.git]. *)
Theorem C5_cleanup_goes_wrong_on_links :
  (fst (clean_project_directory 3 Sample.builder
          (Sample.on_tree Sample.stale_tree)) = Ok tt
   /\ lookup (fs (snd (clean_project_directory 3 Sample.builder
                          (Sample.on_tree Sample.stale_tree))))
              (Sample.project_path ++ ["stale"])
       = Some (Symlink "/nowhere"))
  /\ (lookup (fs (Sample.on_tree Sample.self_tree))
              (Sample.project_path ++ [".git"])
       = Some Sample.git_dir
      /\ fst (clean_project_directory 3 Sample.builder
                 (Sample.on_tree Sample.self_tree)) = Ok tt
      /\ lookup (fs (snd (clean_project_directory 3 Sample.builder
                             (Sample.on_tree Sample.self_tree))))
                 Sample.project_path
          = None
      /\ lookup (fs (snd (clean_project_directory 3 Sample.builder
                             (Sample.on_tree Sample.self_tree))))
                 (Sample.project_path ++ [".git"])
          = None).
Proof.
  split.
  - split; vm_compute; reflexivity.
  - repeat split; vm_compute; reflexivity.
Qed.


(** ** The claims on the sample project *)



(** C3 on a path one level too deep below the output directory. *)
Lemma C3_witness :
  resolve 3 Sample.linked_tree (Sample.output_path ++ ["looting-2"; "x.zip"])
  = Some (Sample.output_path ++ ["looting-2"; "x.zip"])
  /\ path_eqb (parent (Sample.output_path ++ ["looting-2"; "x.zip"]))
              (SafeFileOps.output_dir Sample.ops) = false
  /\ _validate_path_in_output 3 Sample.ops Sample.linked_tree
       (Sample.output_path ++ ["looting-2"; "x.zip"])
     = Raise (BuildError
                (NotDirectChild (Sample.output_path ++ ["looting-2"; "x.zip"])))
  /\ safe_write 3 Sample.ops (Sample.output_path ++ ["looting-2"; "x.zip"])
                "PK" Sample.linked_tree
     = (Raise (BuildError
                 (NotDirectChild
                    (Sample.output_path ++ ["looting-2"; "x.zip"]))),
        Sample.linked_tree).
Proof.
  assert (H1 : resolve 3 Sample.linked_tree
                       (Sample.output_path ++ ["looting-2"; "x.zip"])
               = Some (Sample.output_path ++ ["looting-2"; "x.zip"]))
    by (vm_compute; reflexivity).
  assert (H2 : path_eqb (parent (Sample.output_path ++ ["looting-2"; "x.zip"]))
                        (SafeFileOps.output_dir Sample.ops) = false)
    by (vm_compute; reflexivity).
  split; [exact H1|]. split; [exact H2|].
  destruct (C3_output_write_needs_direct_child
              3 Sample.ops Sample.linked_tree _ _ "PK" H1 H2) as [V W].
  split; [exact V|]. apply W. vm_compute; reflexivity.
Defined.

(** C4 on the versions 2.0.0 and 2.0.1. *)
Lemma C4_witness :
  extract_version_from_info_json 3 (Sample.env [] (Line "y")) Sample.builder
    (Sample.start "2.0.0" ["2.0.1"] [])
  = (Ok "v2.0.0",
     set_mod_name (PStr "looting") (Sample.start "2.0.0" ["2.0.1"] []))
  /\ extract_versions_from_changelog 3 Sample.builder
       (set_mod_name (PStr "looting") (Sample.start "2.0.0" ["2.0.1"] []))
     = (Ok ("v2.0.1", None),
        set_mod_name (PStr "looting") (Sample.start "2.0.0" ["2.0.1"] []))
  /\ String.eqb "v2.0.0" "v2.0.1" = false
  /\ exists s',
       run_body 3 (Sample.env [] (Line "y")) Sample.builder false false
                (Sample.start "2.0.0" ["2.0.1"] [])
       = (Raise (BuildError (VersionMismatch "v2.0.0" "v2.0.1")), s')
       /\ fs s' = fs (Sample.start "2.0.0" ["2.0.1"] []).
Proof.
  assert (H1 : extract_version_from_info_json
                 3 (Sample.env [] (Line "y")) Sample.builder
                 (Sample.start "2.0.0" ["2.0.1"] [])
               = (Ok "v2.0.0",
                  set_mod_name (PStr "looting")
                               (Sample.start "2.0.0" ["2.0.1"] [])))
    by (vm_compute; reflexivity).
  assert (H2 : extract_versions_from_changelog 3 Sample.builder
                 (set_mod_name (PStr "looting")
                               (Sample.start "2.0.0" ["2.0.1"] []))
               = (Ok ("v2.0.1", None),
                  set_mod_name (PStr "looting")
                               (Sample.start "2.0.0" ["2.0.1"] [])))
    by (vm_compute; reflexivity).
  assert (H3 : String.eqb "v2.0.0" "v2.0.1" = false) by reflexivity.
  split; [exact H1|]. split; [exact H2|]. split; [exact H3|].
  destruct (C4_differing_versions_abort_first
              3 (Sample.env [] (Line "y")) Sample.builder false false
              _ _ _ _ _ _ H1 H2 H3) as (s' & B & _ & F & _).
  exists s'. split; [exact B|exact F].
Defined.

(** The claim C4 as it is written fails on the versions 2.0 and 2.0.1:
    both are read, they differ, and the run ends with the error about
    the format of the first, not with the version mismatch. *)
Lemma C4_counterexample :
  fst (extract_version_from_info_json 3 (Sample.env [] (Line "y"))
         Sample.builder (Sample.start "2.0" ["2.0.1"] []))
  = Ok "v2.0"
  /\ fst (extract_versions_from_changelog 3 Sample.builder
            (Sample.start "2.0" ["2.0.1"] []))
     = Ok ("v2.0.1", None)
  /\ fst (run_body 3 (Sample.env [] (Line "y")) Sample.builder false false
            (Sample.start "2.0" ["2.0.1"] []))
     = Raise (BuildError (InfoVersionFormat "v2.0"))
  /\ forall a b,
       fst (run_body 3 (Sample.env [] (Line "y")) Sample.builder false false
              (Sample.start "2.0" ["2.0.1"] []))
       <> Raise (BuildError (VersionMismatch a b)).
Proof.
  assert (H : fst (run_body 3 (Sample.env [] (Line "y")) Sample.builder
                     false false (Sample.start "2.0" ["2.0.1"] []))
              = Raise (BuildError (InfoVersionFormat "v2.0")))
    by (vm_compute; reflexivity).
  repeat split; try (vm_compute; reflexivity).
  intros a b. rewrite H. discriminate.
Qed.

(** C6 on a change-log with a previous version that has no tag. *)
Lemma C6_witness :
  Remote.commands (remote_cmds (Sample.start "2.0.0" ["2.0.0"; "1.0.0"] []))
  = []
  /\ transcript (Sample.start "2.0.0" ["2.0.0"; "1.0.0"] []) = []
  /\ fst (run_body 3 (Sample.env [] (Line "y")) Sample.builder true true
            (Sample.start "2.0.0" ["2.0.0"; "1.0.0"] []))
     = Raise (BuildError (PreviousTagMissing "v1.0.0"))
  /\ Remote.commands
       (remote_cmds
          (snd (run_body 3 (Sample.env [] (Line "y")) Sample.builder true true
                  (Sample.start "2.0.0" ["2.0.0"; "1.0.0"] [])))) = []
  /\ transcript
       (snd (run_body 3 (Sample.env [] (Line "y")) Sample.builder true true
               (Sample.start "2.0.0" ["2.0.0"; "1.0.0"] []))) = [].
Proof.
  assert (H1 : Remote.commands
                 (remote_cmds (Sample.start "2.0.0" ["2.0.0"; "1.0.0"] []))
               = []) by reflexivity.
  assert (H2 : transcript (Sample.start "2.0.0" ["2.0.0"; "1.0.0"] []) = [])
    by reflexivity.
  assert (H3 : run_body 3 (Sample.env [] (Line "y")) Sample.builder true true
                 (Sample.start "2.0.0" ["2.0.0"; "1.0.0"] [])
               = (Raise (BuildError (PreviousTagMissing "v1.0.0")),
                  snd (run_body 3 (Sample.env [] (Line "y")) Sample.builder
                         true true
                         (Sample.start "2.0.0" ["2.0.0"; "1.0.0"] []))))
    by (vm_compute; reflexivity).
  split; [exact H1|]. split; [exact H2|].
  split; [now rewrite H3|].
  exact (C6_tag_errors_leave_queue_empty
           3 (Sample.env [] (Line "y")) Sample.builder true true _ _
           (PreviousTagMissing "v1.0.0") "v1.0.0" H1 H2 H3
           (or_introl eq_refl)).
Defined.



End Claims.

(* ================================================================== *)
(** * More facts about the file operations *)
(* ================================================================== *)

Module SafeMoreFacts.
Import Text Fs Exn SafeFileOps FsFacts SafeFileOpsFacts TreeFacts.





(** The entry removed is not there, when its directory lists each name
    once. *)
Lemma lookup_remove d c es fs fs1 rest :
  lookup fs d = Some (Dir es) -> NoDup (map fst es) ->
  remove (d ++ [c]) fs = Some fs1 ->
  lookup fs1 ((d ++ [c]) ++ rest) = None.
Proof.
  intros Hd Hnd Hr. unfold remove in Hr.
  rewrite (alter_as_replace _ _ _ _ _ Hd) in Hr.
  apply lookup_replace in Hr.
  rewrite lookup_app, (lookup_snoc_dir _ _ _ _ Hr).
  rewrite set_entry_none_filter by assumption.
  replace (assoc c (filter (fun e => negb (String.eqb c (fst e))) es))
    with (@None node); [reflexivity|].
  clear. induction es as [|[k n] es IH]; simpl; [reflexivity|].
  destruct (String.eqb c k) eqn:E; simpl; [exact IH|]. now rewrite E.
Qed.

(** A path with a last component is not the root. *)
Lemma rmtree_snoc (d : path) (c : string) :
  rmtree (d ++ [c]) = commit (remove (d ++ [c])).
Proof. unfold rmtree. now destruct (d ++ [c]) eqn:E; [destruct d|]. Qed.

End SafeMoreFacts.

(* ================================================================== *)
(** * More facts about the versions *)
(* ================================================================== *)

Module VersionMoreFacts.
Import Text Re ReFacts Exn Py ModBuilder Spec VersionFacts.

Lemma is_number_rep (s : string) :
  is_number s = true
  <-> all_chars (in_cls Digit) s = true /\ 1 <= String.length s.
Proof.
  unfold is_number. destruct s as [|c s]; simpl.
  - split; [discriminate|]. intros [_ H]. inversion H.
  - split; intros H; [split; [exact H|lia]|tauto].
Qed.

(** A text of three numbers, then the end or a last line feed. *)
Lemma three_numbers_then_end (a b c rest : string) :
  is_number a = true -> is_number b = true -> is_number c = true ->
  rest = EmptyString \/ rest = nl ->
  validate_version_format ("v" ++ a ++ "." ++ b ++ "." ++ c ++ rest) = true.
Proof.
  intros Ha Hb Hc Hrest.
  apply is_number_rep in Ha as [D1 N1].
  apply is_number_rep in Hb as [D2 N2].
  apply is_number_rep in Hc as [D3 N3].
  unfold validate_version_format, matches.
  enough (E : exec version_format 0
                   ("v" ++ a ++ "." ++ b ++ "." ++ c ++ rest)
                   None (fun _ _ _ => Some tt) = Some tt) by now rewrite E.
  change (exec (Rep Digit 1) 1
            (a ++ String "." (b ++ String "." (c ++ rest))) None
            (fun pos s cap =>
               exec (Chr (Lit "."))  pos s cap
                 (fun pos s cap =>
                    exec (Rep Digit 1) pos s cap
                      (fun pos s cap =>
                         exec (Chr (Lit ".")) pos s cap
                           (fun pos s cap =>
                              exec (Rep Digit 1) pos s cap
                                (fun pos s cap =>
                                   exec Eol pos s cap
                                     (fun _ _ _ => Some tt))))))
          = Some tt).
  apply exec_rep_stop; [assumption..|reflexivity|].
  rewrite exec_point.
  apply exec_rep_stop; [assumption..|reflexivity|].
  rewrite exec_point.
  apply exec_rep_stop; [assumption..| |].
  - destruct Hrest as [->| ->]; [exact I|reflexivity].
  - destruct Hrest as [->| ->]; reflexivity.
Qed.

(** The texts of [\d+\.\d+\.\d+]. *)
Lemma lang_three_numbers (w : string) :
  lang three_numbers w <->
  exists a b c,
    is_number a = true /\ is_number b = true /\ is_number c = true
    /\ w = (a ++ "." ++ b ++ "." ++ c)%string.
Proof.
  split.
  - intros (d1 & t1 & -> & L1 & p1 & t2 & -> & (c1 & -> & P1)
            & d2 & t3 & -> & L2 & p2 & d3 & -> & (c2 & -> & P2) & L3).
    unfold in_cls in P1, P2. apply Ascii.eqb_eq in P1, P2. subst c1 c2.
    exists d1, d2, d3. repeat split; try (now apply is_number_rep).
  - intros (a & b & c & Ha & Hb & Hc & ->).
    apply is_number_rep in Ha, Hb, Hc.
    exists a, ("." ++ b ++ "." ++ c)%string. split; [reflexivity|].
    split; [exact Ha|].
    exists ".", (b ++ "." ++ c)%string. split; [reflexivity|].
    split; [exists "."%char; split; reflexivity|].
    exists b, ("." ++ c)%string. split; [reflexivity|].
    split; [exact Hb|].
    exists ".", c. split; [reflexivity|].
    split; [exists "."%char; split; reflexivity|exact Hc].
Qed.

(** What the pattern of [validate_version_format] accepts. *)
Lemma version_format_inv (v : string) :
  validate_version_format v = true ->
  exists w rest,
    v = ("v" ++ w ++ rest)%string /\ lang three_numbers w
    /\ (rest = EmptyString \/ rest = nl).
Proof.
  unfold validate_version_format, matches.
  destruct (exec version_format 0 v None (fun _ _ _ => Some tt))
    as [[]|] eqn:E; [intros _|discriminate].
  change (exec (Chr (Lit "v")) 0 v None
            (fun p1 s1 c1 =>
               exec three_numbers p1 s1 c1
                 (fun p2 s2 c2 => exec Eol p2 s2 c2 (fun _ _ _ => Some tt)))
          = Some tt) in E.
  apply exec_sound in E as (w0 & s0 & cap0 & -> & (c & -> & Hc) & E & _).
  unfold in_cls in Hc. apply Ascii.eqb_eq in Hc. subst c.
  apply exec_sound in E as (w & rest & cap & -> & L & E & _).
  exists w, rest. split; [reflexivity|]. split; [exact L|].
  cbn [exec] in E.
  destruct (String.eqb rest EmptyString) eqn:E1.
  - left. now apply String.eqb_eq.
  - destruct (String.eqb rest nl) eqn:E2; [|discriminate].
    right. now apply String.eqb_eq.
Qed.

(** ** The change-log without a version line *)

Lemma lang_word (t w : string) : lang (word t) w -> w = t.
Proof.
  revert w. induction t as [|c t IH]; intros w; simpl.
  - auto.
  - intros (w1 & w2 & -> & (c' & -> & Hc) & L).
    unfold in_cls in Hc. apply Ascii.eqb_eq in Hc. subst c'.
    simpl. f_equal. now apply IH.
Qed.

Lemma startswith_append (p s : string) : startswith p (p ++ s) = true.
Proof.
  induction p as [|c p IH]; simpl; [reflexivity|].
  now rewrite Ascii.eqb_refl.
Qed.

Lemma version_pattern_start (pos : nat) (s c : string) (used : nat) :
  match_here version_pattern pos s = Some (c, used) ->
  startswith "Version:" s = true.
Proof.
  unfold match_here. intros H.
  change (exec (word "Version:") pos s None
            (fun p1 s1 c1 =>
               exec (Rep Space 0) p1 s1 c1
                 (fun p2 s2 c2 =>
                    exec (Grp three_numbers) p2 s2 c2
                      (fun pos' _ cap =>
                         Some (match cap with Some c => c | None => EmptyString end,
                               pos' - pos)))) = Some (c, used)) in H.
  apply exec_sound in H as (w1 & s1 & cap1 & -> & L & _).
  apply lang_word in L. subst w1. apply startswith_append.
Qed.

(** Every text [findall] returns comes from a match at some place of the
    text searched. *)
Lemma findall_from_match_at (r : regex) (c : string) :
  forall (s : string) (pos skip : nat),
    In c (findall_from r pos skip s) ->
    exists pre s' pos' used,
      s = (pre ++ s')%string /\ match_here r pos' s' = Some (c, used).
Proof.
  induction s as [|a s IH]; intros pos skip H; simpl in H.
  - destruct skip; [|contradiction].
    destruct (match_here r pos EmptyString) as [[c' used]|] eqn:E; [|contradiction].
    destruct H as [<-|[]]. exists EmptyString, EmptyString. eauto.
  - assert (Later : forall pos' skip',
               In c (findall_from r pos' skip' s) ->
               exists pre s' pos'' used,
                 String a s = (pre ++ s')%string
                 /\ match_here r pos'' s' = Some (c, used)).
    { intros pos' skip' Hin.
      destruct (IH _ _ Hin) as (pre & s' & pos'' & used & -> & Hm).
      exists (String a pre), s', pos'', used. auto. }
    destruct skip as [|skip]; [|eauto].
    destruct (match_here r pos (String a s)) as [[c' used]|] eqn:E; [|eauto].
    destruct H as [<-|H]; [|eauto].
    exists EmptyString, (String a s), pos, used. auto.
Qed.

Lemma is_substring_at (p pre s : string) :
  startswith p s = true -> is_substring p (pre ++ s) = true.
Proof.
  intros H. induction pre as [|c pre IH]; simpl.
  - destruct s; simpl; rewrite H; reflexivity.
  - rewrite IH. apply orb_true_r.
Qed.

(** ** [__init__] *)

(** What [ModBuilder(...)] comes to. *)
Lemma init_eq (fuel : nat) (script_file factorio : Fs.path) (fs0 : Fs.node) :
  init fuel script_file factorio fs0 =
  match Fs.resolve fuel fs0 (Fs.parent script_file) with
  | None => Raise Unexpected
  | Some sd =>
      if Fs.path_eqb (Fs.parent sd) (Fs.parent (Fs.parent sd))
      then Raise (BuildError ProjectIsRoot)
      else Ok (mk sd (Fs.parent sd) (Fs.parent sd ++ ["tmp"])
                  (Fs.parent (Fs.parent sd)) factorio
                  (SafeFileOps.mk (Fs.parent sd) (Fs.parent (Fs.parent sd))),
               initial_state fs0 (Fs.parent sd))
  end.
Proof.
  unfold init, SafeFileOps.resolve_or_raise at 1.
  destruct (Fs.resolve fuel fs0 (Fs.parent script_file)) as [sd|] eqn:Hsd;
    [|reflexivity].
  assert (Csd : Fs.canonical fs0 sd = true)
    by eauto using FsFacts.resolve_canonical.
  assert (Cpd : Fs.canonical fs0 (Fs.parent sd) = true)
    by now apply FsFacts.canonical_removelast.
  assert (Cod : Fs.canonical fs0 (Fs.parent (Fs.parent sd)) = true)
    by now apply FsFacts.canonical_removelast.
  unfold SafeFileOps.init, _validate_paths, SafeFileOps.resolve_or_raise,
    Fs.path_is_absolute.
  cbn [output_dir project_dir].
  rewrite (FsFacts.resolve_of_canonical fuel _ _ Cpd),
    (FsFacts.resolve_of_canonical fuel _ _ Cod), FsFacts.path_eqb_refl.
  cbn [negb].
  now destruct (Fs.path_eqb (Fs.parent sd) (Fs.parent (Fs.parent sd))).
Qed.

End VersionMoreFacts.

(* ================================================================== *)
(** * More facts about the package *)
(* ================================================================== *)

Module PackageMoreFacts.
Import Text Fs Exn FsFacts TreeFacts ModBuilder PackageFacts.

Section Entries.
Variable fuel : nat.
Variable fs0 : node.


Variable self : ModBuilder.t.
Variable vn : string.


End Entries.

End PackageMoreFacts.

(* ================================================================== *)
(** * More facts about the run *)
(* ================================================================== *)

Module RunMoreFacts.
Import Text Re Fs Exn Py World ModBuilder Spec StageFacts.

Section Run.
Variable fuel : nat.
Variable env : Env.
Variable self : ModBuilder.t.

(** After the package the names of the release stay. *)
Lemma create_backup_settled :
  preserves settled (create_backup fuel env self).
Proof.
  unfold create_backup. preserves_tac; now apply preserves_probe.
Qed.

Lemma clean_settled : preserves settled (clean_project_directory fuel self).
Proof.
  unfold clean_project_directory, iterdir, clean_item. preserves_tac.
Qed.

Lemma run_factorio_settled : preserves settled (run_factorio fuel env self).
Proof. unfold run_factorio. preserves_tac. Qed.

Lemma verify_previous_tag_settled :
  preserves settled (verify_previous_tag env self).
Proof.
  unfold verify_previous_tag. preserves_tac; now apply preserves_git_tag_list.
Qed.

Lemma extract_changelog_for_release_kept B (f : state -> B) :
  (forall x s, f (set_fs x s) = f s) ->
  preserves f (extract_changelog_for_release fuel self).
Proof.
  intros H. unfold extract_changelog_for_release.
  preserves_tac; apply preserves_read_text.
Qed.

(** What [validate_versions] records. *)
Lemma validate_versions_records s s' :
  validate_versions fuel env self s = (Ok tt, s') ->
  exists v,
    version s' = Some v /\ validate_version_format v = true
    /\ queue s' = queue s.
Proof.
  intros H.
  pose proof (validate_versions_preserves_queue fuel env self s) as Q.
  rewrite H in Q. simpl in Q.
  pose proof H as H0. unfold validate_versions in H0.
  apply bind_ok in H0 as (iv & s1 & E1 & H0).
  apply bind_ok in H0 as ([cv prev] & s2 & E2 & _).
  destruct (validate_versions_read fuel env self s iv s1 cv prev s2 E1 E2)
    as (-> & Hcv & V).
  rewrite H in V.
  destruct (validate_version_format iv) eqn:Fiv; simpl in V; [|discriminate].
  destruct (String.eqb iv cv); simpl in V; [|discriminate].
  injection V as ->. exists iv. auto.
Qed.

(** What [build_zip_package] records. *)
Lemma build_zip_package_records s s' :
  build_zip_package fuel env self s = (Ok tt, s') ->
  exists v,
    version s = Some v
    /\ settled s'
       = (version s, mod_name s,
          Some ((format_value env (mod_name s) ++ "_" ++ version_number v)
                  ++ ".zip")%string)
    /\ queue s' = queue s.
Proof.
  intros H.
  pose proof (build_zip_package_preserves_queue fuel env self s) as Q.
  rewrite H in Q. simpl in Q.
  unfold build_zip_package in H.
  apply bind_ok in H as (s0 & s1 & E0 & H). injection E0 as <- <-.
  apply bind_ok in H as (v & s1 & E1 & H).
  destruct (version s) as [v'|] eqn:Hv; [|discriminate].
  injection E1 as -> <-.
  exists v. split; [reflexivity|]. split; [|exact Q].
  apply bind_ok in H as ([] & s1 & E1 & H). injection E1 as <-.
  match type of H with
  | ?m ?x = _ =>
      assert (P : preserves settled m) by preserves_tac;
      specialize (P x)
  end.
  rewrite H in P. simpl in P. rewrite P. unfold settled. simpl.
  now rewrite Hv.
Qed.

(** What [create_git_tag] queues. *)
Lemma create_git_tag_queues s s' :
  create_git_tag env self s = (Ok tt, s') ->
  exists v,
    version s = Some v
    /\ settled s' = settled s
    /\ transcript s' = transcript s
    /\ remote_cmds s'
       = Remote.git_command
           (Remote.git_command (remote_cmds s)
              ["tag"; "-a"; v; "-m"; ("Release " ++ v)%string]
              ("Create tag " ++ v)%string)
           ["push"; "origin"; v] "Push tag to remote".
Proof.
  unfold create_git_tag, bind, get, required, ret, raise.
  destruct (version s) as [v|] eqn:Hv; [|discriminate].
  pose proof (preserves_git_tag_list env self _
                (fun s => (settled s, queue s)) v
                (fun _ _ => eq_refl) s) as P.
  destruct (git_tag_list env self v s) as [[stdout|e'] s1];
    simpl in P |- *; [|discriminate].
  destruct (negb _); [discriminate|].
  unfold modify. intros [= <-]. exists v.
  injection P as P1 P2 P3 P4 P5.
  split; [reflexivity|]. unfold settled. simpl.
  rewrite P1, P2, P3, P4, P5. auto.
Qed.

(** What [create_github_release] queues. *)
Lemma create_github_release_queues s s' :
  create_github_release fuel env self s = (Ok tt, s') ->
  exists v zname,
    version s = Some v /\ zip_name s = Some zname
    /\ settled s' = settled s
    /\ transcript s' = transcript s
    /\ remote_cmds s'
       = Remote.gh_command (remote_cmds s)
           ["release"; "create"; v;
            path_str (joinpath (output_dir self) zname);
            "-t"; ("Version " ++ v)%string;
            "-F"; path_str (tmp_dir self ++ ["changes.txt"])]
           ("Create GitHub release for " ++ v)%string.
Proof.
  intros H. unfold create_github_release in H.
  apply bind_ok in H as (have & s1 & E1 & H).
  pose proof (preserves_probe env _ (fun s => (settled s, queue s))
                ["gh"; "--version"] (fun _ _ => eq_refl) s) as P1.
  rewrite E1 in P1. simpl in P1.
  destruct have; simpl in H; [|discriminate].
  apply bind_ok in H as (notes & s2 & E2 & H).
  pose proof (extract_changelog_for_release_kept _
                (fun s => (settled s, queue s)) (fun _ _ => eq_refl) s1)
    as P2.
  rewrite E2 in P2. simpl in P2. rewrite P1 in P2. clear P1 E1 E2.
  apply bind_ok in H as (s3 & s4 & E3 & H). injection E3 as <- <-.
  apply bind_ok in H as (zname & s4 & E4 & H).
  destruct (zip_name s2) as [z|] eqn:Hz; [|discriminate].
  injection E4 as -> <-.
  destruct (negb _); [discriminate|].
  apply bind_ok in H as (v & s4 & E5 & H).
  destruct (version s2) as [v'|] eqn:Hv; [|discriminate].
  injection E5 as -> <-.
  unfold modify in H. injection H as <-.
  unfold settled, queue in *. simpl.
  injection P2 as P2a P2b P2c P2d P2e.
  exists v, zname. rewrite <- P2a, <- P2c, P2b, P2d, P2e. auto.
Qed.

(** The steps between the package and the confirmation. *)
Lemma rest_before_confirmation_kept skip_factorio skip_clean :
  preserves (fun s => (settled s, queue s))
    (create_backup fuel env self ;;;
     (if negb skip_clean then clean_project_directory fuel self
      else ret tt) ;;;
     (if negb skip_factorio then run_factorio fuel env self else ret tt)).
Proof.
  assert (both : forall A (m : M state A),
             preserves settled m -> preserves queue m ->
             preserves (fun s => (settled s, queue s)) m).
  { intros A m H1 H2 s. now rewrite H1, H2. }
  apply preserves_bind;
    [apply both; [apply create_backup_settled
                 |apply create_backup_preserves_queue]|intros _].
  apply preserves_bind; [|intros _].
  - destruct (negb skip_clean); [|apply preserves_ret].
    apply both; [apply clean_settled|apply clean_preserves_queue].
  - destruct (negb skip_factorio); [|apply preserves_ret].
    apply both; [apply run_factorio_settled
                |apply run_factorio_preserves_queue].
Qed.

(** [create_github_release] queues nothing when it raises. *)
Lemma create_github_release_raise s e :
  fst (create_github_release fuel env self s) = Raise e ->
  queue (snd (create_github_release fuel env self s)) = queue s.
Proof.
  unfold create_github_release, bind.
  pose proof (preserves_probe env _ queue ["gh"; "--version"]
                (fun _ _ => eq_refl) s) as P1.
  destruct (probe env ["gh"; "--version"] s) as [[have|e1] s1];
    simpl in P1 |- *; [|intros _; exact P1].
  destruct have; simpl; [|intros _; exact P1].
  pose proof (extract_changelog_for_release_kept _ queue
                (fun _ _ => eq_refl) s1) as P2.
  destruct (extract_changelog_for_release fuel self s1) as [[notes|e2] s2];
    simpl in P2 |- *; [|intros _; congruence].
  unfold get, required, raise, ret, modify.
  destruct (zip_name s2); simpl; [|intros _; congruence].
  destruct (negb _); simpl; [intros _; congruence|].
  destruct (version s2); simpl; [discriminate|intros _; congruence].
Qed.
End Run.

End RunMoreFacts.

(* ================================================================== *)
(** * More facts about the release *)
(* ================================================================== *)

Module ReleaseMoreFacts.
Import Text Fs Exn Py World FsFacts TreeFacts SafeFileOpsFacts ModBuilder Spec.
Import StageFacts CleanFacts.

(** [stat] of an entry of a canonical directory that is no link. *)
Lemma stat_child fuel fs p c es :
  canonical fs p = true -> lookup fs p = Some (Dir es) ->
  plain_name c = true -> not_link (assoc c es) = true ->
  stat fuel fs (p ++ [c]) = assoc c es.
Proof.
  intros Hc Hl Hp Hn.
  assert (Hlc : lookup fs (p ++ [c]) = assoc c es)
    by now apply lookup_snoc_dir.
  destruct (assoc c es) as [ch|] eqn:A.
  - apply stat_canonical; [|exact Hlc].
    apply canonical_snoc; auto. now rewrite Hlc.
  - unfold stat.
    assert (W : forall rest cur nd,
               canonical_from fs cur rest = true ->
               lookup fs (cur ++ rest) = Some nd ->
               walk true fuel fs cur (rest ++ [c])
               = walk true fuel fs (cur ++ rest) [c]).
    { induction rest as [|a rest IH]; intros cur nd Hcan Hl'.
      - now rewrite app_nil_r.
      - simpl in Hcan. apply andb_true_iff in Hcan as [H Hrest].
        apply andb_true_iff in H as [Ha Hnl].
        apply plain_name_false_iff in Ha as [E1 E2].
        simpl app. rewrite walk_cons, E1, E2.
        assert (Hcur : is_dir_node (lookup fs cur) = true).
        { rewrite lookup_app in Hl'.
          destruct (lookup fs cur) as [[d|es0|t]|]; try discriminate.
          reflexivity. }
        rewrite Hcur. simpl.
        replace (cur ++ a :: rest) with ((cur ++ [a]) ++ rest) in Hl' |- *
          by now rewrite <- app_assoc.
        assert (Hsome : lookup fs (cur ++ [a]) <> None).
        { rewrite lookup_app in Hl'. now destruct (lookup fs (cur ++ [a])). }
        destruct (lookup fs (cur ++ [a])) as [[d|es0|t]|];
          try discriminate; try congruence; eauto. }
    rewrite (W p [] (Dir es) Hc Hl). simpl app.
    apply plain_name_false_iff in Hp as [E1 E2].
    rewrite walk_cons, E1, E2, Hl, Hlc. reflexivity.
Qed.

Lemma assoc_set_entry_other (c k : string) v es :
  c <> k -> assoc c (set_entry k v es) = assoc c es.
Proof.
  intros H. apply String.eqb_neq in H.
  induction es as [|[k' n] es IH]; simpl.
  - destruct v; simpl; [now rewrite H|reflexivity].
  - destruct (String.eqb k k') eqn:E.
    + apply String.eqb_eq in E. subst k'. rewrite H.
      destruct v; simpl; [now rewrite H|reflexivity].
    + simpl. now rewrite IH.
Qed.

Lemma assoc_filter_out (A : Type) c (keep : string -> bool)
      (es : list (string * A)) :
  keep c = false -> assoc c (filter (fun e => keep (fst e)) es) = None.
Proof.
  intros Hk. induction es as [|[k n] es IH]; simpl; [reflexivity|].
  destruct (keep k) eqn:K; [|exact IH]. simpl.
  destruct (String.eqb c k) eqn:E; [|exact IH].
  apply String.eqb_eq in E. congruence.
Qed.

Section NoChangelog.
Variable fuel : nat.
Variable self : ModBuilder.t.
Variable fs1 : node.
Variable es : list (string * node).

Hypothesis Hops :
  SafeFileOps.project_dir (file_ops self) = project_dir self.
Hypothesis Htmp : tmp_dir self = project_dir self ++ ["tmp"].
Hypothesis Hcan : canonical fs1 (project_dir self) = true.
Hypothesis Hl : lookup fs1 (project_dir self) = Some (Dir es).
Hypothesis Hgit : not_link (assoc ".git" es) = true.
Hypothesis Hno_tmp : assoc "tmp" es = None.
Hypothesis Hno_log : assoc "changelog.txt" es = None.

(** The directory [tmp] is made in the project directory. *)
Lemma tmp_made :
  exists fs2,
    SafeFileOps.safe_mkdir fuel (file_ops self) (tmp_dir self) false true
      fs1 = (Ok tt, fs2)
    /\ holds (project_dir self) fs1
             (set_entry "tmp" (Some (Dir [])) es) fs2.
Proof.
  assert (Hlt : lookup fs1 (project_dir self ++ ["tmp"]) = None)
    by now rewrite (lookup_snoc_dir _ _ _ _ Hl).
  assert (Hct : canonical fs1 (project_dir self ++ ["tmp"]) = true)
    by (apply canonical_snoc; auto; now rewrite Hlt).
  assert (Hcg : canonical fs1 (project_dir self ++ [".git"]) = true).
  { apply canonical_snoc; auto.
    now rewrite (lookup_snoc_dir _ _ _ _ Hl). }
  destruct (replace_defined (project_dir self) (Dir es)
              (Dir (set_entry "tmp" (Some (Dir [])) es)) fs1 fs1
              (replace_self _ _ _ Hl)) as [fs2 Hfs2].
  exists fs2. split; [|exact Hfs2].
  unfold SafeFileOps.safe_mkdir, bind, get, lift.
  unfold SafeFileOps._validate_path_in_project.
  rewrite Htmp.
  rewrite (resolve_or_raise_some _ _ _ _
             (resolve_of_canonical fuel _ _ Hct)).
  rewrite Hops, is_prefix_app. simpl negb. cbv iota.
  rewrite _is_git_path_resolved by assumption.
  rewrite Hops, (resolve_of_canonical fuel _ _ Hcg).
  rewrite is_prefix_snoc_neq by discriminate.
  cbn [andb negb SafeFileOps.path_mkdir]. unfold SafeFileOps.os_mkdir.
  rewrite Hlt. unfold parent. rewrite removelast_last, Hl.
  unfold put. rewrite (alter_as_replace _ _ _ _ _ Hl). cbv beta.
  rewrite Hfs2.
  reflexivity.
Qed.

(** Without [changelog.txt] in the project directory the notes of the
    release cannot be made. *)
Lemma extract_changelog_for_release_fails (s : state) :
  fs s = fs1 ->
  exists s',
    extract_changelog_for_release fuel self s = (Raise Unexpected, s').
Proof.
  intros Hs. destruct tmp_made as (fs2 & Hmk & Hh).
  assert (Hl2 : lookup fs2 (project_dir self)
                = Some (Dir (set_entry "tmp" (Some (Dir [])) es)))
    by (eapply lookup_replace; eauto).
  assert (Hc2 : canonical fs2 (project_dir self) = true)
    by (eapply canonical_replace; eauto).
  assert (Hst : stat fuel fs2 (project_dir self ++ ["changelog.txt"])
                = None).
  { rewrite (stat_child fuel _ _ _ _ Hc2 Hl2); [| reflexivity |];
      rewrite assoc_set_entry_other by discriminate;
      now rewrite Hno_log. }
  exists (set_fs fs2 s).
  unfold extract_changelog_for_release, bind, on_fs.
  rewrite Hs, Hmk. unfold read_text, bind, get.
  cbn [fs set_fs]. now rewrite Hst.
Qed.
End NoChangelog.

(** ** The lines of a text *)

Lemma unlines_cons (x : string) (l : list string) :
  unlines (x :: l) = ((x ++ nl) ++ unlines l)%string.
Proof.
  unfold unlines. destruct l as [|y l]; simpl.
  - now rewrite VersionFacts.append_nil_r.
  - reflexivity.
Qed.

Lemma readlines_from_line (x : string) :
  forall cur rest,
    one_line x = true ->
    readlines_from cur ((x ++ nl) ++ rest)
    = (cur ++ x ++ nl)%string :: readlines_from EmptyString rest.
Proof.
  induction x as [|c x IH]; intros cur rest H.
  - simpl. reflexivity.
  - unfold one_line in H. simpl in H.
    apply andb_true_iff in H as [Hc Hx].
    apply negb_true_iff in Hc.
    change (readlines_from cur (String c ((x ++ nl) ++ rest))
            = (cur ++ String c (x ++ nl))%string :: readlines_from EmptyString rest).
    cbn [readlines_from]. rewrite Hc.
    rewrite (IH _ _ Hx). f_equal.
    now rewrite ReFacts.append_assoc.
Qed.

Lemma readlines_unlines (l : list string) :
  forallb one_line l = true ->
  readlines (unlines l) = map (fun x => (x ++ nl)%string) l.
Proof.
  unfold readlines. induction l as [|x l IH]; intros H; [reflexivity|].
  simpl in H. apply andb_true_iff in H as [Hx Hl].
  rewrite unlines_cons, (readlines_from_line x EmptyString _ Hx), IH by exact Hl.
  reflexivity.
Qed.

(** The first entry ends at the first line of dashes. *)
Lemma take_entry_stop (a b : list string) (sep : string) :
  startswith "----" (strip sep) = true ->
  take_entry (a ++ sep :: b) = take_entry a.
Proof.
  intros H.
  induction a as [|x a IH]; cbn [take_entry app].
  - now rewrite H.
  - destruct (startswith "----" (strip x)); [reflexivity|now rewrite IH].
Qed.

End ReleaseMoreFacts.

(* ================================================================== *)
(** * Further properties of the script *)
(* ================================================================== *)

Module Extras.
Import Text Re Fs Exn Py World SafeFileOps ModBuilder Spec.
Import FsFacts SafeFileOpsFacts ReFacts VersionFacts StageFacts TreeFacts.
Import SafeMoreFacts VersionMoreFacts.




(** X4.  The protection of [.git] does not reach the project directory
    itself: [safe_rmtree] on a path that resolves to the project
    directory, also through a link, removes the directory, and its
    [.git] with it. *)
Theorem X4_rmtree_accepts_project_directory :
  forall (fuel : nat) (self : SafeFileOps.t) (fs : node) (p up : path)
         (c : string) (es siblings : list (string * node)),
    SafeFileOps.project_dir self = up ++ [c] ->
    resolve fuel fs p = Some (SafeFileOps.project_dir self) ->
    lookup fs (SafeFileOps.project_dir self) = Some (Dir es) ->
    not_link (assoc ".git" es) = true ->
    lookup fs up = Some (Dir siblings) ->
    distinct (map fst siblings) = true ->
    exists fs',
      safe_rmtree fuel self p fs = (Ok tt, fs')
      /\ lookup fs' (SafeFileOps.project_dir self) = None
      /\ lookup fs' (SafeFileOps.project_dir self ++ [".git"]) = None.
Proof.
  intros fuel self fs p up c es siblings Hpd Hr Hl Hgit Hup Hd.
  assert (Hcan : canonical fs (SafeFileOps.project_dir self) = true)
    by eauto using resolve_canonical.
  assert (Hgitres : resolve fuel fs (SafeFileOps.project_dir self ++ [".git"])
                    = Some (SafeFileOps.project_dir self ++ [".git"])).
  { apply resolve_of_canonical, canonical_snoc; auto.
    now rewrite (lookup_snoc_dir _ _ _ _ Hl). }
  assert (V : _validate_path_in_project fuel self fs p false
              = Ok (SafeFileOps.project_dir self)).
  { unfold _validate_path_in_project.
    rewrite (resolve_or_raise_some _ _ _ _ Hr), is_prefix_refl. simpl.
    rewrite _is_git_path_resolved, Hgitres by assumption.
    replace (is_prefix (SafeFileOps.project_dir self ++ [".git"])
                       (SafeFileOps.project_dir self)) with false;
      [reflexivity|].
    symmetry. clear. induction (SafeFileOps.project_dir self) as [|a l IH];
      simpl; [reflexivity|]. now rewrite IH, andb_false_r. }
  assert (Hrm : exists fs', remove (up ++ [c]) fs = Some fs').
  { unfold remove. rewrite (alter_as_replace _ _ _ _ _ Hup).
    eapply replace_defined. apply replace_self. exact Hup. }
  destruct Hrm as [fs' Hrm]. exists fs'.
  apply PackageFacts.distinct_NoDup in Hd.
  split; [|split].
  - unfold safe_rmtree, bind, get, lift. rewrite V.
    unfold is_dir. rewrite (stat_canonical fuel _ _ _ Hcan Hl). simpl.
    rewrite Hpd, rmtree_snoc. unfold commit. now rewrite Hrm.
  - rewrite Hpd. rewrite <- (app_nil_r (up ++ [c])).
    eapply lookup_remove; eauto.
  - rewrite Hpd. eapply lookup_remove; eauto.
Qed.

(** X5.  When [ModBuilder(...)] is made, the project directory is the
    parent of the resolved directory of the script, is resolved itself
    and is not the root; the output directory is its parent, the
    temporary directory its entry [tmp], and the file operations are
    bound to these two directories.  The error "Output directory
    validation failed" of [_validate_paths] is never raised from there:
    the two directories it compares are the same parent of the project
    directory. *)
Theorem X5_init_invariants :
  forall (fuel : nat) (script_file factorio : path) (fs0 : node),
    (forall self s,
        init fuel script_file factorio fs0 = Ok (self, s) ->
        resolve fuel fs0 (parent script_file) = Some (script_dir self)
        /\ project_dir self = parent (script_dir self)
        /\ output_dir self = parent (project_dir self)
        /\ tmp_dir self = project_dir self ++ ["tmp"]
        /\ factorio_path self = factorio
        /\ project_dir self <> []
        /\ canonical fs0 (project_dir self) = true
        /\ canonical fs0 (output_dir self) = true
        /\ file_ops self
           = SafeFileOps.mk (project_dir self) (output_dir self)
        /\ s = initial_state fs0 (project_dir self))
    /\ init fuel script_file factorio fs0
       <> Raise (BuildError OutputDirMismatch).
Proof.
  intros fuel script_file factorio fs0. rewrite init_eq.
  destruct (resolve fuel fs0 (parent script_file)) as [sd|] eqn:Hsd.
  2:{ split; [intros; discriminate|discriminate]. }
  assert (Csd : canonical fs0 sd = true) by eauto using resolve_canonical.
  assert (Cpd : canonical fs0 (parent sd) = true)
    by now apply canonical_removelast.
  assert (Cod : canonical fs0 (parent (parent sd)) = true)
    by now apply canonical_removelast.
  destruct (path_eqb (parent sd) (parent (parent sd))) eqn:E.
  - split; [intros; discriminate|discriminate].
  - split; [|discriminate].
    intros self s [= <- <-]. cbn.
    repeat split; auto.
    intros Hnil. unfold parent in *. rewrite Hnil in E. discriminate.
Qed.

(** X6.  When [validate_versions] ends well, the version it records is
    the one of [info.json] with its prefix, has the format [vX.Y.Z], and
    is the first version of the change-log; the previous version, when
    there is one, has the format too; the file system and the queue of
    commands are as before. *)
Theorem X6_validate_versions_success :
  forall (fuel : nat) (env : Env) (self : ModBuilder.t) (s s' : state),
    validate_versions fuel env self s = (Ok tt, s') ->
    exists v,
      version s' = Some v
      /\ fst (extract_version_from_info_json fuel env self s) = Ok v
      /\ fst (extract_versions_from_changelog fuel self s')
         = Ok (v, previous_version s')
      /\ validate_version_format v = true
      /\ (forall p, previous_version s' = Some p ->
                    validate_version_format p = true)
      /\ fs s' = fs s
      /\ remote_cmds s' = remote_cmds s
      /\ transcript s' = transcript s.
Proof.
  intros fuel env self s s' H.
  pose proof (validate_versions_preserves_queue fuel env self s) as Q.
  rewrite H in Q. unfold queue in Q. simpl in Q. injection Q as Q1 Q2.
  pose proof H as H0. unfold validate_versions in H0.
  apply bind_ok in H0 as (iv & s1 & E1 & H0).
  apply bind_ok in H0 as ([cv prev] & s2 & E2 & _).
  destruct (validate_versions_read fuel env self s iv s1 cv prev s2 E1 E2)
    as (-> & Hcv & V).
  rewrite H in V.
  destruct (validate_version_format iv) eqn:Fiv; simpl in V; [|discriminate].
  destruct (String.eqb iv cv) eqn:Eq; simpl in V; [|discriminate].
  apply String.eqb_eq in Eq. subst cv. injection V as ->.
  pose proof (extract_info_preserves_fs fuel env self s) as Pfs.
  rewrite E1 in Pfs. simpl in Pfs.
  exists iv. cbn [version previous_version fs set_version
                  set_previous_version].
  split; [reflexivity|]. split; [now rewrite E1|].
  split.
  { rewrite (extract_changelog_fs fuel self _ s1) by reflexivity.
    now rewrite E2. }
  split; [exact Fiv|]. split; [|auto].
  intros p ->.
  destruct (extract_changelog_ok fuel self s1 (iv, Some p)) as [content Hc];
    [now rewrite E2|].
  apply changelog_versions_valid in Hc as [_ Hp]. now apply Hp.
Qed.

(** X7.  Among the texts of the model, whose characters are the code
    points 0 to 255, where the digits [\d] matches are [0] to [9],
    [validate_version_format] accepts exactly the texts made of [v],
    three numbers in these digits with a point between them, and
    nothing more or one line feed at the very end.  Digits of other
    scripts, which [\d] matches too, are outside these texts. *)
Theorem X7_version_format_on_latin1 :
  forall v : string,
    validate_version_format v = true
    <-> exists a b c,
          is_number a = true /\ is_number b = true /\ is_number c = true
          /\ (v = ("v" ++ a ++ "." ++ b ++ "." ++ c)%string
              \/ v = ("v" ++ a ++ "." ++ b ++ "." ++ c ++ nl)%string).
Proof.
  intros v. split.
  - intros H. apply version_format_inv in H as (w & rest & -> & L & Hrest).
    apply lang_three_numbers in L as (a & b & c & Ha & Hb & Hc & ->).
    exists a, b, c. repeat split; auto.
    destruct Hrest as [-> | ->].
    + left. now rewrite append_nil_r.
    + right. now rewrite !append_assoc.
  - intros (a & b & c & Ha & Hb & Hc & [-> | ->]).
    + rewrite <- (append_nil_r c).
      apply three_numbers_then_end; auto.
    + apply three_numbers_then_end; auto.
Qed.

(** X8.  The prefix [v]: what [extract_version_from_info_json] returns
    begins with [v], adding the prefix twice adds it once, and the
    number [build_zip_package] puts in the name of the archive is the
    version of [info.json] again when that had no prefix. *)
Theorem X8_prefix_round_trip :
  forall s : string,
    startswith "v" (add_v_prefix s) = true
    /\ add_v_prefix (add_v_prefix s) = add_v_prefix s
    /\ (startswith "v" s = false -> version_number (add_v_prefix s) = s)
    /\ ("v" ++ version_number (add_v_prefix s))%string = add_v_prefix s.
Proof.
  intros s.
  destruct (startswith "v" s) eqn:E.
  - assert (A : add_v_prefix s = s) by (unfold add_v_prefix; now rewrite E).
    rewrite !A. split; [exact E|]. split; [reflexivity|].
    split; [discriminate|].
    unfold version_number. rewrite E.
    destruct s as [|c s]; [discriminate|].
    change (Ascii.eqb "v" c && true = true) in E.
    rewrite andb_true_r in E. apply Ascii.eqb_eq in E. now subst c.
  - assert (A : add_v_prefix s = ("v" ++ s)%string)
      by (unfold add_v_prefix; now rewrite E).
    rewrite !A. repeat split.
Qed.

(** X9.  A change-log in which the text [Version:] does not occur, an
    empty one among them, gives the error "No version found in
    changelog.txt". *)
Theorem X9_changelog_without_version :
  forall content : string,
    is_substring "Version:" content = false ->
    versions_of_changelog content = Raise (BuildError NoVersionInChangelog).
Proof.
  intros content H. unfold versions_of_changelog.
  destruct (findall version_pattern content) as [|m0 rest] eqn:E;
    [reflexivity|].
  exfalso.
  assert (Hin : In m0 (findall version_pattern content))
    by (rewrite E; now left).
  apply findall_from_match_at in Hin as (pre & s' & pos & used & -> & Hm).
  apply version_pattern_start in Hm.
  rewrite (is_substring_at _ pre _ Hm) in H. discriminate.
Qed.

Lemma X9_witness :
  is_substring "Version:" "Date: 2025-01-01" = false
  /\ versions_of_changelog "Date: 2025-01-01"
     = Raise (BuildError NoVersionInChangelog).
Proof.
  assert (H : is_substring "Version:" "Date: 2025-01-01" = false)
    by reflexivity.
  split; [exact H|]. exact (X9_changelog_without_version _ H).
Defined.


(** X11.  A run that goes through all its steps has put three commands
    at the end of the queue, in this order: [git tag -a v -m "Release v"],
    [git push origin v] and [gh release create v] with the archive
    [<mod name>_<number>.zip] of the output directory, the title
    [Version v] and the notes of [tmp/changes.txt]; [v] is the version it
    recorded, of the format [vX.Y.Z]; and it has printed the whole queue
    once, after all that was printed before. *)
Theorem X11_complete_run_queues_release :
  forall (fuel : nat) (env : Env) (self : ModBuilder.t)
         (skip_factorio skip_clean : bool) (s s' : state),
    run_body fuel env self skip_factorio skip_clean s = (Ok true, s') ->
    exists v name,
      version s' = Some v
      /\ validate_version_format v = true
      /\ zip_name s'
         = Some ((format_value env name ++ "_" ++ version_number v)
                   ++ ".zip")%string
      /\ mod_name s' = name
      /\ remote_cmds s'
         = Remote.gh_command
             (Remote.git_command
                (Remote.git_command (remote_cmds s)
                   ["tag"; "-a"; v; "-m"; ("Release " ++ v)%string]
                   ("Create tag " ++ v)%string)
                ["push"; "origin"; v] "Push tag to remote")
             ["release"; "create"; v;
              path_str (joinpath (output_dir self)
                          ((format_value env name ++ "_" ++ version_number v)
                             ++ ".zip")%string);
              "-t"; ("Version " ++ v)%string;
              "-F"; path_str (tmp_dir self ++ ["changes.txt"])]
             ("Create GitHub release for " ++ v)%string
      /\ transcript s'
         = transcript s ++ Remote.print_all_commands (remote_cmds s').
Proof.
  intros fuel env self skip_factorio skip_clean s s' H.
  unfold run_body in H.
  apply bind_ok in H as ([] & s1 & Hb & H).
  apply bind_ok in H as (proceed & s2 & Hc & H).
  pose proof (confirm_proceed_preserves env self s1) as Pc.
  rewrite Hc in Pc. simpl in Pc. subst s2. clear Hc.
  destruct proceed; simpl in H; [|discriminate].
  apply bind_ok in H as ([] & s2 & Ha & Hret). injection Hret as <-.
  unfold before_confirmation in Hb.
  apply bind_ok in Hb as ([] & sa & Hv & Hb).
  apply bind_ok in Hb as ([] & sb & Hz & Hb).
  apply RunMoreFacts.validate_versions_records in Hv as (v & Hver & Hfmt & Qa).
  apply RunMoreFacts.build_zip_package_records in Hz as (v' & Hver' & Sb & Qb).
  rewrite Hver in Hver'. injection Hver' as <-.
  pose proof (RunMoreFacts.rest_before_confirmation_kept fuel env self
                skip_factorio skip_clean sb)
    as P1.
  change (create_backup fuel env self ;;;
          (if negb skip_clean then clean_project_directory fuel self
           else ret tt) ;;;
          (if negb skip_factorio then run_factorio fuel env self
           else ret tt))
    with (bind (create_backup fuel env self)
            (fun _ =>
               (if negb skip_clean then clean_project_directory fuel self
                else ret tt) ;;;
               (if negb skip_factorio then run_factorio fuel env self
                else ret tt))) in P1.
  rewrite Hb in P1. cbn [snd] in P1. apply pair_equal_spec in P1 as [S1 Q1].
  unfold after_confirmation in Ha.
  apply bind_ok in Ha as ([] & sc & Hp & Ha).
  pose proof (RunMoreFacts.verify_previous_tag_settled env self s1) as S2.
  pose proof (verify_previous_tag_preserves_queue env self s1) as Q2.
  rewrite Hp in S2, Q2. cbn [snd] in S2, Q2.
  apply bind_ok in Ha as ([] & sd & Ht & Ha).
  apply RunMoreFacts.create_git_tag_queues in Ht as (v1 & Hv1 & S3 & T3 & R3).
  apply bind_ok in Ha as ([] & se & Hr & Ha).
  apply RunMoreFacts.create_github_release_queues in Hr
    as (v2 & zname & Hv2 & Hz2 & S4 & T4 & R4).
  unfold print_all_commands, modify in Ha. injection Ha as <-.
  assert (Sc : settled sc = settled sb) by congruence.
  assert (Sd : settled sd = settled sb) by congruence.
  assert (Se : settled se = settled sb) by congruence.
  assert (Qc : queue sc = queue s) by congruence.
  clear S1 Q1 S2 Q2 S3 S4 Qa Qb Hb Hp.
  rewrite Sb in Sc, Sd, Se. clear Sb.
  unfold settled in Sc, Sd, Se. unfold queue in Qc.
  injection Sc as Sc1 Sc2 Sc3. injection Sd as Sd1 Sd2 Sd3.
  injection Se as Se1 Se2 Se3. injection Qc as Rc Tc.
  assert (v1 = v) by congruence. assert (v2 = v) by congruence.
  subst v1 v2.
  rewrite Sd3 in Hz2. injection Hz2 as <-.
  exists v, (mod_name sa).
  cbn [version zip_name mod_name remote_cmds transcript set_transcript].
  rewrite R4, R3, Rc, T4, T3, Tc, Se1, Se2, Se3.
  repeat split; assumption.
Qed.

(** X12.  A run that does not go through all its steps, because a step
    raised or the user declined, has printed nothing of the queue; the
    queue is as it was, or holds the two commands of the tag and nothing
    of the release; it is as it was when the user declined. *)
Theorem X12_incomplete_run_prints_nothing :
  forall (fuel : nat) (env : Env) (self : ModBuilder.t)
         (skip_factorio skip_clean : bool) (s s' : state)
         (r : result bool),
    run_body fuel env self skip_factorio skip_clean s = (r, s') ->
    r <> Ok true ->
    transcript s' = transcript s
    /\ (remote_cmds s' = remote_cmds s
        \/ exists v,
             remote_cmds s'
             = Remote.git_command
                 (Remote.git_command (remote_cmds s)
                    ["tag"; "-a"; v; "-m"; ("Release " ++ v)%string]
                    ("Create tag " ++ v)%string)
                 ["push"; "origin"; v] "Push tag to remote")
    /\ (r = Ok false -> remote_cmds s' = remote_cmds s).
Proof.
  intros fuel env self skf skc s s' r Hrun Hr.
  enough (G : (transcript s' = transcript s
               /\ (remote_cmds s' = remote_cmds s
                   \/ exists v,
                        remote_cmds s'
                        = Remote.git_command
                            (Remote.git_command (remote_cmds s)
                               ["tag"; "-a"; v; "-m";
                                ("Release " ++ v)%string]
                               ("Create tag " ++ v)%string)
                            ["push"; "origin"; v] "Push tag to remote"))
              /\ (r = Ok false -> remote_cmds s' = remote_cmds s))
    by tauto.
  split.
  2:{ intros ->. pose proof Hrun as H. unfold run_body in H.
      apply bind_ok in H as ([] & s1 & Hb & H).
      apply bind_ok in H as (proceed & s2 & Hc & H).
      pose proof (before_confirmation_preserves_queue fuel env self
                    skf skc s) as P0.
      rewrite Hb in P0. simpl in P0.
      pose proof (confirm_proceed_preserves env self s1) as P1.
      rewrite Hc in P1. simpl in P1. subst s2.
      destruct proceed; simpl in H.
      - apply bind_ok in H as ([] & s3 & _ & H). discriminate.
      - injection H as <-. unfold queue in P0. now injection P0. }
  assert (same : forall x, queue x = queue s ->
                   transcript x = transcript s
                   /\ (remote_cmds x = remote_cmds s
                       \/ exists v,
                            remote_cmds x
                            = Remote.git_command
                                (Remote.git_command (remote_cmds s)
                                   ["tag"; "-a"; v; "-m";
                                    ("Release " ++ v)%string]
                                   ("Create tag " ++ v)%string)
                                ["push"; "origin"; v] "Push tag to remote")).
  { intros x Q. unfold queue in Q. injection Q as -> ->. auto. }
  revert Hrun. unfold run_body, bind.
  pose proof (before_confirmation_preserves_queue fuel env self skf skc s) as P0.
  destruct (before_confirmation fuel env self skf skc s) as [[[]|e0] s0];
    simpl in P0; [|intros [= _ <-]; now apply same].
  pose proof (confirm_proceed_preserves env self s0) as P1.
  destruct (confirm_proceed env self s0) as [[proceed|e1] s1];
    simpl in P1; subst s1; [|intros [= _ <-]; now apply same].
  destruct proceed; simpl; [|intros [= _ <-]; now apply same].
  unfold after_confirmation, bind.
  pose proof (verify_previous_tag_preserves_queue env self s0) as P2.
  destruct (verify_previous_tag env self s0) as [[[]|e2] s2];
    simpl in P2; [|intros [= _ <-]; apply same; congruence].
  pose proof (create_git_tag_raise env self s2) as P3.
  destruct (create_git_tag env self s2) as [[[]|e3] s3] eqn:Ht;
    simpl in P3;
    [|intros [= _ <-]; apply same; rewrite (P3 e3 eq_refl); congruence].
  apply RunMoreFacts.create_git_tag_queues in Ht as (v & _ & _ & T3 & R3).
  pose proof (RunMoreFacts.create_github_release_raise fuel env self s3) as P4.
  destruct (create_github_release fuel env self s3) as [[[]|e4] s4];
    simpl in P4.
  - unfold print_all_commands, modify, ret. intros [= <- _]. now elim Hr.
  - intros [= _ <-]. specialize (P4 e4 eq_refl).
    unfold queue in P4, P2, P0. injection P4 as -> ->.
    injection P2 as P2a P2b. injection P0 as P0a P0b.
    split; [congruence|]. right. exists v. rewrite R3, P2a, P0a. reflexivity.
Qed.

(** X13.  The cleanup takes away the change-log the release needs.  When
    [clean_project_directory] has run on a project directory that holds
    files and directories only, and nothing has changed the files since
    ([gh --version] changes none), [create_github_release] raises, at the
    latest when it opens [changelog.txt], and queues no command. *)
Theorem X13_release_after_cleanup_fails :
  forall (fuel : nat) (env : Env) (self : ModBuilder.t) (s s2 : state)
         (es : list (string * node)),
    SafeFileOps.project_dir (file_ops self) = project_dir self ->
    tmp_dir self = project_dir self ++ ["tmp"] ->
    canonical (fs s) (project_dir self) = true ->
    lookup (fs s) (project_dir self) = Some (Dir es) ->
    distinct (map fst es) = true ->
    forallb (fun e => plain_name (fst e) && negb (is_link (snd e))) es = true ->
    (forall fs0,
        snd (subprocess_run env ["gh"; "--version"] None fs0) = fs0) ->
    fs s2 = fs (snd (clean_project_directory fuel self s)) ->
    fst (clean_project_directory fuel self s) = Ok tt
    /\ exists e s3,
         create_github_release fuel env self s2 = (Raise e, s3)
         /\ remote_cmds s3 = remote_cmds s2.
Proof.
  intros fuel env self s s2 es Hops Htmp Hcan Hl Hd Hall Hgh Hs2.
  assert (Hall' : forall n ch, In (n, ch) es ->
                    plain_name n = true /\ is_link ch = false).
  { intros n ch Hin. rewrite forallb_forall in Hall.
    specialize (Hall _ Hin). simpl in Hall.
    apply andb_true_iff in Hall as [Hp Hk].
    apply negb_true_iff in Hk. auto. }
  destruct (CleanFacts.clean_project_directory_plain fuel self s es
              Hops Hcan Hl (PackageFacts.distinct_NoDup _ Hd) Hall')
    as (fs1 & Hclean & Hrep).
  rewrite Hclean in Hs2 |- *. cbn [fst snd fs set_fs] in Hs2 |- *.
  split; [reflexivity|].
  assert (Hraise : exists e s3,
             create_github_release fuel env self s2 = (Raise e, s3)).
  { unfold create_github_release, bind, probe, call, bind.
    specialize (Hgh (fs s2)).
    destruct (subprocess_run env ["gh"; "--version"] None (fs s2))
      as [o fs'].
    simpl in Hgh. subst fs'.
    destruct o as [[|?|?] ? ?| | |]; simpl; unfold raise; eauto.
    assert (C1 : canonical fs1 (project_dir self) = true)
      by (eapply canonical_replace; eauto).
    assert (L1 : lookup fs1 (project_dir self)
                 = Some (Dir (filter (fun e => String.eqb (fst e) ".git")
                                es)))
      by (eapply lookup_replace; eauto).
    assert (G1 : not_link
                   (assoc ".git"
                      (filter (fun e => String.eqb (fst e) ".git") es))
                 = true).
    { rewrite (assoc_filter _ ".git" (fun k => String.eqb k ".git"))
        by reflexivity.
      destruct (assoc ".git" es) as [g|] eqn:G; [|reflexivity].
      apply assoc_in, Hall' in G as [_ G]. now destruct g. }
    destruct (ReleaseMoreFacts.extract_changelog_for_release_fails
                fuel self fs1 _ Hops Htmp C1 L1 G1
                (ReleaseMoreFacts.assoc_filter_out _ "tmp"
                   (fun k => String.eqb k ".git") es eq_refl)
                (ReleaseMoreFacts.assoc_filter_out _ "changelog.txt"
                   (fun k => String.eqb k ".git") es eq_refl)
                (set_fs (fs s2) s2) Hs2) as [s3 H3].
    rewrite H3. eauto. }
  destruct Hraise as (e & s3 & H). exists e, s3. split; [exact H|].
  pose proof (RunMoreFacts.create_github_release_raise fuel env self s2 e)
    as Q.
  rewrite H in Q. specialize (Q eq_refl). unfold queue in Q. simpl in Q.
  now injection Q.
Qed.

(** X14.  The notes of the release are made of the first entry of the
    change-log only: after the three lines of the heading, what follows
    the first line that begins with four dashes, that line included,
    changes nothing of the notes. *)
Theorem X14_release_notes_first_entry_only :
  forall (lines older : list string) (sep : string),
    forallb one_line (lines ++ sep :: older) = true ->
    3 <= length lines ->
    startswith "----" (strip (sep ++ nl)) = true ->
    release_notes (unlines (lines ++ sep :: older))
    = release_notes (unlines lines).
Proof.
  intros lines older sep Hone Hlen Hsep.
  assert (Hone' : forallb one_line lines = true).
  { rewrite forallb_app in Hone. now apply andb_true_iff in Hone. }
  unfold release_notes.
  rewrite !ReleaseMoreFacts.readlines_unlines by assumption.
  rewrite map_app, skipn_app, length_map.
  replace (3 - length lines) with 0 by lia.
  cbn [map skipn].
  now rewrite (ReleaseMoreFacts.take_entry_stop _ _ _ Hsep).
Qed.

(** X15.  [print_all_commands] prints nothing for an empty queue and
    nothing else stays unprinted: each command of the queue is printed
    as its program and its arguments with spaces between them, and its
    description, when it has one, after [# ]. *)
Theorem X15_every_queued_command_is_printed :
  forall (q : Remote.t),
    (Remote.print_all_commands q = [] <-> Remote.commands q = [])
    /\ (forall c,
           In c (Remote.commands q) ->
           In (join " " (Remote.kind_str (Remote.type c) :: Remote.args c))
              (Remote.print_all_commands q)
           /\ (Remote.description c <> EmptyString
               -> In ("# " ++ Remote.description c)%string
                     (Remote.print_all_commands q))).
Proof.
  intros q. unfold Remote.print_all_commands.
  destruct (Remote.commands q) as [|c0 cs] eqn:E.
  - split; [tauto|]. intros c [].
  - split; [split; discriminate|].
    intros c Hin.
    assert (Hr : forall l,
               In l (Remote.render_command c) ->
               In l ([(nl ++ Remote.banner)%string;
                      "REMOTE COMMANDS TO RUN MANUALLY:"; Remote.banner;
                      (nl ++ "cd " ++ path_str (Remote.project_dir q)
                          ++ nl)%string]
                     ++ flat_map Remote.render_command (c0 :: cs)
                     ++ [Remote.banner])).
    { intros l Hl. apply in_or_app. right. apply in_or_app. left.
      apply in_flat_map. eauto. }
    split.
    + apply Hr. unfold Remote.render_command.
      apply in_or_app. right. now left.
    + intros Hd. apply Hr. unfold Remote.render_command.
      apply in_or_app. left.
      apply String.eqb_neq in Hd. rewrite Hd. now left.
Qed.

(** X16.  The two safety errors about the output directory, "Path
    outside output directory" and "Path not direct child of output
    directory", are raised by [build_zip_package] and by [create_backup]
    before the archive is opened and before a program is started: the
    files are as they were. *)
Theorem X16_output_safety_errors_come_first :
  forall (fuel : nat) (env : Env) (self : ModBuilder.t) (s s' : state)
         (e : exn),
    output_safety_error e ->
    (build_zip_package fuel env self s = (Raise e, s') -> fs s' = fs s)
    /\ (create_backup fuel env self s = (Raise e, s') -> fs s' = fs s).
Proof.
  intros fuel env self s s' e Hbad.
  assert (Hcommit : forall change,
             never output_safety_error (on_fs (SafeFileOps.commit change))).
  { intros change. apply never_on_fs. intros x e' H.
    apply commit_errors in H. now subst. }
  assert (Hprobe : forall argv, never output_safety_error (probe env argv)).
  { intros argv. unfold probe. never_tac. }
  split.
  - unfold build_zip_package, bind at 1 2 3 4, get, required, modify.
    destruct (version s) as [v|]; [|unfold raise; now intros [= _ <-]].
    unfold ret, lift.
    destruct (SafeFileOps._validate_path_in_output fuel (file_ops self)
                (fs s) _) as [zip_path|e0]; [|now intros [= _ <-]].
    intros H. exfalso.
    match type of H with
    | ?m ?x = _ =>
        assert (N : never output_safety_error m);
        [|apply (N x e); [now rewrite H|exact Hbad]]
    end.
    never_tac; apply Hcommit.
  - unfold create_backup, bind at 1 2 3, get, modify, lift.
    destruct (SafeFileOps._validate_path_in_output fuel (file_ops self)
                (fs s) _) as [backup_path|e0]; [|now intros [= _ <-]].
    intros H. exfalso.
    match type of H with
    | ?m ?x = _ =>
        assert (N : never output_safety_error m);
        [|apply (N x e); [now rewrite H|exact Hbad]]
    end.
    never_tac; apply Hprobe.
Qed.

(** X17.  When the entries of the project directory are files and
    directories, no symbolic links, [clean_project_directory] raises
    nothing and leaves a file system that differs from the one before in
    the project directory only: it holds its entry [.git], as it was,
    and nothing else.  So with [.git] and one file in it, the file is
    removed and [.git] is untouched. *)
Theorem X17_cleanup_without_links :
  forall (fuel : nat) (self : ModBuilder.t) (s : state)
         (es : list (string * node)),
    SafeFileOps.project_dir (file_ops self) = project_dir self ->
    canonical (fs s) (project_dir self) = true ->
    lookup (fs s) (project_dir self) = Some (Dir es) ->
    distinct (map fst es) = true ->
    forallb (fun e => plain_name (fst e) && negb (is_link (snd e))) es = true ->
    exists fs',
      clean_project_directory fuel self s = (Ok tt, set_fs fs' s)
      /\ replace (project_dir self)
                 (Dir (filter (fun e => String.eqb (fst e) ".git") es)) (fs s)
         = Some fs'.
Proof.
  intros fuel self s es Hops Hcan Hl Hd Hall.
  apply CleanFacts.clean_project_directory_plain; auto.
  - now apply PackageFacts.distinct_NoDup.
  - intros n ch Hin. rewrite forallb_forall in Hall.
    specialize (Hall _ Hin). simpl in Hall.
    apply andb_true_iff in Hall as [Hp Hk].
    apply negb_true_iff in Hk. auto.
Qed.

(** ** The properties on the sample project *)




(** X4 on the path [.git/..] of a small project. *)
Lemma X4_witness :
  resolve 3 Sample.small_tree (Sample.project_path ++ [".git"; ".."])
  = Some (SafeFileOps.project_dir Sample.ops)
  /\ exists fs',
       safe_rmtree 3 Sample.ops (Sample.project_path ++ [".git"; ".."])
                   Sample.small_tree = (Ok tt, fs')
       /\ lookup fs' (SafeFileOps.project_dir Sample.ops ++ [".git"]) = None.
Proof.
  assert (H1 : SafeFileOps.project_dir Sample.ops
               = Sample.output_path ++ ["looting"]) by reflexivity.
  assert (H2 : resolve 3 Sample.small_tree
                       (Sample.project_path ++ [".git"; ".."])
               = Some (SafeFileOps.project_dir Sample.ops))
    by (vm_compute; reflexivity).
  assert (H3 : lookup Sample.small_tree (SafeFileOps.project_dir Sample.ops)
               = Some (Dir [(".git", Sample.git_dir);
                            ("notes.txt", File (Text "notes"))]))
    by reflexivity.
  assert (H4 : not_link (assoc ".git" [(".git", Sample.git_dir);
                                       ("notes.txt", File (Text "notes"))])
               = true) by reflexivity.
  assert (H5 : lookup Sample.small_tree Sample.output_path
               = Some (Dir [("looting",
                             Dir [(".git", Sample.git_dir);
                                  ("notes.txt", File (Text "notes"))]);
                            ("looting-2", Dir [("x", File (Text "x"))])]))
    by reflexivity.
  assert (H6 : distinct
                 (map fst
                    [("looting",
                      Dir [(".git", Sample.git_dir);
                           ("notes.txt", File (Text "notes"))]);
                     ("looting-2", Dir [("x", File (Text "x"))])]) = true)
    by reflexivity.
  split; [exact H2|].
  destruct (X4_rmtree_accepts_project_directory
              3 Sample.ops Sample.small_tree _ _ _ _ _ H1 H2 H3 H4 H5 H6)
    as (fs' & Hrm & _ & Hgit).
  exists fs'. auto.
Defined.

(** X5 on the sample project. *)
Lemma X5_witness :
  init 3 Sample.script_file ["usr"; "bin"; "factorio"]
       (fs (Sample.start "2.0.0" ["2.0.0"] []))
  = Ok (Sample.builder, Sample.start "2.0.0" ["2.0.0"] [])
  /\ output_dir Sample.builder = parent (project_dir Sample.builder)
  /\ project_dir Sample.builder <> []
  /\ canonical (fs (Sample.start "2.0.0" ["2.0.0"] []))
               (project_dir Sample.builder) = true.
Proof.
  assert (H : init 3 Sample.script_file ["usr"; "bin"; "factorio"]
                   (fs (Sample.start "2.0.0" ["2.0.0"] []))
              = Ok (Sample.builder, Sample.start "2.0.0" ["2.0.0"] []))
    by (vm_compute; reflexivity).
  split; [exact H|].
  destruct (X5_init_invariants 3 Sample.script_file ["usr"; "bin"; "factorio"]
              (fs (Sample.start "2.0.0" ["2.0.0"] []))) as [I _].
  destruct (I _ _ H) as (_ & _ & Ho & _ & _ & Hne & Hc & _).
  auto.
Defined.

(** X6 on the sample project. *)
Lemma X6_witness :
  fst (validate_versions 3 (Sample.env [] (Line "y")) Sample.builder
         (Sample.start "2.0.0" ["2.0.0"; "1.0.0"] [])) = Ok tt
  /\ exists v,
       version (snd (validate_versions 3 (Sample.env [] (Line "y"))
                       Sample.builder
                       (Sample.start "2.0.0" ["2.0.0"; "1.0.0"] [])))
       = Some v
       /\ validate_version_format v = true.
Proof.
  assert (H : validate_versions 3 (Sample.env [] (Line "y")) Sample.builder
                (Sample.start "2.0.0" ["2.0.0"; "1.0.0"] [])
              = (Ok tt,
                 snd (validate_versions 3 (Sample.env [] (Line "y"))
                        Sample.builder
                        (Sample.start "2.0.0" ["2.0.0"; "1.0.0"] []))))
    by (vm_compute; reflexivity).
  split; [now rewrite H|].
  destruct (X6_validate_versions_success _ _ _ _ _ H)
    as (v & Hv & _ & _ & Hf & _).
  exists v. auto.
Defined.

(** X8 on the version [2.0.0]. *)
Lemma X8_witness :
  startswith "v" "2.0.0" = false
  /\ version_number (add_v_prefix "2.0.0") = "2.0.0".
Proof.
  assert (H : startswith "v" "2.0.0" = false) by reflexivity.
  split; [exact H|].
  destruct (X8_prefix_round_trip "2.0.0") as (_ & _ & R & _).
  exact (R H).
Defined.


(** X11 on a run of the sample project without cleanup and without the
    test. *)
Lemma X11_witness :
  fst (run_body 3 (Sample.env [] (Line "y")) Sample.builder true true
         (Sample.start "2.0.0" ["2.0.0"] [])) = Ok true
  /\ exists v,
       map Remote.args
         (Remote.commands
            (remote_cmds
               (snd (run_body 3 (Sample.env [] (Line "y")) Sample.builder
                       true true (Sample.start "2.0.0" ["2.0.0"] [])))))
       = [["tag"; "-a"; v; "-m"; ("Release " ++ v)%string];
          ["push"; "origin"; v];
          ["release"; "create"; v; "/home/dev/looting_2.0.0.zip";
           "-t"; ("Version " ++ v)%string;
           "-F"; "/home/dev/looting/tmp/changes.txt"]].
Proof.
  assert (H : run_body 3 (Sample.env [] (Line "y")) Sample.builder true true
                (Sample.start "2.0.0" ["2.0.0"] [])
              = (Ok true,
                 snd (run_body 3 (Sample.env [] (Line "y")) Sample.builder
                        true true (Sample.start "2.0.0" ["2.0.0"] []))))
    by (vm_compute; reflexivity).
  split; [now rewrite H|].
  destruct (X11_complete_run_queues_release _ _ _ _ _ _ _ H)
    as (v & name & Hv & _ & Hz & Hn & Hq & _).
  exists v. rewrite Hq.
  assert (Hname : name = PStr "looting")
    by (rewrite <- Hn; vm_compute; reflexivity).
  assert (Hver : v = "v2.0.0").
  { assert (E : version
                  (snd (run_body 3 (Sample.env [] (Line "y")) Sample.builder
                          true true (Sample.start "2.0.0" ["2.0.0"] [])))
                = Some "v2.0.0") by (vm_compute; reflexivity).
    rewrite Hv in E. now injection E. }
  subst name v. reflexivity.
Defined.

(** X12 on a run of the sample project where the user declines. *)
Lemma X12_witness :
  fst (run_body 3 (Sample.env [] (Line "n")) Sample.builder true true
         (Sample.start "2.0.0" ["2.0.0"] [])) = Ok false
  /\ transcript
       (snd (run_body 3 (Sample.env [] (Line "n")) Sample.builder true true
               (Sample.start "2.0.0" ["2.0.0"] []))) = []
  /\ Remote.commands
       (remote_cmds
          (snd (run_body 3 (Sample.env [] (Line "n")) Sample.builder
                  true true (Sample.start "2.0.0" ["2.0.0"] [])))) = [].
Proof.
  assert (H : run_body 3 (Sample.env [] (Line "n")) Sample.builder true true
                (Sample.start "2.0.0" ["2.0.0"] [])
              = (Ok false,
                 snd (run_body 3 (Sample.env [] (Line "n")) Sample.builder
                        true true (Sample.start "2.0.0" ["2.0.0"] []))))
    by (vm_compute; reflexivity).
  assert (Hne : Ok false <> Ok true :> result bool) by discriminate.
  split; [now rewrite H|].
  destruct (X12_incomplete_run_prints_nothing _ _ _ _ _ _ _ _ H Hne)
    as (Ht & _ & Hq).
  split; [exact Ht|]. now rewrite (Hq eq_refl).
Defined.

(** X13 on a small project. *)
Lemma X13_witness :
  fst (clean_project_directory 3 Sample.builder
         (Sample.on_tree Sample.small_tree)) = Ok tt
  /\ exists e s3,
       create_github_release 3 (Sample.env [] (Line "y")) Sample.builder
         (snd (clean_project_directory 3 Sample.builder
                 (Sample.on_tree Sample.small_tree)))
       = (Raise e, s3).
Proof.
  assert (H1 : SafeFileOps.project_dir (file_ops Sample.builder)
               = project_dir Sample.builder) by reflexivity.
  assert (H2 : tmp_dir Sample.builder = project_dir Sample.builder ++ ["tmp"])
    by reflexivity.
  assert (H3 : canonical (fs (Sample.on_tree Sample.small_tree))
                         (project_dir Sample.builder) = true)
    by reflexivity.
  assert (H4 : lookup (fs (Sample.on_tree Sample.small_tree))
                      (project_dir Sample.builder)
               = Some (Dir [(".git", Sample.git_dir);
                            ("notes.txt", File (Text "notes"))]))
    by reflexivity.
  assert (H5 : distinct (map fst [(".git", Sample.git_dir);
                                  ("notes.txt", File (Text "notes"))])
               = true) by reflexivity.
  assert (H6 : forallb (fun e => plain_name (fst e)
                                 && negb (is_link (snd e)))
                       [(".git", Sample.git_dir);
                        ("notes.txt", File (Text "notes"))] = true)
    by reflexivity.
  assert (H7 : forall fs0,
             snd (subprocess_run (Sample.env [] (Line "y"))
                    ["gh"; "--version"] None fs0) = fs0)
    by (intros fs0; reflexivity).
  destruct (X13_release_after_cleanup_fails
              3 (Sample.env [] (Line "y")) Sample.builder
              (Sample.on_tree Sample.small_tree)
              (snd (clean_project_directory 3 Sample.builder
                      (Sample.on_tree Sample.small_tree)))
              _ H1 H2 H3 H4 H5 H6 H7 eq_refl)
    as (Hc & e & s3 & Hr & _).
  split; [exact Hc|]. exists e, s3. exact Hr.
Defined.

(** X14 on a change-log with two entries. *)
Lemma X14_witness :
  release_notes
    (unlines (["-----"; "Version: 2.0.0"; "Date: 2025-01-01";
               "  Changes:"; "    - Something changed."]
              ++ "-----" :: ["Version: 1.0.0"; "Date: 2024-01-01";
                             "  Changes:"; "    - First release."]))
  = release_notes
      (unlines ["-----"; "Version: 2.0.0"; "Date: 2025-01-01";
                "  Changes:"; "    - Something changed."]).
Proof.
  apply X14_release_notes_first_entry_only;
    [reflexivity|simpl; lia|reflexivity].
Defined.

(** X15 on a queue of one command. *)
Lemma X15_witness :
  In (Remote.mk_command Remote.Git ["push"; "origin"; "v2.0.0"]
                        "Push tag to remote")
     (Remote.commands
        (Remote.git_command (Remote.init Sample.project_path)
           ["push"; "origin"; "v2.0.0"] "Push tag to remote"))
  /\ In "git push origin v2.0.0"
        (Remote.print_all_commands
           (Remote.git_command (Remote.init Sample.project_path)
              ["push"; "origin"; "v2.0.0"] "Push tag to remote")).
Proof.
  assert (H : In (Remote.mk_command Remote.Git ["push"; "origin"; "v2.0.0"]
                                    "Push tag to remote")
                 (Remote.commands
                    (Remote.git_command (Remote.init Sample.project_path)
                       ["push"; "origin"; "v2.0.0"] "Push tag to remote")))
    by (left; reflexivity).
  split; [exact H|].
  destruct (X15_every_queued_command_is_printed
              (Remote.git_command (Remote.init Sample.project_path)
                 ["push"; "origin"; "v2.0.0"] "Push tag to remote"))
    as [_ P].
  destruct (P _ H) as [L _]. exact L.
Defined.

(** X16 on a mod whose name has a [/]. *)
Lemma X16_witness :
  output_safety_error
    (BuildError (NotDirectChild ["home"; "dev"; "a"; "b_2.0.0.zip"]))
  /\ fst (build_zip_package 3 (Sample.env [] (Line "y")) Sample.builder
            (set_mod_name (PStr "a/b") Sample.validated))
     = Raise (BuildError (NotDirectChild ["home"; "dev"; "a"; "b_2.0.0.zip"]))
  /\ fs (snd (build_zip_package 3 (Sample.env [] (Line "y")) Sample.builder
                 (set_mod_name (PStr "a/b") Sample.validated)))
     = fs (set_mod_name (PStr "a/b") Sample.validated).
Proof.
  assert (H0 : output_safety_error
                 (BuildError
                    (NotDirectChild ["home"; "dev"; "a"; "b_2.0.0.zip"])))
    by exact I.
  assert (H : build_zip_package 3 (Sample.env [] (Line "y")) Sample.builder
                (set_mod_name (PStr "a/b") Sample.validated)
              = (Raise (BuildError
                          (NotDirectChild
                             ["home"; "dev"; "a"; "b_2.0.0.zip"])),
                 snd (build_zip_package 3 (Sample.env [] (Line "y"))
                        Sample.builder
                        (set_mod_name (PStr "a/b") Sample.validated))))
    by (vm_compute; reflexivity).
  split; [exact H0|]. split; [now rewrite H|].
  destruct (X16_output_safety_errors_come_first
              3 (Sample.env [] (Line "y")) Sample.builder
              (set_mod_name (PStr "a/b") Sample.validated)
              (snd (build_zip_package 3 (Sample.env [] (Line "y"))
                      Sample.builder
                      (set_mod_name (PStr "a/b") Sample.validated)))
              _ H0)
    as [B _].
  exact (B H).
Defined.

(** X17 on a project directory with [.git] and one file. *)
Lemma X17_witness :
  SafeFileOps.project_dir (file_ops Sample.builder)
  = project_dir Sample.builder
  /\ canonical (fs (Sample.on_tree Sample.small_tree))
               (project_dir Sample.builder) = true
  /\ lookup (fs (Sample.on_tree Sample.small_tree))
            (project_dir Sample.builder)
     = Some (Dir [(".git", Sample.git_dir);
                  ("notes.txt", File (Text "notes"))])
  /\ distinct [".git"; "notes.txt"] = true
  /\ exists fs',
       clean_project_directory 3 Sample.builder
                               (Sample.on_tree Sample.small_tree)
       = (Ok tt, set_fs fs' (Sample.on_tree Sample.small_tree))
       /\ replace (project_dir Sample.builder)
                  (Dir [(".git", Sample.git_dir)])
                  (fs (Sample.on_tree Sample.small_tree))
          = Some fs'.
Proof.
  assert (H1 : SafeFileOps.project_dir (file_ops Sample.builder)
               = project_dir Sample.builder) by reflexivity.
  assert (H2 : canonical (fs (Sample.on_tree Sample.small_tree))
                         (project_dir Sample.builder) = true)
    by (vm_compute; reflexivity).
  assert (H3 : lookup (fs (Sample.on_tree Sample.small_tree))
                      (project_dir Sample.builder)
               = Some (Dir [(".git", Sample.git_dir);
                            ("notes.txt", File (Text "notes"))]))
    by (vm_compute; reflexivity).
  assert (H4 : distinct (map fst [(".git", Sample.git_dir);
                                  ("notes.txt", File (Text "notes"))])
               = true) by reflexivity.
  assert (H5 : forallb (fun e => plain_name (fst e) && negb (is_link (snd e)))
                       [(".git", Sample.git_dir);
                        ("notes.txt", File (Text "notes"))] = true)
    by reflexivity.
  split; [exact H1|]. split; [exact H2|]. split; [exact H3|].
  split; [exact H4|].
  exact (X17_cleanup_without_links 3 Sample.builder _ _ H1 H2 H3 H4 H5).
Defined.

End Extras.
